(* ===== verification/_CoqProject ===== *)
-Q . S2P
Prelude.v
PyStr.v
Dates.v
Schema.v
Txn.v
Auth.v
Fixtures.v
Lifecycle.v
Booking.v
Diagnosis.v
Billing.v
Pages.v
App.v
Scripts.v
Mirrors.v
Routing.v
Forms.v
Ui.v
