(* ===== verification/Prelude.v ===== *)
(** * A verification development of the clinic front-desk application

    This library models, as a shallow embedding in Rocq, the Flask
    application [src/app.py] of the patient management system: four
    SQLite tables (patients, appointments, diagnoses, billing), three
    role-scoped dashboards rendered from Jinja templates, and the JSON
    handlers that move an appointment through its lifecycle

      booked -> checked in -> diagnosed / prescribed -> medicines prepared
             -> handed over or couriered -> checked out.

    ** How the program is organised, and how it is modelled

    Every handler of [src/app.py] checks the session's role, opens a
    SQLite connection, runs a few SQL statements, commits (or returns
    early / raises before the commit, which discards the pending
    transaction), then sends WhatsApp notifications and mirrors the
    touched tables to CSV files.  The model follows this shape; the files,
    in dependency order:

    - [Prelude.v] (this file): the scope [clinic_scope], the hint
      databases [clinic] and [clinic_rw], Python truthiness of SQL values
      ([int_truthy], [q_truthy], [x or 0], [x or 'dflt']), the Ltac
      shared by the component files.
    - [PyStr.v]: [str.isspace] on code points U+0000..U+00FF and
      [str.strip], used by [save_diagnosis] (line 815); [repr()] of a
      string, which the [strptime] error message quotes.
    - [Dates.v]: [datetime.strptime(s, '%Y-%m-%d')] as CPython's
      [_strptime] compiles it (its regex with leftmost-first alternation,
      the "unconverted data" check, [datetime.date]'s range checks, the
      [ValueError] message of each failure) and [strftime('%Y-%m-%d')] /
      [strftime('%Y-%m-%d %H:%M:%S')].
    - [Schema.v]: the tables of [init_db] as stdpp [gmap]s keyed by
      primary key, rows as records with [option] for nullable columns,
      and every SQL statement of the handlers as a function on the
      database (INSERT with its PRIMARY KEY / UNIQUE errors, INSERT OR
      IGNORE, INSERT OR REPLACE, UPDATE ... WHERE key, the SELECTs).
    - [Txn.v]: the connection monad [txn]: working copy and committed
      database, [commit], [close] (discard), effects that are never undone,
      the request's clock and uuid supply, Python exceptions as HTTP 500.
      [run] gives (response, committed database, effects).  [txn_post]
      is a post-condition calculus on the monad: [txn_post_solve]
      computes every answer a handler can give without running it.
    - [Auth.v]: the Flask session {username, role}, the role guards,
      [login] against the three accounts [init_db] writes (SHA-256 is a
      Section variable) and [logout]; well-formed sessions and
      well-typed answers (redirects to endpoints [url_for] can build).
    - [Fixtures.v]: concrete sessions, a request environment and a small
      database for the witnesses.
    - [Lifecycle.v]: [prepare_medicine], [hand_over_medicine],
      [courier_done], [complete_checkout]; the abstract machine of spec
      section 4.6 ([lc_step]) and the refinement of the handlers into it.
    - [Booking.v]: [book_appointment], the receptionist dashboard (its
      booking form and its listing), [check_in].
    - [Diagnosis.v]: [save_diagnosis], [get_diagnosis], the doctor's and
      the pharmacist's dashboards.
    - [Billing.v]: [get_billing] and [billing_prepare].
    - [Pages.v]: the 38-column row the dashboards fetch, read by position
      as the templates do ([appt[i]]), Jinja truthiness, the status
      badges, the cells and the action buttons of the templates, and
      each template's table row as its list of cells.
    - [App.v]: one request per route and [handle], the dispatch; the
      database as a transition system ([db_step], [reachable], stdpp's
      [rtc]); a generic Section [Preservation] proving that every handler
      keeps any database property each of its statements keeps, under the
      guards the handler has checked (the interface [StmtClosed], with
      four instances); the end-to-end visit of spec section 8 as a
      replayed sequence of requests.
    - [Scripts.v]: the pages' JavaScript: the [onclick] of every row
      button and the request its function fetches, the fixed [alert]
      each shows whatever the answer, the billing and diagnosis editors
      ([showBillingForm] / [saveBilling], [showDoctorForm] /
      [saveDiagnosis]) with the HTML rules of their elements (a
      [<select>] reads [''] for a value none of its options has, text
      inputs drop line breaks, date inputs keep only valid date strings,
      textareas normalise CR), and [searchAppointments], on the
      rendered rows as written and on the joined rows, which agree.
    - [Mirrors.v]: start-up and the files of [uploads/]: [init_db]
      ([CREATE TABLE IF NOT EXISTS] keeps stored tables; [users.csv]
      rewritten with the accounts of [Auth.users]), [save_to_csv] as the
      effect [CsvMirror t snapshot], where the snapshot is the database
      as committed when [read_sql_query] reads it, overwriting the file
      of table [t]; what one request does to the files, and the
      deployment of a server handling one request at a time as an
      inductive reachability relation [sys_reach] over the first start,
      restarts and requests, with a flag recording whether a
      [save_diagnosis] has failed after its commit.  Decidable equality of rows and databases ([Schema.v])
      makes [csv_in_sync] decidable, so concrete runs are checked by
      [decide].
    - [Routing.v]: Flask's URL map, one definition per [@app.route]
      decorator (rule text, methods, endpoint), Werkzeug's matching of
      path segments with its 404 and 405 answers, each view's reading of
      its body, and the [fetch] calls of the pages' scripts.
    - [Forms.v]: the two HTML forms, the login form and the
      receptionist's booking form, with the browser's value sanitization
      of their controls (text, password, number, date inputs; selects)
      and the form data set each posts to its page's URL.
    - [Ui.v]: the pages and the server together: a click on a row
      button runs its [onclick], its [fetch] goes through the URL map
      to the handler, the page alerts and reloads the dashboard; a
      browser follows redirects ([browse], with a bound on the number
      of redirects followed).

    ** What the theorems show (claim numbers C1..C40 of the manifest)
    - Each handler on every branch, errors included: C1-C4 (lifecycle),
      C10-C14 and C33 (booking, check-in), C15-C17 (diagnosis), C19, C21
      and C27 (billing).  Round trips: C9 (strptime of strftime), C17
      (save then read a diagnosis), C19 (save then read billing: every
      field with its default, the progress flags as they were), C40
      (the billing editor opened and saved untouched keeps the row
      exactly when every column is one its inputs give back, and
      otherwise fills its NULL charges, delivery type and courier
      channel with the editor's defaults, flags untouched);
      idempotence: C8 (a retried lifecycle call), C7 ([billing_prepare]).
    - Composition of the pages with the server: C20, every [fetch] of
      the scripts (row buttons, and the editors' Save with their JSON
      bodies) is dispatched by the URL map to the request [Scripts.v]
      sends, for ids of letters, digits, ['-'] and ['_'].  C31, the
      receptionist's booking form always reaches the dashboard's booking
      path, and [strptime] accepts its date exactly when the date input
      holds a valid date with a four-digit year (an empty date, which
      the form allows, fails with [ValueError]).  C18 and C34, a click
      on the pharmacist's Prepare Medicine or the receptionist's
      Check-In button of a listed row is routed to its handler, succeeds
      and is alerted, and the reloaded row shows the result (Check-In
      disappears; Prepare Medicine stays, see below).  C25, every
      redirect lands within two more requests on the login form or the
      dashboard of the session's own role.
    - Equivalence: C39, [strptime(s, '%Y-%m-%d')], computed by the regex
      with its first-match rule, accepts exactly the spellings of valid
      dates given declaratively ([ymd_spellings]).
    - Refinement: C5, every lifecycle call is a failure that changes
      nothing or one step of the abstract machine on its row.
    - Invariants: C22, every reachable database has unique mobile
      numbers, appointments whose patient exists, consistent progress
      flags and well-formed diagnosis rows; C24, no progress flag is
      ever cleared; C6, every request, run on its own, leaves the CSV
      file of every table it changed holding that table as committed,
      except a [save_diagnosis] that fails after its commit (the example
      [Mirrors.orphan_prescription_desyncs]).  For a server handling one
      request at a time it follows that every mirror stays equal to its
      table (lemma [Mirrors.sys_reach_csv_in_sync]); [app.run()] serves
      requests on threads, and [Mirrors.mirror_race] shows two
      interleaved check-ins leaving [appointments.csv] stale, as spec
      section 5 allows; C35, no appointment or patient is deleted and
      only check-in rewrites an appointment; C32, on reachable databases
      the pharmacist's queue is exactly the diagnosed appointments whose
      medicines text is not blank.  Safety: C23, a session without the route's role
      changes nothing.  Login: C26.
    - Type: C36, every request from a well-formed session keeps it well
      formed and answers a redirect only to an endpoint [url_for] can
      build, never a [KeyError].  Bounds: C37, every progress flag of a
      reachable database is NULL, 0 or 1.  Liveness: C38, from every
      reachable database each appointment can be taken to checkout by
      four requests, which all succeed.
    - What the code does differently from the spec: C3 (checkout
      crashes on a billing row whose [amount_paid] is still NULL), C13
      (the dashboard's booking creates no billing row), C15 (a diagnosis
      is stored although the request fails), C27 (billing rows for ids
      no appointment has, against the invariant of spec section 3;
      [App.orphan_rows_reachable] shows diagnosis rows too), C28-C30 (the templates read the lifecycle
      flags, the badges and the diagnosis fields at the wrong positions
      of the row, so the buttons the receptionist and the pharmacist are
      offered do not follow the lifecycle the handlers enforce; C18: the
      Prepare Medicine button stays after a successful click); C40
      (saving the billing editor untouched fills NULL columns and turns
      an empty courier channel into 'Rapido').  [Scripts.v] also shows,
      as an example, a refused hand-over that the page reports as done.

    ** Bounds, fuel and what is idealised
    - Fuel: [Dates.dec] runs the digit loop with a fuel of 5, enough
      for every value below 10^5 (the lemma [Dates.dec_aux_fuel_enough]:
      the loop defined by well-founded recursion with Equations,
      [dec_loop], terminates and agrees with the fuelled one), so for the years 1..9999 that
      [datetime.date] accepts; every other definition is structural.  The liveness theorem C38 exhibits its four requests, so
      no bound on the length of runs is needed.
    - REAL columns and JSON numbers are rationals [Q] (exact arithmetic
      instead of IEEE floats); the only arithmetic is checkout's total
      due.  The [age] column keeps the string the form sent (SQLite's
      INTEGER affinity would convert a decimal string to an integer;
      nothing reads it).
    - Strings are [String.string], code points U+0000..U+00FF.
    - [uuid.uuid4()] and [datetime.now()] are inputs of the request;
      freshness of a uuid is a hypothesis where a theorem needs it.  The
      booking handlers call [datetime.now()] twice (booking date, today):
      both calls read the one clock value of the request.  Each
      request runs alone against the committed database (the
      one-request-at-a-time model of spec section 5); the one place
      where interleaving changes an outcome the model states, the CSV
      mirrors, is stated per request (C6) and its race is exhibited.
    - [Ui.browse] follows at most two redirects: C25 shows that two
      suffice for every redirect of the application.
    - In the scripts, a number [<input>] set to a JSON number reads it
      back unchanged ([parseFloat(String(x)) === x] for every finite
      double), so it holds a rational, or nothing once cleared;
      [location.reload()] is the next dashboard request; an appointment
      id, a uuid, needs no escaping in the [onclick] string.
    - The URL map is matched on the path as the server decodes it;
      percent-decoding, the browser's normalisation of ['.'] segments,
      and the HEAD and OPTIONS methods Flask adds are not modelled, which
      is why C20 assumes ids of unreserved characters.  A request body
      of another shape than the one its view reads is left unmodelled
      ([BodyNotModelled]).
    - Not modelled: the HTML markup and CSS; the text pandas writes into
      a CSV file (a mirror is modelled by the table it holds: row order
      and float formatting are not part of any property); the WhatsApp
      transport (a [print]); pandas' reading of [users.csv], which is the
      list [init_db] writes; the development server [app.run] beyond the race above: none of
      them holds program logic beyond what the models above state.
*)

From stdpp Require Export base gmap strings list.
From Stdlib Require Export QArith Lqa.
From Stdlib Require Export String Ascii.

Declare Scope clinic_scope.
Delimit Scope clinic_scope with clinic.
Open Scope string_scope.

Create HintDb clinic.
Create Rewrite HintDb clinic_rw.

(** ** Python truthiness of the values the handlers test *)

(** An INTEGER column read back from SQLite: NULL is [None]. *)
Definition int_truthy (v : option Z) : bool :=
  match v with
  | Some z => negb (Z.eqb z 0)
  | None => false
  end.

(** A REAL column or a JSON number: [0.0] and NULL are falsy. *)
Definition q_truthy (q : Q) : bool := negb (Qeq_bool q 0).

(** [x or 0] on a nullable REAL column. *)
Definition or_zero (v : option Q) : Q :=
  match v with Some q => if q_truthy q then q else 0 | None => 0 end.

(** [x or 'dflt'] on a nullable string: NULL and [''] give the default. *)
Definition or_str (v : option string) (dflt : string) : string :=
  match v with
  | Some s => if String.eqb s EmptyString then dflt else s
  | None => dflt
  end.

(** Strict comparison [a < b] on floats, as a boolean. *)
Definition Qltb (a b : Q) : bool := negb (Qle_bool b a).

(** Ltac shared by the component files: case on a string equality test
    and on the truthiness of an INTEGER value. *)
Ltac destruct_str_eqb :=
  match goal with
  | |- context [String.eqb ?a ?b] => destruct (String.eqb_spec a b)
  | H : context [String.eqb ?a ?b] |- _ => destruct (String.eqb_spec a b)
  end.

(** [lia] after turning [/] and [mod] into their defining equations: the
    arithmetic of digits in [Dates.v]. *)
Ltac zify_divmod := Z.div_mod_to_equations; lia.

(** Case split on every integer value of [x] in [lo..hi] (the bounds are
    numerals and the range is a hypothesis): [lia] closes the values
    outside it. *)
Ltac z_cases x lo hi :=
  lazymatch eval compute in (Z.ltb hi lo) with
  | true => exfalso; lia
  | false =>
      let lo' := eval compute in (Z.succ lo) in
      destruct (Z.eq_dec x lo) as [->|?]; [| z_cases x lo' hi]
  end.

Lemma int_truthy_one : int_truthy (Some 1%Z) = true.
Proof. reflexivity. Qed.

Lemma int_truthy_Some_iff (z : Z) : int_truthy (Some z) = true <-> z <> 0%Z.
Proof. unfold int_truthy. rewrite negb_true_iff, Z.eqb_neq. tauto. Qed.

Lemma int_truthy_None : int_truthy None = false.
Proof. reflexivity. Qed.

Lemma or_zero_Qeq (v : option Q) :
  (or_zero v == match v with Some q => q | None => 0 end)%Q.
Proof.
  destruct v as [q|]; simpl; [|reflexivity].
  unfold q_truthy. destruct (Qeq_bool q 0) eqn:E; simpl; [|reflexivity].
  apply Qeq_bool_iff in E. rewrite E. reflexivity.
Qed.

Lemma Qltb_spec (a b : Q) : Qltb a b = true <-> (a < b)%Q.
Proof.
  unfold Qltb. rewrite negb_true_iff.
  split; intros H.
  - apply Qnot_le_lt. intros Hle. apply Qle_bool_iff in Hle. congruence.
  - destruct (Qle_bool b a) eqn:E; [|reflexivity].
    apply Qle_bool_iff in E. exfalso. apply (Qlt_not_le a b); assumption.
Qed.

Lemma or_str_nonempty (v : option string) (d : string) :
  d <> EmptyString -> or_str v d <> EmptyString.
Proof.
  intros Hd. destruct v as [s|]; simpl; [|exact Hd].
  destruct (String.eqb_spec s EmptyString); congruence.
Qed.

#[export] Hint Resolve int_truthy_one : clinic.
#[export] Hint Rewrite int_truthy_None : clinic_rw.
