(* ===== verification/PyStr.v ===== *)
(** * Python strings: [str.isspace] and [str.strip]

    [save_diagnosis] (line 815 of [src/app.py]) derives
    [medicines_prescribed] from [data['medicines'].strip()].  Python's
    [strip()] without arguments removes leading and trailing characters
    for which [str.isspace] holds; on code points U+0000..U+00FF those are
    U+0009..U+000D, U+001C..U+001F, U+0020, U+0085 and U+00A0 (CPython's
    [_Py_ascii_whitespace] and the Latin-1 part of the Unicode White_Space
    and bidirectional classes it uses). *)

From S2P Require Import Prelude.

Module PyStr.

(** [c.isspace()] *)
Definition is_py_space (c : ascii) : bool :=
  let n := nat_of_ascii c in
  (Nat.leb 9 n && Nat.leb n 13) || (Nat.leb 28 n && Nat.leb n 32) || Nat.eqb n 133
  || Nat.eqb n 160.

(** Drop the leading characters that satisfy [is_py_space]. *)
Fixpoint drop_spaces (l : list ascii) : list ascii :=
  match l with
  | [] => []
  | c :: r => if is_py_space c then drop_spaces r else l
  end.

(** [s.strip()] *)
Definition strip (s : string) : string :=
  string_of_list_ascii (rev (drop_spaces (rev (drop_spaces (list_ascii_of_string s))))).

(** Python's truthiness of a string: non-empty. *)
Definition str_truthy (s : string) : bool := negb (String.eqb s EmptyString).

(** ** [repr()] of a string, as error messages quote it *)

(** A lowercase hexadecimal digit. *)
Definition hex_digit (n : nat) : ascii :=
  ascii_of_nat (if Nat.ltb n 10 then 48 + n else 87 + n).

(** [\xHH] *)
Definition hex_escape (c : ascii) : list ascii :=
  ["\"%char; "x"%char; hex_digit (Nat.div (nat_of_ascii c) 16); hex_digit (Nat.modulo (nat_of_ascii c) 16)].

(** [c.isprintable()] on U+0000..U+00FF: not the C0 and C1 controls,
    DEL, the no-break space (category Zs) or the soft hyphen (Cf). *)
Definition is_py_printable (c : ascii) : bool :=
  let n := nat_of_ascii c in
  negb (Nat.ltb n 32 || Nat.eqb n 127 || (Nat.leb 128 n && Nat.leb n 160) || Nat.eqb n 173).

(** One character inside the quotes ([unicode_repr] of CPython). *)
Definition repr_char (quote c : ascii) : list ascii :=
  if Ascii.eqb c quote || Ascii.eqb c "\"%char then ["\"%char; c]
  else if Ascii.eqb c "009"%char then ["\"%char; "t"%char]
  else if Ascii.eqb c "010"%char then ["\"%char; "n"%char]
  else if Ascii.eqb c "013"%char then ["\"%char; "r"%char]
  else if is_py_printable c then [c]
  else hex_escape c.

(** [repr(s)]: single quotes, unless [s] has a single quote and no
    double quote. *)
Definition py_repr (s : string) : string :=
  let l := list_ascii_of_string s in
  let quote :=
    if existsb (Ascii.eqb "'"%char) l && negb (existsb (Ascii.eqb "034"%char) l)
    then "034"%char else "'"%char in
  string_of_list_ascii (quote :: List.concat (map (repr_char quote) l) ++ [quote])%list.

(** ** Lemmas *)

Lemma drop_spaces_nil_iff (l : list ascii) :
  drop_spaces l = [] <-> Forall (fun c => is_py_space c = true) l.
Proof.
  induction l as [|c r IH]; cbn; [split; auto|].
  destruct (is_py_space c) eqn:E.
  - rewrite IH. split; [by constructor|]. by inversion 1.
  - split; [discriminate|]. inversion 1; congruence.
Qed.

(** What is left after [drop_spaces] starts with a non-space. *)
Lemma drop_spaces_head (l : list ascii) :
  drop_spaces l = [] \/ exists c r, drop_spaces l = c :: r /\ is_py_space c = false.
Proof.
  induction l as [|c r IH]; cbn; [by left|].
  destruct (is_py_space c) eqn:E; [done|]. right. by exists c, r.
Qed.

Lemma Forall_spaces_drop (l : list ascii) :
  Forall (fun c => is_py_space c = true) (drop_spaces l) ->
  Forall (fun c => is_py_space c = true) l.
Proof.
  intros H. apply drop_spaces_nil_iff.
  destruct (drop_spaces_head l) as [E | (c & r & E & Hc)]; [done|].
  rewrite E in H. inversion H; congruence.
Qed.

Lemma string_of_list_ascii_nil_iff (l : list ascii) :
  string_of_list_ascii l = EmptyString <-> l = [].
Proof. destruct l; cbn; split; congruence. Qed.

(** [s.strip()] is empty exactly when every character of [s] is
    whitespace. *)
Lemma strip_empty_iff (s : string) :
  strip s = EmptyString <-> Forall (fun c => is_py_space c = true) (list_ascii_of_string s).
Proof.
  unfold strip. rewrite string_of_list_ascii_nil_iff.
  split.
  - intros H. apply (f_equal (@rev ascii)) in H. rewrite rev_involutive in H. cbn in H.
    apply drop_spaces_nil_iff in H.
    apply Forall_rev in H. rewrite rev_involutive in H. by apply Forall_spaces_drop.
  - intros H. apply drop_spaces_nil_iff in H. rewrite H. reflexivity.
Qed.

End PyStr.
