(* ===== verification/Dates.v ===== *)
(** * Dates: [datetime.strptime] and [strftime] with the format ['%Y-%m-%d']

    [datetime.date] values are records of three integers.  The parser
    follows CPython's [_strptime]: for ['%Y-%m-%d'] it compiles the regex
    [(?P<Y>\d\d\d\d)-(?P<m>1[0-2]|0[1-9]|[1-9])-(?P<d>3[0-1]|[1-2]\d|0[1-9]|[1-9]| [1-9])],
    takes the first match in the regex engine's priority order
    ([format_regex.match]), raises "unconverted data remains" when the
    match stops before the end of the string, and builds
    [datetime.date(year, month, day)], whose constructor checks the year
    range [1..9999] and the length of the month.  Each alternative of the
    regex is a list-of-successes parser here, so [head] of the result is
    the match of a backtracking engine.

    On code points U+0000..U+00FF, [\d] matches exactly '0'..'9' (no other
    character of that range has the Unicode category Nd), so [is_digit]
    below is exact for the strings of the model.

    [strftime('%Y-%m-%d')] writes the year as glibc does (decimal, no
    padding) and month and day on two digits.

    [ymd_spellings] lists declaratively the strings that spell a date;
    the parser is proved to accept exactly those, each as its date. *)

From Equations Require Import Equations.
From S2P Require Import Prelude PyStr.

Module Dates.

Local Open Scope Z_scope.

(** [datetime.date] *)
Record date := mk_date { year : Z; month : Z; day : Z }.

(** [datetime.datetime], as far as the handlers use it. *)
Record datetime := mk_datetime {
  dt_date : date;
  dt_hour : Z;
  dt_minute : Z;
  dt_second : Z
}.

#[export] Instance date_eq_dec : EqDecision date.
Proof. solve_decision. Defined.

(** ** Characters *)

Definition code (c : ascii) : Z := Z.of_nat (nat_of_ascii c).

Definition char_between (lo hi : ascii) (c : ascii) : bool :=
  (code lo <=? code c) && (code c <=? code hi).

(** [\d] *)
Definition is_digit (c : ascii) : bool := char_between "0" "9" c.

Definition digit_value (c : ascii) : Z := code c - 48.

Definition digit_char (n : Z) : ascii := ascii_of_nat (Z.to_nat (48 + n)).

(** ** The regex of ['%Y-%m-%d'], alternative by alternative *)

Definition matches (A : Type) := list (A * list ascii).

(** [(?P<Y>\d\d\d\d)] *)
Definition re_year (s : list ascii) : matches Z :=
  match s with
  | a :: b :: c :: d :: r =>
      if is_digit a && is_digit b && is_digit c && is_digit d
      then [(1000 * digit_value a + 100 * digit_value b + 10 * digit_value c
             + digit_value d, r)]
      else []
  | _ => []
  end.

(** [(?P<m>1[0-2]|0[1-9]|[1-9])] *)
Definition re_month (s : list ascii) : matches Z := (
  match s with
  | a :: b :: r =>
      if Ascii.eqb a "1" && char_between "0" "2" b then [(10 + digit_value b, r)] else []
  | _ => []
  end ++ 
  match s with
  | a :: b :: r =>
      if Ascii.eqb a "0" && char_between "1" "9" b then [(digit_value b, r)] else []
  | _ => []
  end ++ 
  match s with
  | a :: r => if char_between "1" "9" a then [(digit_value a, r)] else []
  | [] => []
  end)%list.

(** [(?P<d>3[0-1]|[1-2]\d|0[1-9]|[1-9]| [1-9])]; [int(' 7')] is 7. *)
Definition re_day (s : list ascii) : matches Z := (
  match s with
  | a :: b :: r =>
      if Ascii.eqb a "3" && char_between "0" "1" b then [(30 + digit_value b, r)] else []
  | _ => []
  end ++ 
  match s with
  | a :: b :: r =>
      if char_between "1" "2" a && is_digit b
      then [(10 * digit_value a + digit_value b, r)] else []
  | _ => []
  end ++ 
  match s with
  | a :: b :: r =>
      if Ascii.eqb a "0" && char_between "1" "9" b then [(digit_value b, r)] else []
  | _ => []
  end ++ 
  match s with
  | a :: r => if char_between "1" "9" a then [(digit_value a, r)] else []
  | [] => []
  end ++ 
  match s with
  | a :: b :: r =>
      if Ascii.eqb a " " && char_between "1" "9" b then [(digit_value b, r)] else []
  | _ => []
  end)%list.

(** A literal character of the format. *)
Definition re_lit (c : ascii) (s : list ascii) : list (list ascii) :=
  match s with
  | a :: r => if Ascii.eqb a c then [r] else []
  | [] => []
  end.

(** The whole pattern: every match, in the engine's priority order. *)
Definition re_ymd (s : list ascii) : matches (Z * Z * Z) :=
  y_r1 ← re_year s;
  r2 ← re_lit "-" y_r1.2;
  m_r3 ← re_month r2;
  r4 ← re_lit "-" m_r3.2;
  d_r5 ← re_day r4;
  [((y_r1.1, m_r3.1, d_r5.1), d_r5.2)].

(** ** [datetime.date]'s checks *)

Definition is_leap (y : Z) : bool :=
  (y mod 4 =? 0) && ((negb (y mod 100 =? 0)) || (y mod 400 =? 0)).

Definition days_in_month (y m : Z) : Z :=
  if m =? 2 then (if is_leap y then 29 else 28)
  else if (m =? 4) || (m =? 6) || (m =? 9) || (m =? 11) then 30
  else 31.

(** The errors [datetime.strptime] raises, all [ValueError]s. *)
Inductive strptime_error :=
| NoMatch                           (** time data ... does not match format *)
| Unconverted (rest : list ascii)   (** unconverted data remains: ... *)
| YearOutOfRange (y : Z)            (** year 0 is out of range *)
| MonthOutOfRange                   (** month must be in 1..12 *)
| DayOutOfRange.                    (** day is out of range for month *)

(** [datetime.date(year, month, day)] *)
Definition make_date (y m d : Z) : strptime_error + date :=
  if negb ((1 <=? y) && (y <=? 9999)) then inl (YearOutOfRange y)
  else if negb ((1 <=? m) && (m <=? 12)) then inl MonthOutOfRange
  else if negb ((1 <=? d) && (d <=? days_in_month y m)) then inl DayOutOfRange
  else inr (mk_date y m d).

(** [datetime.strptime(s, '%Y-%m-%d').date()] *)
Definition strptime_ymd (s : string) : strptime_error + date :=
  match re_ymd (list_ascii_of_string s) with
  | [] => inl NoMatch
  | ((y, m, d), rest) :: _ =>
      match rest with
      | [] => make_date y m d
      | _ :: _ => inl (Unconverted rest)
      end
  end.

(** A date that [datetime.date] accepts. *)
Definition valid_date (d : date) : Prop :=
  1 <= year d <= 9999 /\ 1 <= month d <= 12 /\ 1 <= day d <= days_in_month (year d) (month d).

(** ** [strftime] *)

(** Decimal digits of a non-negative integer; 5 rounds of fuel cover
    every year [datetime] allows (at most 9999). *)
Fixpoint dec_aux (fuel : nat) (n : Z) (acc : list ascii) : list ascii :=
  match fuel with
  | O => acc
  | S f =>
      let acc' := digit_char (n mod 10) :: acc in
      if n <? 10 then acc' else dec_aux f (n / 10) acc'
  end.

Definition dec (n : Z) : list ascii := dec_aux 5 n [].

(** The loop [dec_aux] stands for, glibc's [_itoa_word]:
    [do *--p = '0' + n % 10; while ((n /= 10) != 0)], by well-founded
    recursion on its variant [n]. *)
Equations? dec_loop (n : Z) (acc : list ascii) : list ascii by wf (Z.to_nat n) lt :=
dec_loop n acc with Z_lt_dec n 10 := {
  | left _ => digit_char (n mod 10) :: acc ;
  | right _ => dec_loop (n / 10) (digit_char (n mod 10) :: acc) }.
Proof. zify_divmod. Defined.

(** [%m], [%d], [%H], [%M], [%S]: two digits, zero-padded. *)
Definition pad2 (n : Z) : list ascii := [digit_char (n / 10); digit_char (n mod 10)].

(** [strftime('%Y-%m-%d')] *)
Definition strftime_ymd (d : date) : string :=
  string_of_list_ascii (dec (year d) ++ "-"%char :: pad2 (month d) ++ "-"%char :: pad2 (day d))%list.

(** [strftime('%Y-%m-%d %H:%M:%S')] *)
Definition strftime_ymd_hms (t : datetime) : string :=
  string_of_list_ascii
    (list_ascii_of_string (strftime_ymd (dt_date t)) ++ " "%char :: pad2 (dt_hour t)
     ++ ":"%char :: pad2 (dt_minute t) ++ ":"%char :: pad2 (dt_second t))%list.

(** ** The [ValueError] messages *)

(** What [datetime.strptime(s, '%Y-%m-%d')] raises for each failure
    ([_strptime] and the [datetime.date] constructor of CPython 3.11). *)
Definition strptime_message (s : string) (e : strptime_error) : string :=
  match e with
  | NoMatch => "time data " ++ PyStr.py_repr s ++ " does not match format '%Y-%m-%d'"
  | Unconverted rest => "unconverted data remains: " ++ string_of_list_ascii rest
  | YearOutOfRange y => "year " ++ string_of_list_ascii (dec y) ++ " is out of range"
  | MonthOutOfRange => "month must be in 1..12"
  | DayOutOfRange => "day is out of range for month"
  end.

(** ** The strings [strptime] accepts, declaratively

    A date is spelled as its year on four digits (leading zeros allowed),
    its month on two digits or, below 10, on one, and its day on two
    digits or, below 10, on one digit or a space and one digit. *)

Definition digits4 (y : Z) : list ascii :=
  [digit_char (y / 1000); digit_char (y / 100 mod 10); digit_char (y / 10 mod 10);
   digit_char (y mod 10)].

Definition month_spellings (m : Z) : list (list ascii) :=
  pad2 m :: (if m <? 10 then [[digit_char m]] else []).

Definition day_spellings (d : Z) : list (list ascii) :=
  pad2 d :: (if d <? 10 then [[digit_char d]; [" "%char; digit_char d]] else []).

Definition ymd_spellings (t : date) : list (list ascii) :=
  ms ← month_spellings (month t);
  ds ← day_spellings (day t);
  [(digits4 (year t) ++ "-"%char :: ms ++ "-"%char :: ds)%list].

(** ** Lemmas *)

Lemma digit_char_spec (n : Z) :
  0 <= n <= 9 -> is_digit (digit_char n) = true /\ digit_value (digit_char n) = n.
Proof. intros Hn. z_cases n 0%Z 9%Z; split; reflexivity. Qed.

Lemma dec_four_digits (y : Z) : 1000 <= y <= 9999 -> dec y = digits4 y.
Proof.
  intros Hy. unfold dec, digits4; cbn [dec_aux].
  destruct (Z.ltb_spec y 10); [zify_divmod|].
  destruct (Z.ltb_spec (y / 10) 10); [zify_divmod|].
  destruct (Z.ltb_spec (y / 10 / 10) 10); [zify_divmod|].
  destruct (Z.ltb_spec (y / 10 / 10 / 10) 10); [|zify_divmod].
  rewrite !Z.div_div by lia. change (10 * (10 * 10)) with 1000. change (10 * 10) with 100.
  rewrite (Z.mod_small (y / 1000) 10) by zify_divmod. reflexivity.
Qed.

Lemma re_year_digits4 (y : Z) (r : list ascii) :
  0 <= y <= 9999 -> re_year (digits4 y ++ r) = [(y, r)].
Proof.
  intros Hy. unfold digits4. cbn [app re_year].
  destruct (digit_char_spec (y / 1000)) as [D1 V1]; [zify_divmod|].
  destruct (digit_char_spec (y / 100 mod 10)) as [D2 V2]; [zify_divmod|].
  destruct (digit_char_spec (y / 10 mod 10)) as [D3 V3]; [zify_divmod|].
  destruct (digit_char_spec (y mod 10)) as [D4 V4]; [zify_divmod|].
  rewrite D1, D2, D3, D4, V1, V2, V3, V4. cbn. do 2 f_equal. zify_divmod.
Qed.

Lemma re_month_pad2 (m : Z) (r : list ascii) :
  1 <= m <= 12 -> exists l, re_month (pad2 m ++ r) = (m, r) :: l.
Proof. intros Hm. z_cases m 1%Z 12%Z; eexists; reflexivity. Qed.

Lemma re_day_pad2 (d : Z) (r : list ascii) :
  1 <= d <= 31 -> exists l, re_day (pad2 d ++ r) = (d, r) :: l.
Proof. intros Hd. z_cases d 1%Z 31%Z; eexists; reflexivity. Qed.

Lemma days_in_month_le_31 (y m : Z) : days_in_month y m <= 31.
Proof. unfold days_in_month. repeat case_match; lia. Qed.

(** ** Every match of the regex is a spelling of its date, and back *)

Lemma char_between_inv lo hi c :
  char_between lo hi c = true -> exists k, c = ascii_of_nat (Z.to_nat k) /\ code lo <= k <= code hi.
Proof.
  unfold char_between. rewrite andb_true_iff, !Z.leb_le. intros Hk. exists (code c). split; [|done].
  unfold code. by rewrite Nat2Z.id, ascii_nat_embedding.
Qed.

(** Tactics for the regex alternatives: a character in a range becomes
    each of its values, and a consumed prefix is chosen by its length. *)
Ltac ascii_concrete :=
  repeat match goal with
  | |- context [ascii_of_nat (Z.to_nat ?n)] =>
      let c := eval vm_compute in (ascii_of_nat (Z.to_nat n)) in change (ascii_of_nat (Z.to_nat n)) with c
  | H : context [ascii_of_nat (Z.to_nat ?n)] |- _ =>
      let c := eval vm_compute in (ascii_of_nat (Z.to_nat n)) in change (ascii_of_nat (Z.to_nat n)) with c in H
  end.

Ltac decide_elem := apply (bool_decide_unpack _); vm_compute; exact I.

(** Choose the consumed prefix of a regex alternative: two characters or one. *)
Ltac consumed :=
  match goal with
  | |- exists sp, _ /\ ?x :: ?y :: ?r = (sp ++ ?r)%list => exists [x; y]
  | |- exists sp, _ /\ ?x :: ?r = (sp ++ ?r)%list => exists [x]
  end.

Ltac char_cases H :=
  let k := fresh "k" in let Hk := fresh "Hk" in
  destruct (char_between_inv _ _ _ H) as (k & -> & Hk); clear H;
  match type of Hk with
  | code ?lo <= _ <= code ?hi =>
      let l := eval vm_compute in (code lo) in let h := eval vm_compute in (code hi) in
      change (l <= k <= h) in Hk; z_cases k l h; ascii_concrete
  end.

Ltac re_inv :=
  repeat match goal with
  | H : _ ∈ (_ ++ _)%list |- _ => apply elem_of_app in H as [H|H]
  | H : _ ∈ [] |- _ => apply elem_of_nil in H; done
  | H : _ ∈ [_] |- _ => apply list_elem_of_singleton in H; simplify_eq
  | H : _ ∈ (if ?b then _ else _) |- _ => destruct b eqn:?
  | H : (_ && _) = true |- _ => apply andb_true_iff in H as [? ?]
  | H : Ascii.eqb _ _ = true |- _ => apply Ascii.eqb_eq in H; subst
  | H : is_digit _ = true |- _ => unfold is_digit in H
  | H : char_between _ _ _ = true |- _ => char_cases H
  end.

Lemma re_month_sound s m r :
  (m, r) ∈ re_month s -> 1 <= m <= 12 /\ exists sp, sp ∈ month_spellings m /\ s = (sp ++ r)%list.
Proof.
  unfold re_month. destruct s as [|a [|b s]]; intros H; re_inv.
  all: split; [split; vm_compute; discriminate | consumed; split; [decide_elem | reflexivity]].
Qed.

Lemma re_day_sound s d r :
  (d, r) ∈ re_day s -> 1 <= d <= 31 /\ exists sp, sp ∈ day_spellings d /\ s = (sp ++ r)%list.
Proof.
  unfold re_day. destruct s as [|a [|b s]]; intros H; re_inv.
  all: split; [split; vm_compute; discriminate | consumed; split; [decide_elem | reflexivity]].
Qed.

Lemma digit_inv c : is_digit c = true -> 0 <= digit_value c <= 9 /\ digit_char (digit_value c) = c.
Proof.
  unfold is_digit, char_between. change (code "0") with 48. change (code "9") with 57.
  rewrite andb_true_iff, !Z.leb_le. intros Hc. unfold digit_value, digit_char. split; [lia|].
  replace (48 + (code c - 48)) with (code c) by lia. unfold code. rewrite Nat2Z.id.
  apply ascii_nat_embedding.
Qed.

Lemma re_year_sound s y r :
  (y, r) ∈ re_year s -> 0 <= y <= 9999 /\ s = (digits4 y ++ r)%list.
Proof.
  unfold re_year. destruct s as [|a [|b [|c [|e s]]]]; intros H; try (apply elem_of_nil in H; done).
  destruct (is_digit a && is_digit b && is_digit c && is_digit e) eqn:Hd; [|apply elem_of_nil in H; done].
  apply list_elem_of_singleton in H. simplify_eq.
  apply andb_true_iff in Hd as [Hd He]. apply andb_true_iff in Hd as [Hd Hc].
  apply andb_true_iff in Hd as [Ha Hb].
  destruct (digit_inv a Ha) as [Ba Ea], (digit_inv b Hb) as [Bb Eb], (digit_inv c Hc) as [Bc Ec],
    (digit_inv e He) as [Be Ee].
  split; [lia|]. unfold digits4.
  set (y := 1000 * digit_value a + 100 * digit_value b + 10 * digit_value c + digit_value e).
  assert (y / 1000 = digit_value a /\ y / 100 mod 10 = digit_value b /\ y / 10 mod 10 = digit_value c /\
          y mod 10 = digit_value e) as (-> & -> & -> & ->) by (subst y; split_and!; zify_divmod).
  by rewrite Ea, Eb, Ec, Ee.
Qed.

Lemma re_lit_inv c s r : r ∈ re_lit c s -> s = c :: r.
Proof.
  destruct s as [|a s]; cbn; [by intros ?%elem_of_nil|].
  destruct (Ascii.eqb_spec a c) as [->|]; [|by intros ?%elem_of_nil]. by intros ->%list_elem_of_singleton.
Qed.

Lemma re_ymd_sound s y m d r :
  ((y, m, d), r) ∈ re_ymd s ->
  0 <= y <= 9999 /\ 1 <= m <= 12 /\ 1 <= d <= 31 /\
  exists ms ds, ms ∈ month_spellings m /\ ds ∈ day_spellings d /\
    s = (digits4 y ++ "-"%char :: ms ++ "-"%char :: ds ++ r)%list.
Proof.
  unfold re_ymd. intros H.
  apply list_elem_of_bind in H as ([y' r1] & H & (Hy & ->)%re_year_sound); cbn [fst snd] in H.
  apply list_elem_of_bind in H as (r2 & H & ->%re_lit_inv).
  apply list_elem_of_bind in H as ([m' r3] & H & (Hm & ms & Hms & ->)%re_month_sound); cbn [fst snd] in H.
  apply list_elem_of_bind in H as (r4 & H & ->%re_lit_inv).
  apply list_elem_of_bind in H as ([d' r5] & H & (Hd & ds & Hds & ->)%re_day_sound); cbn [fst snd] in H.
  apply list_elem_of_singleton in H. simplify_eq. split_and!; try lia. eauto 10.
Qed.

Lemma re_month_complete m ms r :
  1 <= m <= 12 -> ms ∈ month_spellings m -> exists l, re_month (ms ++ "-"%char :: r)%list = (m, "-"%char :: r) :: l.
Proof.
  intros Hm Hms. unfold month_spellings in Hms. apply elem_of_cons in Hms as [->|Hms].
  - z_cases m 1 12; eexists; reflexivity.
  - destruct (Z.ltb_spec m 10); [|by apply elem_of_nil in Hms].
    apply list_elem_of_singleton in Hms as ->. z_cases m 1 9; eexists; reflexivity.
Qed.

Lemma re_day_complete d ds :
  1 <= d <= 31 -> ds ∈ day_spellings d -> exists l, re_day ds = (d, []) :: l.
Proof.
  intros Hd Hds. unfold day_spellings in Hds. apply elem_of_cons in Hds as [->|Hds].
  - z_cases d 1 31; eexists; reflexivity.
  - destruct (Z.ltb_spec d 10); [|by apply elem_of_nil in Hds].
    apply elem_of_cons in Hds as [->|Hds]; [|apply list_elem_of_singleton in Hds as ->];
      z_cases d 1 9; eexists; reflexivity.
Qed.

Lemma make_date_inr y m d t : make_date y m d = inr t <-> t = mk_date y m d /\ valid_date t.
Proof.
  unfold make_date, valid_date.
  destruct (Z.leb_spec 1 y), (Z.leb_spec y 9999), (Z.leb_spec 1 m), (Z.leb_spec m 12),
    (Z.leb_spec 1 d), (Z.leb_spec d (days_in_month y m)); cbn;
    split; intros; simplify_eq; intuition (subst; cbn in *; first [reflexivity | lia]).
Qed.

(** The digit loop terminates and the fuel of [dec_aux] is enough
    for it: with [f] rounds, [f >= 1], every [n] in [0 .. 10^f - 1] is
    written exactly as the loop writes it; so [dec], with 5 rounds,
    writes every year [datetime] allows (at most 9999) as the loop
    does. *)
Theorem dec_aux_fuel_enough (f : nat) (n : Z) (acc : list ascii) :
  (0 < f)%nat -> 0 <= n < 10 ^ Z.of_nat f -> dec_aux f n acc = dec_loop n acc.
Proof.
  revert n acc. induction f as [|f IH]; intros n acc Hf Hn; [lia|].
  cbn [dec_aux]. simp dec_loop. destruct (Z_lt_dec n 10) as [Hlt|Hge]; cbn.
  - rewrite (proj2 (Z.ltb_lt n 10) Hlt). reflexivity.
  - rewrite (proj2 (Z.ltb_ge n 10)) by lia.
    rewrite Nat2Z.inj_succ, Z.pow_succ_r in Hn by lia.
    destruct f as [|f]; [cbn in Hn; lia|]. apply IH; [lia|zify_divmod].
Qed.

(** C9: [strftime('%Y-%m-%d')] followed by [datetime.strptime(...,
    '%Y-%m-%d').date()] gives back every valid date whose year has four
    digits (glibc writes years below 1000 without padding, which the
    four-digit [%Y] of [strptime] then refuses). *)
Theorem strptime_strftime_roundtrip (d : date) :
  valid_date d -> 1000 <= year d ->
  strptime_ymd (strftime_ymd d) = inr d.
Proof.
  intros (Hy & Hm & Hd) Hy4. destruct d as [y m dd].
  unfold strptime_ymd, strftime_ymd. cbn [year month day] in *.
  rewrite list_ascii_of_string_of_list_ascii.
  unfold re_ymd. rewrite dec_four_digits, re_year_digits4 by lia.
  destruct (re_month_pad2 m ("-"%char :: pad2 dd)) as [lm Em]; [lia|].
  destruct (re_day_pad2 dd []) as [ld Ed]; [pose proof (days_in_month_le_31 y m); lia|].
  rewrite app_nil_r in Ed. cbn -[re_month re_day pad2]. rewrite Em. cbn -[re_day pad2]. rewrite Ed. cbn.
  unfold make_date.
  destruct (Z.leb_spec 1 y), (Z.leb_spec y 9999), (Z.leb_spec 1 m), (Z.leb_spec m 12),
    (Z.leb_spec 1 dd), (Z.leb_spec dd (days_in_month y m)); cbn; try lia; reflexivity.
Qed.

(** C39: [datetime.strptime(s, '%Y-%m-%d').date()] returns [t] exactly
    when [t] is a date [datetime.date] accepts and [s] is one of its
    spellings: the year on four digits (leading zeros allowed), the month
    on two digits or, below 10, on one, the day on two digits or, below
    10, on one digit or a space and a digit.  So "2026-1- 9" is
    accepted as 9 January 2026, and no other string is accepted. *)
Theorem strptime_ymd_spellings s t :
  strptime_ymd s = inr t <-> valid_date t /\ list_ascii_of_string s ∈ ymd_spellings t.
Proof.
  unfold strptime_ymd. split.
  - destruct (re_ymd _) as [|[[[y m] d] rest] l] eqn:E; [done|]. destruct rest as [|c rest]; [|done].
    rewrite make_date_inr. intros [-> Hv]. split; [done|].
    assert (Hin : ((y, m, d), []) ∈ re_ymd (list_ascii_of_string s)) by (rewrite E; left).
    apply re_ymd_sound in Hin as (_ & _ & _ & ms & ds & Hms & Hds & ->).
    unfold ymd_spellings; cbn [year month day].
    apply list_elem_of_bind. exists ms. split; [|done]. apply list_elem_of_bind. exists ds. split; [|done].
    rewrite app_nil_r. by apply list_elem_of_singleton.
  - intros [Hv Hin]. destruct t as [y m d]. destruct Hv as (Hy & Hm & Hd); cbn [year month day] in *.
    unfold ymd_spellings in Hin; cbn [year month day] in Hin.
    apply list_elem_of_bind in Hin as (ms & Hin & Hms). apply list_elem_of_bind in Hin as (ds & Hin & Hds).
    apply list_elem_of_singleton in Hin. rewrite Hin.
    destruct (re_month_complete m ms ds Hm Hms) as [lm Em].
    destruct (re_day_complete d ds) as [ld Ed]; [pose proof (days_in_month_le_31 y m); lia|done|].
    unfold re_ymd. rewrite re_year_digits4 by lia. cbn -[re_month re_day]. rewrite Em.
    cbn -[re_day]. rewrite Ed. cbn. apply make_date_inr. split; [done|]. unfold valid_date; cbn; lia.
Qed.

(** ** Witnesses *)

Lemma strptime_strftime_roundtrip_witness :
  strptime_ymd (strftime_ymd (mk_date 2024 2 29)) = inr (mk_date 2024 2 29).
Proof.
  apply strptime_strftime_roundtrip; unfold valid_date; cbn [year month day];
    [replace (days_in_month 2024 2) with 29 by reflexivity|]; lia.
Defined.

Lemma dec_aux_fuel_enough_witness :
  dec_aux 4 2026 [] = dec_loop 2026 [].
Proof. apply dec_aux_fuel_enough; [lia | cbn; lia]. Defined.

End Dates.
