(* ===== verification/Schema.v ===== *)
(** * The SQLite schema of [init_db] and the SQL statements of the handlers

    Each table is a [gmap] from its primary key to a row record; a
    nullable column is an [option] ([None] is SQL NULL).  Each SQL
    statement that a handler of [src/app.py] executes is one function
    here, named after the statement; statements that can violate a
    constraint return [inl] of the error. *)

From S2P Require Import Prelude.

Module Schema.

(** [patients (patient_id TEXT PRIMARY KEY, name, mobile_number UNIQUE,
    age, address)]; the key is kept in the map. *)
Record patient_row := mk_patient {
  p_name : string;
  p_mobile_number : string;
  p_age : string;
  p_address : string
}.

(** [appointments (id PRIMARY KEY, patient_id, reason, booking_date,
    appointment_date, booking_type, confirmed, checkin_status,
    checkin_time)]. *)
Record appointment_row := mk_appointment {
  a_patient_id : string;
  a_reason : string;
  a_booking_date : string;
  a_appointment_date : string;
  a_booking_type : string;
  a_confirmed : Z;
  a_checkin_status : string;
  a_checkin_time : string
}.

(** [diagnoses (appointment_id PRIMARY KEY, chief_complaints, symptoms,
    mind, psychology, diagnosis, medicines, tests, next_visit,
    diagnosis_saved, medicines_prescribed)]: rows are only ever written
    whole by [INSERT OR REPLACE], so no column is NULL. *)
Record diagnosis_row := mk_diagnosis {
  d_chief_complaints : string;
  d_symptoms : string;
  d_mind : string;
  d_psychology : string;
  d_diagnosis : string;
  d_medicines : string;
  d_tests : string;
  d_next_visit : string;
  d_diagnosis_saved : Z;
  d_medicines_prescribed : Z
}.

(** [billing (appointment_id PRIMARY KEY, consultation_charge REAL,
    medicine_charge REAL, courier_charge REAL, delivery_type,
    delivered_to, courier_channel, courier_tracking, amount_paid REAL,
    payment_date, payment_id, discount REAL, medicines_prepared,
    medicines_handed_over, couriered, checkout_done)]: every column but
    the key may be NULL, because the placeholder row sets only five. *)
Record billing_row := mk_billing {
  b_consultation_charge : option Q;
  b_medicine_charge : option Q;
  b_courier_charge : option Q;
  b_delivery_type : option string;
  b_delivered_to : option string;
  b_courier_channel : option string;
  b_courier_tracking : option string;
  b_amount_paid : option Q;
  b_payment_date : option string;
  b_payment_id : option string;
  b_discount : option Q;
  b_medicines_prepared : option Z;
  b_medicines_handed_over : option Z;
  b_couriered : option Z;
  b_checkout_done : option Z
}.

Record db := mk_db {
  patients : gmap string patient_row;
  appointments : gmap string appointment_row;
  diagnoses : gmap string diagnosis_row;
  billing : gmap string billing_row
}.

Definition empty_db : db := mk_db ∅ ∅ ∅ ∅.

(** Structural equality of rows and databases, decided, so that a
    property of two concrete databases is settled by [decide]. *)
#[export] Instance Q_eq_dec : EqDecision Q.
Proof. solve_decision. Defined.
#[export] Instance patient_row_eq_dec : EqDecision patient_row.
Proof. solve_decision. Defined.
#[export] Instance appointment_row_eq_dec : EqDecision appointment_row.
Proof. solve_decision. Defined.
#[export] Instance diagnosis_row_eq_dec : EqDecision diagnosis_row.
Proof. solve_decision. Defined.
#[export] Instance billing_row_eq_dec : EqDecision billing_row.
Proof. solve_decision. Defined.
#[export] Instance db_eq_dec : EqDecision db.
Proof. solve_decision. Defined.

(** Constraint violations raised by [sqlite3.IntegrityError]. *)
Inductive sql_error :=
| PrimaryKeyViolation (table : string)
| UniqueViolation (table column : string).

(** ** Patients *)

(** [SELECT patient_id FROM patients WHERE mobile_number = ?] then
    [fetchone()]: the first matching row in the enumeration order of the
    map.  Under the UNIQUE constraint at most one row matches, so the
    choice of order does not matter (see [Booking.v]). *)
Definition select_patient_by_mobile (d : db) (mobile : string) : option string :=
  head (map fst (filter (fun kv => String.eqb (p_mobile_number kv.2) mobile = true)
                        (map_to_list (patients d)))).

(** [UPDATE patients SET name = ?, age = ?, address = ? WHERE patient_id = ?] *)
Definition update_patient (pid name age address : string) (d : db) : db :=
  mk_db (alter (fun p => mk_patient name (p_mobile_number p) age address) pid (patients d))
        (appointments d) (diagnoses d) (billing d).

(** [INSERT INTO patients (patient_id, name, mobile_number, age, address)
    VALUES (...)]: fails on an existing key or an existing mobile number
    (the UNIQUE constraint). *)
Definition insert_patient (pid : string) (p : patient_row) (d : db) : sql_error + db :=
  match patients d !! pid with
  | Some _ => inl (PrimaryKeyViolation "patients")
  | None =>
      match select_patient_by_mobile d (p_mobile_number p) with
      | Some _ => inl (UniqueViolation "patients" "mobile_number")
      | None => inr (mk_db (<[pid := p]> (patients d)) (appointments d) (diagnoses d) (billing d))
      end
  end.

(** ** Appointments *)

(** [INSERT INTO appointments (...) VALUES (...)] *)
Definition insert_appointment (aid : string) (a : appointment_row) (d : db) : sql_error + db :=
  match appointments d !! aid with
  | Some _ => inl (PrimaryKeyViolation "appointments")
  | None => inr (mk_db (patients d) (<[aid := a]> (appointments d)) (diagnoses d) (billing d))
  end.

(** [UPDATE appointments SET checkin_status = ?, checkin_time = ? WHERE id = ?] *)
Definition update_checkin (aid status time : string) (d : db) : db :=
  mk_db (patients d)
        (alter (fun a => mk_appointment (a_patient_id a) (a_reason a) (a_booking_date a)
                          (a_appointment_date a) (a_booking_type a) (a_confirmed a)
                          status time) aid (appointments d))
        (diagnoses d) (billing d).

(** [SELECT patient_id FROM appointments WHERE id = ?] *)
Definition select_appointment_patient (d : db) (aid : string) : option string :=
  a_patient_id <$> appointments d !! aid.

(** [SELECT p.mobile_number FROM appointments a JOIN patients p ON
    a.patient_id = p.patient_id WHERE a.id = ?] *)
Definition select_mobile (d : db) (aid : string) : option string :=
  a ← appointments d !! aid;
  p ← patients d !! a_patient_id a;
  Some (p_mobile_number p).

(** ** Diagnoses *)

(** [INSERT OR REPLACE INTO diagnoses (...) VALUES (...)] *)
Definition replace_diagnosis (aid : string) (r : diagnosis_row) (d : db) : db :=
  mk_db (patients d) (appointments d) (<[aid := r]> (diagnoses d)) (billing d).

(** ** Billing *)

(** The row that [INSERT OR IGNORE INTO billing (appointment_id,
    consultation_charge, medicine_charge, courier_charge, delivery_type,
    medicines_prepared) VALUES (?, 0, 0, 0, 'In-Person', 0)] creates. *)
Definition placeholder_billing : billing_row :=
  mk_billing (Some 0) (Some 0) (Some 0) (Some "In-Person") None None None
             None None None None (Some 0%Z) None None None.

(** [INSERT OR IGNORE INTO billing ... VALUES (?, 0, 0, 0, 'In-Person', 0)] *)
Definition ensure_billing (aid : string) (d : db) : db :=
  match billing d !! aid with
  | Some _ => d
  | None => mk_db (patients d) (appointments d) (diagnoses d)
                  (<[aid := placeholder_billing]> (billing d))
  end.

(** [UPDATE billing SET ... WHERE appointment_id = ?] with the row
    transformer [f]. *)
Definition update_billing (aid : string) (f : billing_row -> billing_row) (d : db) : db :=
  mk_db (patients d) (appointments d) (diagnoses d) (alter f aid (billing d)).

(** The same row with its four progress flags replaced. *)
Definition with_flags (b : billing_row) (prep handed cour done : option Z) : billing_row :=
  mk_billing (b_consultation_charge b) (b_medicine_charge b) (b_courier_charge b)
             (b_delivery_type b) (b_delivered_to b) (b_courier_channel b)
             (b_courier_tracking b) (b_amount_paid b) (b_payment_date b)
             (b_payment_id b) (b_discount b) prep handed cour done.

(** [SET medicines_prepared = 1] *)
Definition set_prepared (b : billing_row) : billing_row :=
  with_flags b (Some 1%Z) (b_medicines_handed_over b) (b_couriered b) (b_checkout_done b).

(** [SET medicines_handed_over = 1] *)
Definition set_handed_over (b : billing_row) : billing_row :=
  with_flags b (b_medicines_prepared b) (Some 1%Z) (b_couriered b) (b_checkout_done b).

(** [SET couriered = 1] *)
Definition set_couriered (b : billing_row) : billing_row :=
  with_flags b (b_medicines_prepared b) (b_medicines_handed_over b) (Some 1%Z) (b_checkout_done b).

(** [SET checkout_done = 1] *)
Definition set_checkout_done (b : billing_row) : billing_row :=
  with_flags b (b_medicines_prepared b) (b_medicines_handed_over b) (b_couriered b) (Some 1%Z).

(** ** Lemmas: what each statement changes and what it leaves alone *)

Lemma billing_update_billing_eq (aid : string) f (d : db) :
  billing (update_billing aid f d) !! aid = f <$> billing d !! aid.
Proof. unfold update_billing; cbn. apply lookup_alter_eq. Qed.

Lemma billing_update_billing_ne (aid aid' : string) f (d : db) :
  aid <> aid' -> billing (update_billing aid f d) !! aid' = billing d !! aid'.
Proof. intros Hne. unfold update_billing; cbn. by apply lookup_alter_ne. Qed.

Lemma select_mobile_update_billing (aid aid' : string) f (d : db) :
  select_mobile (update_billing aid f d) aid' = select_mobile d aid'.
Proof. reflexivity. Qed.

Lemma select_mobile_ensure_billing (aid aid' : string) (d : db) :
  select_mobile (ensure_billing aid d) aid' = select_mobile d aid'.
Proof. unfold ensure_billing. by destruct (billing d !! aid). Qed.

Lemma billing_ensure_billing_eq (aid : string) (d : db) :
  billing (ensure_billing aid d) !! aid =
  Some (default placeholder_billing (billing d !! aid)).
Proof.
  unfold ensure_billing. destruct (billing d !! aid) eqn:E; cbn; [done|].
  apply lookup_insert_eq.
Qed.

Lemma billing_ensure_billing_ne (aid aid' : string) (d : db) :
  aid <> aid' -> billing (ensure_billing aid d) !! aid' = billing d !! aid'.
Proof.
  intros Hne. unfold ensure_billing. destruct (billing d !! aid); cbn; [done|].
  by apply lookup_insert_ne.
Qed.

Lemma update_billing_idem (aid : string) f (d : db) :
  (forall b, f (f b) = f b) ->
  update_billing aid f (update_billing aid f d) = update_billing aid f d.
Proof.
  intros Hf. unfold update_billing; cbn. f_equal.
  rewrite alter_alter_eq. apply alter_ext. intros b _. apply Hf.
Qed.

Lemma ensure_billing_present (aid : string) (d : db) :
  is_Some (billing d !! aid) -> ensure_billing aid d = d.
Proof. intros [b Hb]. unfold ensure_billing. by rewrite Hb. Qed.

Lemma billing_ensure_billing_present (aid : string) (d : db) :
  is_Some (billing (ensure_billing aid d) !! aid).
Proof. rewrite billing_ensure_billing_eq. by eexists. Qed.

(** The rows the [WHERE mobile_number = ?] filter keeps. *)
Lemma elem_of_mobile_filter (d : db) (mobile pid : string) (p : patient_row) :
  (pid, p) ∈ filter (fun kv : string * patient_row => String.eqb (p_mobile_number kv.2) mobile = true)
                    (map_to_list (patients d)) <->
  patients d !! pid = Some p /\ p_mobile_number p = mobile.
Proof.
  rewrite list_elem_of_filter, elem_of_map_to_list. cbn. rewrite String.eqb_eq. tauto.
Qed.

(** What [SELECT patient_id FROM patients WHERE mobile_number = ?]
    returns: some patient with that number, or [None] when there is none. *)
Lemma select_patient_by_mobile_Some (d : db) (mobile pid : string) :
  select_patient_by_mobile d mobile = Some pid ->
  exists p, patients d !! pid = Some p /\ p_mobile_number p = mobile.
Proof.
  unfold select_patient_by_mobile.
  destruct (filter _ (map_to_list (patients d))) as [|[k p] l] eqn:Hf; cbn; [done|].
  intros [= ->]. exists p. apply (elem_of_mobile_filter d mobile pid p). rewrite Hf. left.
Qed.

Lemma select_patient_by_mobile_None (d : db) (mobile : string) :
  select_patient_by_mobile d mobile = None <->
  forall pid p, patients d !! pid = Some p -> p_mobile_number p <> mobile.
Proof.
  unfold select_patient_by_mobile.
  destruct (filter _ (map_to_list (patients d))) as [|[k p] l] eqn:Hf; cbn; split; try done.
  - intros _ pid p Hp Hm. assert (Hin : (pid, p) ∈ ([] : list (string * patient_row))).
    { rewrite <- Hf. by apply elem_of_mobile_filter. }
    by apply elem_of_nil in Hin.
  - intros Hnone. assert (Hin : (k, p) ∈ (k, p) :: l) by left. rewrite <- Hf in Hin.
    apply elem_of_mobile_filter in Hin as [Hk Hm]. by destruct (Hnone k p Hk Hm).
Qed.

Lemma insert_patient_fresh (pid : string) (p : patient_row) (d : db) :
  patients d !! pid = None ->
  select_patient_by_mobile d (p_mobile_number p) = None ->
  insert_patient pid p d =
  inr (mk_db (<[pid := p]> (patients d)) (appointments d) (diagnoses d) (billing d)).
Proof. intros H1 H2. unfold insert_patient. by rewrite H1, H2. Qed.

Lemma insert_appointment_fresh (aid : string) (a : appointment_row) (d : db) :
  appointments d !! aid = None ->
  insert_appointment aid a d =
  inr (mk_db (patients d) (<[aid := a]> (appointments d)) (diagnoses d) (billing d)).
Proof. intros H. unfold insert_appointment. by rewrite H. Qed.

Lemma select_appointment_patient_update_checkin (aid aid' status time : string) (d : db) :
  select_appointment_patient (update_checkin aid status time d) aid' =
  select_appointment_patient d aid'.
Proof.
  unfold select_appointment_patient, update_checkin; cbn.
  rewrite lookup_alter. case_decide; subst; [|done].
  by destruct (appointments d !! aid').
Qed.

Lemma select_mobile_replace_diagnosis (aid aid' : string) r (d : db) :
  select_mobile (replace_diagnosis aid r d) aid' = select_mobile d aid'.
Proof. reflexivity. Qed.

Lemma diagnoses_ensure_billing (aid : string) (d : db) :
  diagnoses (ensure_billing aid d) = diagnoses d.
Proof. unfold ensure_billing. by destruct (billing d !! aid). Qed.

Lemma patients_ensure_billing (aid : string) (d : db) :
  patients (ensure_billing aid d) = patients d.
Proof. unfold ensure_billing. by destruct (billing d !! aid). Qed.

Lemma appointments_ensure_billing (aid : string) (d : db) :
  appointments (ensure_billing aid d) = appointments d.
Proof. unfold ensure_billing. by destruct (billing d !! aid). Qed.

#[export] Hint Rewrite billing_update_billing_eq billing_ensure_billing_eq
  select_mobile_update_billing select_mobile_ensure_billing select_mobile_replace_diagnosis
  diagnoses_ensure_billing patients_ensure_billing appointments_ensure_billing : clinic_rw.

End Schema.
