(* ===== verification/Txn.v ===== *)
(** * The connection monad: one request of [src/app.py]

    A handler of [src/app.py] runs against one [sqlite3] connection:
    statements change the connection's pending transaction, [commit()]
    publishes it, [conn.close()] without a commit and an uncaught Python
    exception both discard it.  WhatsApp messages, CSV mirrors and
    [print] happen outside the transaction and are never undone.

    [txn A] threads a [conn]: the request's environment (clock and uuid
    supply), the committed database, the working copy, and the effects
    emitted so far.  A computation ends with [Ret a] or with a Python
    exception [Raise e]; [run] returns the response (an uncaught
    exception is Flask's HTTP 500), the committed database and the
    effects. *)

From S2P Require Import Prelude Dates Schema.
Import Schema Dates.

Module Txn.

(** What a request reads from the outside world: [datetime.now()] and the
    successive values of [uuid.uuid4()]. *)
Record env := mk_env {
  env_now : datetime;
  env_uuid : nat -> string
}.

(** Side effects of a handler that no rollback undoes. *)
Inductive effect :=
| WhatsApp (mobile message : string)      (** [send_whatsapp_message] *)
| CsvMirror (table : string) (snapshot : db)
    (** [save_to_csv(table, pd.read_sql_query("SELECT * FROM table", ...))]:
        the file gets the table as [snapshot], the database as committed
        when it is read *)
| PrintCredit (appointment : string) (amount : Q).
    (** [print(f"Credit due for appointment {id}: ...")] *)

(** Python exceptions the handlers can raise. *)
Inductive py_exc :=
| IntegrityError (e : sql_error)
| TypeError (what : string)
| ValueError (what : string)
| KeyError (key : string).

(** One row of the dashboards' [SELECT a.*, p.*, d.*, b.* FROM
    appointments a JOIN patients p LEFT JOIN diagnoses d LEFT JOIN
    billing b]: the LEFT JOINs give NULL columns, here [None]. *)
Record joined_row := mk_joined {
  j_id : string;
  j_appointment : appointment_row;
  j_patient : patient_row;
  j_diagnosis : option diagnosis_row;
  j_billing : option billing_row
}.

(** Rendered pages: the template and the data passed to it. *)
Inductive page :=
| LoginPage (error : option string)
| DashboardPage (role : string) (rows : list joined_row)
| SameDayRejectedPage.

(** The JSON of [get_billing]: every column with its default. *)
Record billing_json := mk_billing_json {
  bj_consultation_charge : Q;
  bj_medicine_charge : Q;
  bj_courier_charge : Q;
  bj_delivery_type : string;
  bj_delivered_to : string;
  bj_courier_channel : string;
  bj_courier_tracking : string;
  bj_amount_paid : Q;
  bj_payment_date : string;
  bj_payment_id : string;
  bj_discount : Q;
  bj_medicines_prepared : Z;
  bj_medicines_handed_over : Z;
  bj_couriered : Z;
  bj_checkout_done : Z
}.

Inductive response :=
| JsonMessage (status : Z) (message : string)   (** [jsonify({'message': m}), status] *)
| JsonDiagnosis (r : diagnosis_row)             (** [get_diagnosis] *)
| JsonBilling (r : billing_json)                (** [get_billing] *)
| Redirect (endpoint : string)                  (** [redirect(url_for(endpoint))] *)
| Page (p : page)                               (** [render_template_string] *)
| ServerError (e : py_exc).                     (** uncaught exception: HTTP 500 *)

Record conn := mk_conn {
  c_env : env;
  c_committed : db;
  c_work : db;
  c_effects : list effect;
  c_uuids : nat
}.

Inductive outcome (A : Type) :=
| Ret (a : A)
| Raise (e : py_exc).
Arguments Ret {A} a.
Arguments Raise {A} e.

Definition txn (A : Type) : Type := conn -> outcome A * conn.

Definition tret {A} (a : A) : txn A := fun c => (Ret a, c).

Definition tbind {A B} (m : txn A) (k : A -> txn B) : txn B :=
  fun c => match m c with
           | (Ret a, c') => k a c'
           | (Raise e, c') => (Raise e, c')
           end.

Definition traise {A} (e : py_exc) : txn A := fun c => (Raise e, c).

Notation "x <- m ;; k" := (tbind m (fun x => k))
  (at level 100, m at next level, right associativity) : clinic_scope.
Notation "m ;; k" := (tbind m (fun _ => k))
  (at level 100, right associativity) : clinic_scope.
Local Open Scope clinic_scope.

(** [c.execute(SELECT ...)]: read the working copy. *)
Definition query {A} (f : db -> A) : txn A := fun c => (Ret (f (c_work c)), c).

(** [c.execute(UPDATE ...)] or an [INSERT OR ...] that cannot fail. *)
Definition exec (f : db -> db) : txn unit :=
  fun c => (Ret tt, mk_conn (c_env c) (c_committed c) (f (c_work c)) (c_effects c) (c_uuids c)).

(** [c.execute(INSERT ...)]: a constraint violation raises
    [sqlite3.IntegrityError]. *)
Definition exec_checked (f : db -> sql_error + db) : txn unit :=
  fun c => match f (c_work c) with
           | inl e => (Raise (IntegrityError e), c)
           | inr d => (Ret tt, mk_conn (c_env c) (c_committed c) d (c_effects c) (c_uuids c))
           end.

(** [conn.commit()] *)
Definition commit : txn unit :=
  fun c => (Ret tt, mk_conn (c_env c) (c_work c) (c_work c) (c_effects c) (c_uuids c)).

(** [conn.close()]: the pending transaction is rolled back. *)
Definition close : txn unit :=
  fun c => (Ret tt, mk_conn (c_env c) (c_committed c) (c_committed c) (c_effects c) (c_uuids c)).

Definition emit (e : effect) : txn unit :=
  fun c => (Ret tt, mk_conn (c_env c) (c_committed c) (c_work c) (c_effects c ++ [e]) (c_uuids c)).

(** [send_whatsapp_message(mobile, message)] *)
Definition notify (mobile message : string) : txn unit := emit (WhatsApp mobile message).

(** [save_to_csv(table, pd.read_sql_query("SELECT * FROM table", ...))] *)
Definition mirror (table : string) : txn unit := fun c => emit (CsvMirror table (c_committed c)) c.

(** [str(uuid.uuid4())] *)
Definition uuid4 : txn string :=
  fun c => (Ret (env_uuid (c_env c) (c_uuids c)),
            mk_conn (c_env c) (c_committed c) (c_work c) (c_effects c) (S (c_uuids c))).

(** [datetime.now()] *)
Definition now : txn datetime := fun c => (Ret (env_now (c_env c)), c).

(** [c.fetchone()[0]] on a one-column query: [None[0]] raises
    [TypeError: 'NoneType' object is not subscriptable]. *)
Definition fetch_first {A} (o : option A) : txn A :=
  match o with
  | Some a => tret a
  | None => traise (TypeError "'NoneType' object is not subscriptable")
  end.

(** The mobile number of the appointment's patient, as every
    notification step reads it ([SELECT p.mobile_number ... ] then
    [fetchone()[0]]). *)
Definition fetch_mobile (aid : string) : txn string :=
  m <- query (fun d => select_mobile d aid) ;; fetch_first m.

Definition start (E : env) (d : db) : conn := mk_conn E d d [] 0.

(** Run one request: the response, the database as committed, and the
    effects in the order they happened. *)
Definition run (h : txn response) (E : env) (d : db) : response * db * list effect :=
  match h (start E d) with
  | (Ret r, c) => (r, c_committed c, c_effects c)
  | (Raise e, c) => (ServerError e, c_committed c, c_effects c)
  end.

Definition response_of (h : txn response) (E : env) (d : db) : response := (run h E d).1.1.
Definition db_of (h : txn response) (E : env) (d : db) : db := (run h E d).1.2.
Definition effects_of (h : txn response) (E : env) (d : db) : list effect := (run h E d).2.

(** Unfold the monad and nothing else: the database stays symbolic. *)
Ltac txn_simpl :=
  cbv beta iota zeta delta [run start tbind tret traise query exec exec_checked
    commit close emit notify mirror uuid4 now fetch_first fetch_mobile
    c_env c_committed c_work c_effects c_uuids fst snd].

(** Case on the innermost stuck [match] of the goal (one whose scrutinee
    contains no [match] itself), keeping the equation. *)
Ltac split_stuck :=
  match goal with
  | |- context [match ?x with _ => _ end] =>
      lazymatch x with
      | context [match _ with _ => _ end] => fail
      | _ => let E := fresh "E" in destruct x eqn:E
      end
  end.

(** ** What a computation can answer

    [txn_post P Q m]: from every connection, [m] returns a value
    satisfying [P] or raises an exception satisfying [Q].  The lemmas
    below follow the monad's structure, so that a handler's possible
    answers are computed by [txn_post_solve] without running it. *)
Definition txn_post {A} (P : A -> Prop) (Q : py_exc -> Prop) (m : txn A) : Prop :=
  forall c, match (m c).1 with Ret a => P a | Raise e => Q e end.

Section TxnPost.
Context {A : Type} (P : A -> Prop) (Q : py_exc -> Prop).

Lemma txn_post_ret a : P a -> txn_post P Q (tret a).
Proof. by intros ? c. Qed.

Lemma txn_post_raise e : Q e -> txn_post P Q (traise e).
Proof. by intros ? c. Qed.

Lemma txn_post_bind {B} (m : txn B) (k : B -> txn A) :
  txn_post (fun b => txn_post P Q (k b)) Q m -> txn_post P Q (tbind m k).
Proof.
  intros Hm c. specialize (Hm c). unfold tbind.
  destruct (m c) as [[b|e] c']; cbn in *; [apply Hm | exact Hm].
Qed.

Lemma txn_post_query {B} (f : db -> B) (P' : B -> Prop) :
  (forall b, P' b) -> txn_post P' Q (query f).
Proof. intros H c. apply H. Qed.

Lemma txn_post_unit (m : txn unit) (P' : unit -> Prop) :
  (forall c, exists c', m c = (Ret tt, c')) -> P' tt -> txn_post P' Q m.
Proof. intros Hm H c. destruct (Hm c) as [c' ->]. exact H. Qed.

Lemma txn_post_exec_checked f (P' : unit -> Prop) :
  (forall e, Q (IntegrityError e)) -> P' tt -> txn_post P' Q (exec_checked f).
Proof. intros He H c. unfold exec_checked. destruct (f (c_work c)); [apply He | exact H]. Qed.

Lemma txn_post_uuid4 (P' : string -> Prop) : (forall u, P' u) -> txn_post P' Q uuid4.
Proof. intros H c. apply H. Qed.

Lemma txn_post_now (P' : datetime -> Prop) : (forall t, P' t) -> txn_post P' Q now.
Proof. intros H c. apply H. Qed.

End TxnPost.

(** The answer of a request is one [P] allows, an uncaught exception
    becoming [ServerError]. *)
Lemma run_post (P : response -> Prop) h E d :
  txn_post P (fun e => P (ServerError e)) h -> P (response_of h E d).
Proof. intros H. specialize (H (start E d)). unfold response_of, run. by destruct (h (start E d)) as [[r|e] c]. Qed.

(** One step of [txn_post_solve]. *)
Ltac txn_post_step :=
  match goal with
  | |- forall _, _ => intros
  | |- txn_post _ _ (tbind _ _) => apply txn_post_bind
  | |- txn_post _ _ (tret _) => apply txn_post_ret
  | |- txn_post _ _ (traise _) => apply txn_post_raise
  | |- txn_post _ _ (query _) => apply txn_post_query
  | |- txn_post _ _ uuid4 => apply txn_post_uuid4
  | |- txn_post _ _ now => apply txn_post_now
  | |- txn_post _ _ (exec_checked _) => apply txn_post_exec_checked
  | |- txn_post _ _ (fetch_first ?o) => destruct o; cbn [fetch_first]
  | |- txn_post _ _ (fetch_mobile _) => unfold fetch_mobile
  | |- txn_post _ _ (notify _ _) => apply txn_post_unit; [intros; eexists; reflexivity|]
  | |- txn_post _ _ (mirror _) => apply txn_post_unit; [intros; eexists; reflexivity|]
  | |- txn_post _ _ (emit _) => apply txn_post_unit; [intros; eexists; reflexivity|]
  | |- txn_post _ _ (exec _) => apply txn_post_unit; [intros; eexists; reflexivity|]
  | |- txn_post _ _ commit => apply txn_post_unit; [intros; eexists; reflexivity|]
  | |- txn_post _ _ close => apply txn_post_unit; [intros; eexists; reflexivity|]
  | |- txn_post _ _ (if ?b then _ else _) => destruct b
  | |- txn_post _ _ (match ?x with _ => _ end) => destruct x
  | |- txn_post _ _ (let _ := _ in _) => cbv zeta
  | |- _ => progress cbv beta
  end.

(** Compute the possible answers of a computation, leaving one goal per
    [tret] and per raised exception. *)
Ltac txn_post_solve := repeat txn_post_step.

End Txn.
