(* ===== verification/Auth.v ===== *)
(** * Sessions, login, logout and the role guard

    Flask's [session] holds [username] and [role] after a successful
    login ([login], lines 61-99 of [src/app.py]) and loses both on
    [logout] (lines 101-105).  Every handler starts with the guard
    [if 'role' not in session or session['role'] != R] and answers 403
    (JSON handlers) or redirects to the login page (dashboards). *)

From S2P Require Import Prelude Dates Schema Txn.
Import Schema Txn.

Module Auth.

Record session := mk_session {
  s_username : option string;
  s_role : option string
}.

Definition empty_session : session := mk_session None None.

(** [('role' not in session or session['role'] != r)] *)
Definition forbidden (s : session) (r : string) : bool :=
  match s_role s with
  | Some r' => negb (String.eqb r' r)
  | None => true
  end.

(** The guard of the JSON handlers:
    [return jsonify({'message': 'Unauthorized'}), 403]. *)
Definition guard_json (r : string) (s : session) (h : txn response) : txn response :=
  if forbidden s r then tret (JsonMessage 403 "Unauthorized") else h.

(** The guard of the dashboards: [return redirect(url_for('login'))]. *)
Definition guard_page (r : string) (s : session) (h : txn response) : txn response :=
  if forbidden s r then tret (Redirect "login") else h.

(** [session.pop('username'); session.pop('role')] *)
Definition logout (s : session) : response * session :=
  (Redirect "login", empty_session).

Section Login.

(** [hashlib.sha256(x.encode()).hexdigest()] *)
Variable sha256 : string -> string.

(** The rows [init_db] writes to [uploads/users.csv]:
    (username, password hash, role). *)
Definition users : list (string * string * string) :=
  [("receptionist", sha256 "rec123", "receptionist");
   ("doctor", sha256 "doc123", "doctor");
   ("pharmacist", sha256 "pharm123", "pharmacist")].

(** [users[(users['username'] == username) & (users['password'] == password)]]
    then [user.iloc[0]['role']]. *)
Definition find_user (username password_hash : string) : option string :=
  match List.find (fun '(u, h, _) => String.eqb u username && String.eqb h password_hash) users with
  | Some (_, _, role) => Some role
  | None => None
  end.

(** [GET/POST /]: an existing session is sent to its dashboard (reading
    [session['role']], a [KeyError] if only [username] were set); a GET
    shows the form; a POST logs in or shows "Invalid credentials". *)
Definition login (s : session) (form : option (string * string)) : response * session :=
  match s_username s with
  | Some _ =>
      match s_role s with
      | Some r => (Redirect (r ++ "_dashboard"), s)
      | None => (ServerError (KeyError "role"), s)
      end
  | None =>
      match form with
      | None => (Page (LoginPage None), s)
      | Some (username, password) =>
          match find_user username (sha256 password) with
          | Some role => (Redirect (role ++ "_dashboard"), mk_session (Some username) (Some role))
          | None => (Page (LoginPage (Some "Invalid credentials")), s)
          end
      end
  end.

End Login.

(** The three accounts [init_db] writes, before hashing:
    (username, password, role). *)
Definition accounts : list (string * string * string) :=
  [("receptionist", "rec123", "receptionist"); ("doctor", "doc123", "doctor");
   ("pharmacist", "pharm123", "pharmacist")].

(** The roles of [users.csv]. *)
Definition roles : list string := ["receptionist"; "doctor"; "pharmacist"].

(** The sessions the application creates: none, or a user with one of
    the roles (login sets both keys, logout pops both). *)
Definition session_wf (s : session) : Prop :=
  s = empty_session \/ exists u r, s = mk_session (Some u) (Some r) /\ r ∈ roles.

(** The endpoints [url_for] builds without arguments: the views whose
    route has no [<id>] in it. *)
Definition url_endpoints : list string :=
  ["login"; "logout"; "receptionist_dashboard"; "doctor_dashboard"; "pharmacist_dashboard";
   "book_appointment"].

(** A well-typed answer: a redirect names an endpoint [url_for] can
    build (another name raises [werkzeug.routing.BuildError]), and no
    [KeyError] escapes. *)
Definition resp_typed (r : response) : Prop :=
  match r with
  | Redirect t => t ∈ url_endpoints
  | ServerError (KeyError _) => False
  | _ => True
  end.

(** ** Lemmas *)

Lemma find_user_accounts (sha256 : string -> string) u pw r :
  (forall x, x ∈ ["rec123"; "doc123"; "pharm123"] -> sha256 x = sha256 pw -> x = pw) ->
  find_user sha256 u (sha256 pw) = Some r <-> (u, pw, r) ∈ accounts.
Proof.
  intros Hinj. unfold find_user, users, accounts. cbn [List.find].
  rewrite !elem_of_cons, elem_of_nil.
  repeat match goal with
  | |- context [String.eqb ?a ?b] =>
      let H := fresh in
      destruct (String.eqb_spec a b) as [H|H]; [try (apply Hinj in H; [|by repeat constructor]); try subst; try discriminate|]
  end; cbn; split; intros Hl; simplify_eq; intuition congruence.
Qed.

Lemma find_user_role (sha256 : string -> string) u h r : find_user sha256 u h = Some r -> r ∈ roles.
Proof.
  unfold find_user, users. cbn [List.find].
  repeat case_match; intros; simplify_eq; unfold roles; set_solver.
Qed.

Lemma dashboard_endpoint r : r ∈ roles -> (r ++ "_dashboard") ∈ url_endpoints.
Proof. unfold roles, url_endpoints. intros Hr. repeat (apply elem_of_cons in Hr as [->|Hr]; [set_solver|]). set_solver. Qed.

(** Login and logout keep the session well formed and answer a
    redirect to an existing dashboard, the login page, or the form. *)
Lemma login_typed (sha256 : string -> string) s form :
  session_wf s -> let '(r, s') := login sha256 s form in session_wf s' /\ resp_typed r.
Proof.
  intros [->|(u & r & -> & Hr)]; cbn.
  - destruct form as [[u pw]|]; [|by split; [left|]].
    destruct (find_user sha256 u (sha256 pw)) as [r|] eqn:Hf; [|by split; [left|]].
    pose proof (find_user_role _ _ _ _ Hf). split; [right; eauto|]. by apply dashboard_endpoint.
  - split; [right; eauto|]. by apply dashboard_endpoint.
Qed.

Lemma logout_typed s : let '(r, s') := logout s in session_wf s' /\ resp_typed r.
Proof. split; [by left | cbn; unfold url_endpoints; set_solver]. Qed.

(** ** Theorems *)

(** C26: assuming the password typed has no SHA-256 collision with the
    three stored passwords, a login from a session without a user succeeds, redirecting to the
    role's dashboard with the session {username, role}, exactly for the
    three accounts of [init_db] with their passwords, the role being the
    account's. *)
Theorem login_correct (sha256 : string -> string) s u pw r :
  (forall x, x ∈ ["rec123"; "doc123"; "pharm123"] -> sha256 x = sha256 pw -> x = pw) ->
  s_username s = None ->
  login sha256 s (Some (u, pw)) = (Redirect (r ++ "_dashboard"), mk_session (Some u) (Some r)) <->
  (u, pw, r) ∈ accounts.
Proof.
  intros Hinj Hs. rewrite <- (find_user_accounts sha256 u pw r Hinj). unfold login. rewrite Hs.
  destruct (find_user sha256 u (sha256 pw)) as [r'|]; split; intros H; simplify_eq; done.
Qed.

(** ** Witnesses *)

Lemma login_correct_witness :
  login (fun x => x) empty_session (Some ("doctor", "doc123")) =
    (Redirect ("doctor" ++ "_dashboard"), mk_session (Some "doctor") (Some "doctor")) <->
  ("doctor", "doc123", "doctor") ∈ accounts.
Proof. apply login_correct; [intros x _ H; exact H | reflexivity]. Defined.

End Auth.
