(* ===== verification/Fixtures.v ===== *)
(** * Concrete data for the witnesses

    A patient with one appointment booked at the front desk for the next
    day, the three role sessions that [login] creates, and a request
    environment.  The witnesses of the component files run the handlers
    on these values with [vm_compute]. *)

From S2P Require Import Prelude Dates Schema Txn Auth.
Import Dates Schema Txn Auth.

Module Fixtures.

Definition receptionist : session := mk_session (Some "receptionist") (Some "receptionist").
Definition doctor : session := mk_session (Some "doctor") (Some "doctor").
Definition pharmacist : session := mk_session (Some "pharmacist") (Some "pharmacist").

(** 9 November 2026, 10:30:00; the n-th [uuid4()] is "uuid-n" for n < 3. *)
Definition demo_env : env :=
  mk_env (mk_datetime (mk_date 2026 11 9) 10 30 0)
         (fun n => match n with O => "uuid-0" | S O => "uuid-1" | _ => "uuid-2" end).

Definition asha : patient_row := mk_patient "Asha" "9990001111" "34" "Pune".

Definition visit : appointment_row :=
  mk_appointment "P1" "Consultation" "2026-11-09" "2026-11-10" "Manual In-Clinic" 0
                 EmptyString EmptyString.

(** The database right after booking [A1] from the dashboard form, which
    creates no billing row. *)
Definition booked : db := mk_db {[ "P1" := asha ]} {[ "A1" := visit ]} ∅ ∅.

(** Each staff session passes its own route guard. *)
Lemma receptionist_allowed : forbidden receptionist "receptionist" = false.
Proof. reflexivity. Qed.

Lemma doctor_allowed : forbidden doctor "doctor" = false.
Proof. reflexivity. Qed.

Lemma pharmacist_allowed : forbidden pharmacist "pharmacist" = false.
Proof. reflexivity. Qed.

#[export] Hint Rewrite receptionist_allowed doctor_allowed pharmacist_allowed : clinic_rw.

End Fixtures.
