(* ===== verification/Lifecycle.v ===== *)
(** * The pharmacy and checkout handlers: the terminal sub-state-machine

    [prepare_medicine] (lines 833-848 of [src/app.py]),
    [hand_over_medicine] (908-926), [courier_done] (928-949) and
    [complete_checkout] (951-972) act on the four progress flags of an
    appointment's billing row.  This file translates each handler into the
    connection monad of [Txn.v], states the abstract machine of spec
    section 4.6 over the flags, and proves: the behaviour of every handler
    on every branch, that no handler clears a flag, that every successful
    call is a step of the abstract machine and every guard failure leaves
    the database untouched (refinement), and that checkout crashes on a
    billing row whose [amount_paid] was never written. *)

From S2P Require Import Prelude Dates Schema Txn Auth Fixtures.
Import Schema Txn Auth Fixtures.
Local Open Scope clinic_scope.

Module Lifecycle.

(** ** The handlers *)

(** [fetchone()] of [SELECT medicines_prepared FROM billing WHERE
    appointment_id = ?] tested by [not prepared or not prepared[0]]. *)
Definition prepared_flag (row : option (option Z)) : bool :=
  match row with
  | Some v => int_truthy v
  | None => false
  end.

(** [POST /prepare_medicine/<id>] (pharmacist) *)
Definition prepare_medicine (s : session) (aid : string) : txn response :=
  guard_json "pharmacist" s (
    exec (ensure_billing aid) ;;
    exec (update_billing aid set_prepared) ;;
    mobile <- fetch_mobile aid ;;
    commit ;;
    close ;;
    notify mobile "Medicines prepared" ;;
    mirror "billing" ;;
    tret (JsonMessage 200 "Medicines prepared")).

(** [POST /hand_over_medicine/<id>] (receptionist) *)
Definition hand_over_medicine (s : session) (aid : string) : txn response :=
  guard_json "receptionist" s (
    prepared <- query (fun d => b_medicines_prepared <$> billing d !! aid) ;;
    if negb (prepared_flag prepared) then
      close ;; tret (JsonMessage 400 "Medicines not prepared yet")
    else
      exec (update_billing aid set_handed_over) ;;
      mobile <- fetch_mobile aid ;;
      commit ;;
      close ;;
      notify mobile "Medicines handed over" ;;
      mirror "billing" ;;
      tret (JsonMessage 200 "Medicine handed over")).

(** [billing[1] != 'Courier'] on the [delivery_type] column. *)
Definition is_courier (dt : option string) : bool :=
  match dt with
  | Some t => String.eqb t "Courier"
  | None => false
  end.

(** [POST /courier_done/<id>] (receptionist) *)
Definition courier_done (s : session) (aid : string) : txn response :=
  guard_json "receptionist" s (
    row <- query (fun d => billing d !! aid) ;;
    match row with
    | None => close ;; tret (JsonMessage 400 "Medicines not prepared yet")
    | Some b =>
        if negb (int_truthy (b_medicines_prepared b)) then
          close ;; tret (JsonMessage 400 "Medicines not prepared yet")
        else if negb (is_courier (b_delivery_type b)) then
          close ;; tret (JsonMessage 400 "Delivery type is not Courier")
        else
          exec (update_billing aid set_couriered) ;;
          mobile <- fetch_mobile aid ;;
          commit ;;
          close ;;
          notify mobile "Medicines couriered" ;;
          mirror "billing" ;;
          tret (JsonMessage 200 "Courier done")
    end).

(** [total_due = (billing[3] or 0) + (billing[4] or 0) + (billing[5] or 0)
    - (billing[7] or 0)] *)
Definition total_due (b : billing_row) : Q :=
  or_zero (b_consultation_charge b) + or_zero (b_medicine_charge b)
  + or_zero (b_courier_charge b) - or_zero (b_discount b).

(** [if billing[6] < total_due: print(...)]: comparing NULL ([None]) with
    a number raises [TypeError] in Python 3. *)
Definition log_credit (aid : string) (b : billing_row) : txn unit :=
  match b_amount_paid b with
  | None => traise (TypeError "'<' not supported between instances of 'NoneType' and a number")
  | Some paid =>
      if Qltb paid (total_due b) then emit (PrintCredit aid (total_due b - paid))
      else tret tt
  end.

(** [POST /complete_checkout/<id>] (receptionist) *)
Definition complete_checkout (s : session) (aid : string) : txn response :=
  guard_json "receptionist" s (
    row <- query (fun d => billing d !! aid) ;;
    match row with
    | None => close ;; tret (JsonMessage 400 "Medicines not handed over or couriered")
    | Some b =>
        if negb (int_truthy (b_medicines_handed_over b)) && negb (int_truthy (b_couriered b)) then
          close ;; tret (JsonMessage 400 "Medicines not handed over or couriered")
        else
          exec (update_billing aid set_checkout_done) ;;
          log_credit aid b ;;
          mobile <- fetch_mobile aid ;;
          commit ;;
          close ;;
          notify mobile "Checkout completed" ;;
          mirror "billing" ;;
          tret (JsonMessage 200 "Checkout completed")
    end).

(** ** The abstract machine of spec section 4.6 *)

Record lc_state := mk_lc {
  lc_prepared : bool;
  lc_handed_over : bool;
  lc_couriered : bool;
  lc_checkout_done : bool;
  lc_courier_delivery : bool
}.

Inductive lc_action := Prepare | HandOver | CourierDone | Checkout.

Inductive lc_step : lc_state -> lc_action -> lc_state -> Prop :=
| lc_prepare p h c k t :
    lc_step (mk_lc p h c k t) Prepare (mk_lc true h c k t)
| lc_hand_over h c k t :
    lc_step (mk_lc true h c k t) HandOver (mk_lc true true c k t)
| lc_courier h c k :
    lc_step (mk_lc true h c k true) CourierDone (mk_lc true h true k true)
| lc_checkout p h c k t :
    h = true \/ c = true ->
    lc_step (mk_lc p h c k t) Checkout (mk_lc p h c true t).

(** The abstraction of a billing row; a missing row reads as the
    defaults of [get_billing] (all flags 0, [In-Person]). *)
Definition abs_row (b : billing_row) : lc_state :=
  mk_lc (int_truthy (b_medicines_prepared b)) (int_truthy (b_medicines_handed_over b))
        (int_truthy (b_couriered b)) (int_truthy (b_checkout_done b))
        (is_courier (b_delivery_type b)).

Definition abs_billing (o : option billing_row) : lc_state :=
  match o with
  | Some b => abs_row b
  | None => mk_lc false false false false false
  end.

(** The handler that implements each abstract action. *)
Definition lc_handler (a : lc_action) : session -> string -> txn response :=
  match a with
  | Prepare => prepare_medicine
  | HandOver => hand_over_medicine
  | CourierDone => courier_done
  | Checkout => complete_checkout
  end.

(** A response of the success branch: [jsonify(...)] with status 200. *)
Definition is_success (r : response) : bool :=
  match r with
  | JsonMessage st _ => Z.eqb st 200
  | _ => false
  end.

(** [d'] differs from [d] at most in the billing row of [aid]. *)
Definition frame (aid : string) (d d' : db) : Prop :=
  patients d' = patients d /\ appointments d' = appointments d /\
  diagnoses d' = diagnoses d /\
  forall x, x <> aid -> billing d' !! x = billing d !! x.

(** [t] has every progress flag that [s] has. *)
Definition lc_le (s t : lc_state) : Prop :=
  (lc_prepared s = true -> lc_prepared t = true) /\
  (lc_handed_over s = true -> lc_handed_over t = true) /\
  (lc_couriered s = true -> lc_couriered t = true) /\
  (lc_checkout_done s = true -> lc_checkout_done t = true).

(** The message of [fetchone()[0]] on a missing row. *)
Definition none_subscript : py_exc := TypeError "'NoneType' object is not subscriptable".

(** ** Lemmas on frames *)

Lemma frame_update_billing aid f d : frame aid d (update_billing aid f d).
Proof.
  split_and!; try reflexivity. intros x Hx. by apply billing_update_billing_ne.
Qed.

Lemma frame_ensure_billing aid d : frame aid d (ensure_billing aid d).
Proof.
  unfold ensure_billing. destruct (billing d !! aid); [split_and!; done|].
  split_and!; try reflexivity. intros x Hx. cbn. by apply lookup_insert_ne.
Qed.

Lemma frame_trans aid d1 d2 d3 : frame aid d1 d2 -> frame aid d2 d3 -> frame aid d1 d3.
Proof.
  intros (P1 & A1 & D1 & B1) (P2 & A2 & D2 & B2).
  split_and!; try congruence. intros x Hx. rewrite B2, B1; done.
Qed.

#[export] Hint Resolve frame_update_billing frame_ensure_billing : clinic.

(** ** One abstract step per row update *)

Lemma lc_step_set_prepared (b : billing_row) :
  lc_step (abs_row b) Prepare (abs_row (set_prepared b)).
Proof. apply lc_prepare. Qed.

Lemma lc_step_set_handed_over (b : billing_row) :
  int_truthy (b_medicines_prepared b) = true ->
  lc_step (abs_row b) HandOver (abs_row (set_handed_over b)).
Proof. intros H. unfold abs_row; cbn. rewrite H. apply lc_hand_over. Qed.

Lemma lc_step_set_couriered (b : billing_row) :
  int_truthy (b_medicines_prepared b) = true ->
  is_courier (b_delivery_type b) = true ->
  lc_step (abs_row b) CourierDone (abs_row (set_couriered b)).
Proof. intros H1 H2. unfold abs_row; cbn. rewrite H1, H2. apply lc_courier. Qed.

Lemma lc_step_set_checkout_done (b : billing_row) :
  negb (int_truthy (b_medicines_handed_over b)) && negb (int_truthy (b_couriered b)) = false ->
  lc_step (abs_row b) Checkout (abs_row (set_checkout_done b)).
Proof.
  intros H. unfold abs_row; cbn. apply lc_checkout.
  destruct (int_truthy (b_medicines_handed_over b)), (int_truthy (b_couriered b));
    cbn in H; auto; discriminate.
Qed.

Lemma lc_step_le s a t : lc_step s a t -> lc_le s t.
Proof. intros Hs. inversion Hs; subst; unfold lc_le; cbn; naive_solver. Qed.

Lemma lc_le_refl s : lc_le s s.
Proof. unfold lc_le; naive_solver. Qed.

#[export] Hint Resolve lc_step_set_prepared lc_step_set_handed_over lc_step_set_couriered
  lc_step_set_checkout_done lc_le_refl : clinic.

(** ** Per-branch equations of the handlers *)

Lemma prepare_medicine_eq s E d aid :
  run (prepare_medicine s aid) E d =
  if forbidden s "pharmacist" then (JsonMessage 403 "Unauthorized", d, [])
  else match select_mobile d aid with
       | None => (ServerError none_subscript, d, [])
       | Some m => (JsonMessage 200 "Medicines prepared",
                    update_billing aid set_prepared (ensure_billing aid d),
                    [WhatsApp m "Medicines prepared";
                     CsvMirror "billing" (update_billing aid set_prepared (ensure_billing aid d))])
       end.
Proof.
  unfold prepare_medicine, guard_json.
  destruct (forbidden s "pharmacist"); [reflexivity|].
  txn_simpl. rewrite select_mobile_update_billing, select_mobile_ensure_billing.
  destruct (select_mobile d aid); reflexivity.
Qed.

Lemma hand_over_medicine_eq s E d aid :
  run (hand_over_medicine s aid) E d =
  if forbidden s "receptionist" then (JsonMessage 403 "Unauthorized", d, [])
  else if negb (prepared_flag (b_medicines_prepared <$> billing d !! aid)) then
    (JsonMessage 400 "Medicines not prepared yet", d, [])
  else match select_mobile d aid with
       | None => (ServerError none_subscript, d, [])
       | Some m => (JsonMessage 200 "Medicine handed over",
                    update_billing aid set_handed_over d,
                    [WhatsApp m "Medicines handed over";
                     CsvMirror "billing" (update_billing aid set_handed_over d)])
       end.
Proof.
  unfold hand_over_medicine, guard_json.
  destruct (forbidden s "receptionist"); [reflexivity|].
  txn_simpl. destruct (negb _); [reflexivity|].
  txn_simpl. rewrite select_mobile_update_billing.
  destruct (select_mobile d aid); reflexivity.
Qed.

Lemma courier_done_eq s E d aid :
  run (courier_done s aid) E d =
  if forbidden s "receptionist" then (JsonMessage 403 "Unauthorized", d, [])
  else match billing d !! aid with
       | None => (JsonMessage 400 "Medicines not prepared yet", d, [])
       | Some b =>
           if negb (int_truthy (b_medicines_prepared b)) then
             (JsonMessage 400 "Medicines not prepared yet", d, [])
           else if negb (is_courier (b_delivery_type b)) then
             (JsonMessage 400 "Delivery type is not Courier", d, [])
           else match select_mobile d aid with
                | None => (ServerError none_subscript, d, [])
                | Some m => (JsonMessage 200 "Courier done",
                             update_billing aid set_couriered d,
                             [WhatsApp m "Medicines couriered";
                              CsvMirror "billing" (update_billing aid set_couriered d)])
                end
       end.
Proof.
  unfold courier_done, guard_json.
  destruct (forbidden s "receptionist"); [reflexivity|].
  txn_simpl. destruct (billing d !! aid) as [b|]; [|reflexivity].
  destruct (negb (int_truthy _)); [reflexivity|].
  destruct (negb (is_courier _)); [reflexivity|].
  txn_simpl. rewrite select_mobile_update_billing.
  destruct (select_mobile d aid); reflexivity.
Qed.

Lemma complete_checkout_eq s E d aid :
  run (complete_checkout s aid) E d =
  if forbidden s "receptionist" then (JsonMessage 403 "Unauthorized", d, [])
  else match billing d !! aid with
       | None => (JsonMessage 400 "Medicines not handed over or couriered", d, [])
       | Some b =>
           if negb (int_truthy (b_medicines_handed_over b)) && negb (int_truthy (b_couriered b)) then
             (JsonMessage 400 "Medicines not handed over or couriered", d, [])
           else match b_amount_paid b with
                | None => (ServerError (TypeError "'<' not supported between instances of 'NoneType' and a number"), d, [])
                | Some paid =>
                    let credit := if Qltb paid (total_due b)
                                  then [PrintCredit aid (total_due b - paid)] else [] in
                    match select_mobile d aid with
                    | None => (ServerError none_subscript, d, credit)
                    | Some m => (JsonMessage 200 "Checkout completed",
                                 update_billing aid set_checkout_done d,
                                 app credit [WhatsApp m "Checkout completed";
                                   CsvMirror "billing" (update_billing aid set_checkout_done d)])
                    end
                end
       end.
Proof.
  unfold complete_checkout, guard_json, log_credit.
  destruct (forbidden s "receptionist"); [reflexivity|].
  txn_simpl. destruct (billing d !! aid) as [b|]; [|reflexivity].
  destruct (negb _ && negb _); [reflexivity|].
  txn_simpl. destruct (b_amount_paid b) as [paid|]; [|reflexivity].
  destruct (Qltb paid (total_due b)); txn_simpl;
    rewrite select_mobile_update_billing; destruct (select_mobile d aid); reflexivity.
Qed.

(** ** Behaviour of each handler on every branch *)

(** C4: [prepare_medicine] answers 403 to a non-pharmacist; otherwise it
    creates the placeholder row if needed and sets [medicines_prepared],
    unless the appointment has no resolvable patient, in which case the
    [fetchone()[0]] raises before the commit and nothing is stored. *)
Theorem prepare_medicine_run s E d aid :
  run (prepare_medicine s aid) E d =
  if forbidden s "pharmacist" then (JsonMessage 403 "Unauthorized", d, [])
  else match select_mobile d aid with
       | None => (ServerError none_subscript, d, [])
       | Some m => (JsonMessage 200 "Medicines prepared",
                    update_billing aid set_prepared (ensure_billing aid d),
                    [WhatsApp m "Medicines prepared";
                     CsvMirror "billing" (update_billing aid set_prepared (ensure_billing aid d))])
       end.
Proof. exact (prepare_medicine_eq s E d aid). Qed.

(** C1: [hand_over_medicine] answers 403 to a non-receptionist, 400
    "Medicines not prepared yet" when there is no billing row or its
    [medicines_prepared] is falsy (database unchanged); otherwise it sets
    [medicines_handed_over], commits, and notifies the patient. *)
Theorem hand_over_medicine_run s E d aid :
  run (hand_over_medicine s aid) E d =
  if forbidden s "receptionist" then (JsonMessage 403 "Unauthorized", d, [])
  else if negb (prepared_flag (b_medicines_prepared <$> billing d !! aid)) then
    (JsonMessage 400 "Medicines not prepared yet", d, [])
  else match select_mobile d aid with
       | None => (ServerError none_subscript, d, [])
       | Some m => (JsonMessage 200 "Medicine handed over",
                    update_billing aid set_handed_over d,
                    [WhatsApp m "Medicines handed over";
                     CsvMirror "billing" (update_billing aid set_handed_over d)])
       end.
Proof. exact (hand_over_medicine_eq s E d aid). Qed.

(** C2: [courier_done] checks, in this order, that a billing row exists
    with [medicines_prepared] truthy (else 400 "Medicines not prepared
    yet") and that its [delivery_type] is exactly ['Courier'] (else 400
    "Delivery type is not Courier"); both failures leave the database
    unchanged.  Otherwise it sets [couriered] and notifies. *)
Theorem courier_done_run s E d aid :
  run (courier_done s aid) E d =
  if forbidden s "receptionist" then (JsonMessage 403 "Unauthorized", d, [])
  else match billing d !! aid with
       | None => (JsonMessage 400 "Medicines not prepared yet", d, [])
       | Some b =>
           if negb (int_truthy (b_medicines_prepared b)) then
             (JsonMessage 400 "Medicines not prepared yet", d, [])
           else if negb (is_courier (b_delivery_type b)) then
             (JsonMessage 400 "Delivery type is not Courier", d, [])
           else match select_mobile d aid with
                | None => (ServerError none_subscript, d, [])
                | Some m => (JsonMessage 200 "Courier done",
                             update_billing aid set_couriered d,
                             [WhatsApp m "Medicines couriered";
                              CsvMirror "billing" (update_billing aid set_couriered d)])
                end
       end.
Proof. exact (courier_done_eq s E d aid). Qed.

(** C3: [complete_checkout] answers 400 unless the billing row exists
    and [medicines_handed_over] or [couriered] is truthy; otherwise it
    sets [checkout_done], prints the outstanding credit when
    [amount_paid] is below the total due, and notifies.  A NULL
    [amount_paid] makes the comparison raise [TypeError] before the
    commit, so the checkout is lost. *)
Theorem complete_checkout_run s E d aid :
  run (complete_checkout s aid) E d =
  if forbidden s "receptionist" then (JsonMessage 403 "Unauthorized", d, [])
  else match billing d !! aid with
       | None => (JsonMessage 400 "Medicines not handed over or couriered", d, [])
       | Some b =>
           if negb (int_truthy (b_medicines_handed_over b)) && negb (int_truthy (b_couriered b)) then
             (JsonMessage 400 "Medicines not handed over or couriered", d, [])
           else match b_amount_paid b with
                | None => (ServerError (TypeError "'<' not supported between instances of 'NoneType' and a number"), d, [])
                | Some paid =>
                    let credit := if Qltb paid (total_due b)
                                  then [PrintCredit aid (total_due b - paid)] else [] in
                    match select_mobile d aid with
                    | None => (ServerError none_subscript, d, credit)
                    | Some m => (JsonMessage 200 "Checkout completed",
                                 update_billing aid set_checkout_done d,
                                 app credit [WhatsApp m "Checkout completed";
                                   CsvMirror "billing" (update_billing aid set_checkout_done d)])
                    end
                end
       end.
Proof. exact (complete_checkout_eq s E d aid). Qed.

(** ** Refinement into the abstract machine *)

(** Each handler either fails with the database unchanged or performs
    one abstract step on its row and changes nothing else. *)
Lemma lc_handler_refines a s E d aid :
  let res := run (lc_handler a s aid) E d in
  if is_success res.1.1
  then lc_step (abs_billing (billing d !! aid)) a (abs_billing (billing res.1.2 !! aid))
       /\ frame aid d res.1.2
  else res.1.2 = d.
Proof.
  destruct a; cbn [lc_handler].
  - rewrite prepare_medicine_eq. destruct (forbidden s _); [reflexivity|].
    destruct (select_mobile d aid); [|reflexivity]. cbn -[update_billing ensure_billing].
    split; [|eauto using frame_trans with clinic].
    autorewrite with clinic_rw. destruct (billing d !! aid) as [b|];
      [apply (lc_step_set_prepared b) | apply (lc_step_set_prepared placeholder_billing)].
  - rewrite hand_over_medicine_eq. destruct (forbidden s _); [reflexivity|].
    destruct (billing d !! aid) as [b|] eqn:Hb; cbn -[update_billing ensure_billing]; [|reflexivity].
    destruct (int_truthy (b_medicines_prepared b)) eqn:Hp; cbn -[update_billing ensure_billing]; [|reflexivity].
    destruct (select_mobile d aid); [|reflexivity]. cbn -[update_billing ensure_billing].
    split; [|auto with clinic]. autorewrite with clinic_rw. rewrite Hb. by apply lc_step_set_handed_over.
  - rewrite courier_done_eq. destruct (forbidden s _); [reflexivity|].
    destruct (billing d !! aid) as [b|] eqn:Hb; [|reflexivity].
    destruct (int_truthy (b_medicines_prepared b)) eqn:Hp; cbn -[update_billing ensure_billing]; [|reflexivity].
    destruct (is_courier (b_delivery_type b)) eqn:Hc; cbn -[update_billing ensure_billing]; [|reflexivity].
    destruct (select_mobile d aid); [|reflexivity]. cbn -[update_billing ensure_billing].
    split; [|auto with clinic]. autorewrite with clinic_rw. rewrite Hb. by apply lc_step_set_couriered.
  - rewrite complete_checkout_eq. destruct (forbidden s _); [reflexivity|].
    destruct (billing d !! aid) as [b|] eqn:Hb; [|reflexivity].
    destruct (negb _ && negb _) eqn:Hg; [reflexivity|].
    destruct (b_amount_paid b); [|reflexivity].
    destruct (select_mobile d aid); [|reflexivity]. cbn -[update_billing ensure_billing].
    split; [|auto with clinic]. autorewrite with clinic_rw. rewrite Hb. by apply lc_step_set_checkout_done.
Qed.

(** C5: every call of a lifecycle handler either fails (403, 400, or a
    server error) and leaves the database exactly as it was, or succeeds
    with status 200, performs one step of the abstract machine of spec
    section 4.6 on the flags of its appointment, and changes no other row
    of any table. *)
Theorem lifecycle_refinement a s E d aid :
  let res := run (lc_handler a s aid) E d in
  if is_success res.1.1
  then lc_step (abs_billing (billing d !! aid)) a (abs_billing (billing res.1.2 !! aid))
       /\ frame aid d res.1.2
  else res.1.2 = d.
Proof. exact (lc_handler_refines a s E d aid). Qed.

(** No lifecycle handler ever clears a progress flag of any billing
    row, whatever its outcome. *)
Lemma lifecycle_flags_monotone a s E d aid x :
  lc_le (abs_billing (billing d !! x))
        (abs_billing (billing (run (lc_handler a s aid) E d).1.2 !! x)).
Proof.
  pose proof (lc_handler_refines a s E d aid) as Hr. cbv zeta in Hr.
  destruct (is_success _).
  - destruct Hr as [Hstep (_ & _ & _ & Hfr)].
    destruct (decide (x = aid)) as [->|Hne]; [by eapply lc_step_le|].
    rewrite Hfr by done. apply lc_le_refl.
  - rewrite Hr. apply lc_le_refl.
Qed.

(** [complete_checkout] on a row that was handed over or couriered
    but whose [amount_paid] is still NULL (no [billing_prepare] since the
    placeholder row was created) raises [TypeError] before its commit:
    the answer is a server error, [checkout_done] stays unset and no
    notification is sent.  The spec's end-to-end scenario (book, check
    in, diagnose, prepare, hand over, check out, with no billing step)
    ends in this branch. *)
Theorem complete_checkout_unpaid_crashes s E d aid b :
  forbidden s "receptionist" = false ->
  billing d !! aid = Some b ->
  int_truthy (b_medicines_handed_over b) || int_truthy (b_couriered b) = true ->
  b_amount_paid b = None ->
  run (complete_checkout s aid) E d =
  (ServerError (TypeError "'<' not supported between instances of 'NoneType' and a number"), d, []).
Proof.
  intros Hs Hb Hflag Hpaid. rewrite complete_checkout_eq, Hs, Hb, Hpaid.
  destruct (int_truthy _), (int_truthy _); cbn in *; congruence.
Qed.

(** C8: re-invoking a lifecycle handler right after it succeeded succeeds
    again with the same answer and the same effects (the notification is
    sent again) and leaves the database as the first call left it: every
    transition is idempotent, whatever the clock and uuid supply. *)
Theorem lifecycle_retry a s E E' d aid r d1 effs :
  run (lc_handler a s aid) E d = (r, d1, effs) ->
  is_success r = true ->
  run (lc_handler a s aid) E' d1 = (r, d1, effs).
Proof.
  intros Hrun Hok. destruct a; cbn [lc_handler] in *.
  - rewrite prepare_medicine_eq in *. destruct (forbidden s _); [by inversion Hrun; subst|].
    destruct (select_mobile d aid) eqn:Hm; inversion Hrun; subst; [|done].
    rewrite select_mobile_update_billing, select_mobile_ensure_billing, Hm.
    rewrite (ensure_billing_present aid (update_billing _ _ _))
      by (rewrite billing_update_billing_eq; destruct (billing_ensure_billing_present aid d) as [? ->]; by eexists).
    by rewrite update_billing_idem.
  - rewrite hand_over_medicine_eq in *. destruct (forbidden s _); [by inversion Hrun; subst|].
    destruct (billing d !! aid) as [b|] eqn:Hb; cbn -[update_billing] in *; [|by inversion Hrun; subst].
    destruct (int_truthy (b_medicines_prepared b)) eqn:Hp; cbn -[update_billing] in *; [|by inversion Hrun; subst].
    destruct (select_mobile d aid) eqn:Hm; inversion Hrun; subst; [|done].
    rewrite billing_update_billing_eq, Hb, select_mobile_update_billing, Hm. cbn -[update_billing].
    rewrite Hp. cbn -[update_billing]. by rewrite update_billing_idem.
  - rewrite courier_done_eq in *. destruct (forbidden s _); [by inversion Hrun; subst|].
    destruct (billing d !! aid) as [b|] eqn:Hb; [|by inversion Hrun; subst].
    destruct (int_truthy (b_medicines_prepared b)) eqn:Hp; cbn -[update_billing] in *; [|by inversion Hrun; subst].
    destruct (is_courier (b_delivery_type b)) eqn:Hc; cbn -[update_billing] in *; [|by inversion Hrun; subst].
    destruct (select_mobile d aid) eqn:Hm; inversion Hrun; subst; [|done].
    rewrite billing_update_billing_eq, Hb, select_mobile_update_billing, Hm. cbn -[update_billing].
    rewrite Hp, Hc. cbn -[update_billing]. by rewrite update_billing_idem.
  - rewrite complete_checkout_eq in *. destruct (forbidden s _); [by inversion Hrun; subst|].
    destruct (billing d !! aid) as [b|] eqn:Hb; [|by inversion Hrun; subst].
    destruct (negb _ && negb _) eqn:Hg; [by inversion Hrun; subst|].
    destruct (b_amount_paid b) eqn:Hpaid; [|by inversion Hrun; subst].
    destruct (select_mobile d aid) eqn:Hm; inversion Hrun; subst; [|done].
    rewrite billing_update_billing_eq, Hb, select_mobile_update_billing, Hm. cbn -[update_billing].
    rewrite Hg, Hpaid. cbn -[update_billing]. by rewrite update_billing_idem.
Qed.

(** ** Witnesses *)

Lemma complete_checkout_unpaid_crashes_witness :
  run (complete_checkout receptionist "A1") demo_env
      (db_of (hand_over_medicine receptionist "A1") demo_env
             (db_of (prepare_medicine pharmacist "A1") demo_env booked)) =
  (ServerError (TypeError "'<' not supported between instances of 'NoneType' and a number"),
   db_of (hand_over_medicine receptionist "A1") demo_env
         (db_of (prepare_medicine pharmacist "A1") demo_env booked), []).
Proof.
  apply (complete_checkout_unpaid_crashes _ _ _ _ (set_handed_over (set_prepared placeholder_billing)));
    vm_compute; reflexivity.
Defined.

Lemma lifecycle_retry_witness :
  run (lc_handler HandOver receptionist "A1") demo_env
      (db_of (hand_over_medicine receptionist "A1") demo_env
             (db_of (prepare_medicine pharmacist "A1") demo_env booked)) =
  (JsonMessage 200 "Medicine handed over",
   db_of (hand_over_medicine receptionist "A1") demo_env
         (db_of (prepare_medicine pharmacist "A1") demo_env booked),
   [WhatsApp "9990001111" "Medicines handed over";
    CsvMirror "billing" (db_of (hand_over_medicine receptionist "A1") demo_env
                           (db_of (prepare_medicine pharmacist "A1") demo_env booked))]).
Proof.
  apply (lifecycle_retry HandOver receptionist demo_env demo_env
           (db_of (prepare_medicine pharmacist "A1") demo_env booked));
    vm_compute; reflexivity.
Defined.

End Lifecycle.
