(* ===== verification/Booking.v ===== *)
(** * Booking and check-in

    [book_appointment] (lines 728-767 of [src/app.py], the JSON
    endpoint), the booking form of [receptionist_dashboard] (lines
    107-169, which then lists the appointments, lines 170-182) and
    [check_in] (lines 769-786).  Both booking paths look the patient up
    by mobile number and update or insert it, draw the appointment's
    uuid, parse the requested date with [datetime.strptime], refuse a
    same-day [Online Direct] booking by closing the connection without a
    commit (which also undoes the patient upsert), and otherwise insert
    the appointment and notify the patient.  Only the JSON endpoint also
    creates the placeholder billing row.  A date [strptime] rejects is an
    HTTP 500 carrying CPython's [ValueError] message.  The body or form
    is taken to carry every field (a missing one would be a [KeyError]
    or Flask's 400, not modelled here). *)

From S2P Require Import Prelude Dates Schema Txn Auth Fixtures.
Import Dates Schema Txn Auth Fixtures.
Local Open Scope clinic_scope.

Module Booking.

(** The fields of a booking, as the JSON body or the form sends them. *)
Record booking_data := mk_booking {
  bk_name : string;
  bk_mobile_number : string;
  bk_age : string;
  bk_address : string;
  bk_reason : string;
  bk_appointment_date : string;
  bk_booking_type : string
}.

(** Lines 736-745 (and 124-133): look the patient up by mobile number;
    update name, age and address of the patient found, or insert a new
    patient under a fresh uuid. *)
Definition upsert_patient (data : booking_data) : txn string :=
  found <- query (fun d => select_patient_by_mobile d (bk_mobile_number data)) ;;
  match found with
  | Some pid =>
      exec (update_patient pid (bk_name data) (bk_age data) (bk_address data)) ;;
      tret pid
  | None =>
      pid <- uuid4 ;;
      exec_checked (insert_patient pid (mk_patient (bk_name data) (bk_mobile_number data)
                                                   (bk_age data) (bk_address data))) ;;
      tret pid
  end.

(** [datetime.strptime(s, '%Y-%m-%d').date()]: a [ValueError] escapes. *)
Definition parse_date (s : string) : txn date :=
  match strptime_ymd s with
  | inl e => traise (ValueError (strptime_message s e))
  | inr d => tret d
  end.

(** [appt_date == today and data['booking_type'] == 'Online Direct'] *)
Definition same_day_direct (appt today : date) (booking_type : string) : bool :=
  bool_decide (appt = today) && String.eqb booking_type "Online Direct".

(** The new row of [INSERT INTO appointments (...) VALUES (?, ?, ?, ?, ?,
    ?, 0, '', '')]. *)
Definition new_appointment (pid : string) (data : booking_data) (booking_date : string)
  : appointment_row :=
  mk_appointment pid (bk_reason data) booking_date (bk_appointment_date data)
                 (bk_booking_type data) 0 EmptyString EmptyString.

(** Lines 761-763: the booking confirmation, and the pending notice for
    every channel but [Manual In-Clinic]. *)
Definition booking_notifications (data : booking_data) : txn unit :=
  notify (bk_mobile_number data) ("Appointment booked for " ++ bk_appointment_date data) ;;
  if negb (String.eqb (bk_booking_type data) "Manual In-Clinic")
  then notify (bk_mobile_number data) "Appointment confirmation pending from clinic"
  else tret tt.

(** [POST /book_appointment] (receptionist) *)
Definition book_appointment (s : session) (data : booking_data) : txn response :=
  guard_json "receptionist" s (
    pid <- upsert_patient data ;;
    aid <- uuid4 ;;
    t <- now ;;
    appt_date <- parse_date (bk_appointment_date data) ;;
    if same_day_direct appt_date (dt_date t) (bk_booking_type data) then
      close ;; tret (JsonMessage 400 "Same-day online bookings not allowed")
    else
      exec_checked (insert_appointment aid
                      (new_appointment pid data (strftime_ymd (dt_date t)))) ;;
      exec (ensure_billing aid) ;;
      commit ;;
      close ;;
      booking_notifications data ;;
      mirror "patients" ;;
      mirror "appointments" ;;
      mirror "billing" ;;
      tret (JsonMessage 200 "Appointment booked")).

(** The dashboards' listing: every appointment with its patient (inner
    JOIN) and its diagnosis and billing rows (LEFT JOINs). *)
Definition dashboard_rows (d : db) : list joined_row :=
  omap (fun '(aid, a) =>
          p ← patients d !! a_patient_id a;
          Some (mk_joined aid a p (diagnoses d !! aid) (billing d !! aid)))
       (map_to_list (appointments d)).

(** Lines 170-182 and the final [render_template_string]. *)
Definition list_dashboard (role : string) : txn response :=
  rows <- query dashboard_rows ;;
  close ;;
  tret (Page (DashboardPage role rows)).

(** What the receptionist dashboard receives: a GET, or a POST of the
    booking form ([booking] field present), or a POST without it. *)
Inductive dashboard_request :=
| DashboardView
| DashboardBooking (data : booking_data).

(** [GET/POST /receptionist_dashboard] (receptionist) *)
Definition receptionist_dashboard (s : session) (req : dashboard_request) : txn response :=
  guard_page "receptionist" s (
    match req with
    | DashboardView => list_dashboard "receptionist"
    | DashboardBooking data =>
        pid <- upsert_patient data ;;
        aid <- uuid4 ;;
        t <- now ;;
        appt_date <- parse_date (bk_appointment_date data) ;;
        if same_day_direct appt_date (dt_date t) (bk_booking_type data) then
          close ;; tret (Page SameDayRejectedPage)
        else
          exec_checked (insert_appointment aid
                          (new_appointment pid data (strftime_ymd (dt_date t)))) ;;
          commit ;;
          close ;;
          booking_notifications data ;;
          mirror "patients" ;;
          mirror "appointments" ;;
          list_dashboard "receptionist"
    end).

(** [POST /check_in/<id>/<status>] (receptionist): the UPDATE runs first;
    the existence test comes after it and rolls it back by closing. *)
Definition check_in (s : session) (aid status : string) : txn response :=
  guard_json "receptionist" s (
    t <- now ;;
    exec (update_checkin aid status (strftime_ymd_hms t)) ;;
    found <- query (fun d => select_appointment_patient d aid) ;;
    match found with
    | None => close ;; tret (JsonMessage 404 "Appointment not found")
    | Some _ =>
        commit ;;
        close ;;
        mirror "appointments" ;;
        tret (JsonMessage 200 "Checked in")
    end).

(** The messages [booking_notifications] sends. *)
Definition notification_effects (data : booking_data) : list effect :=
  WhatsApp (bk_mobile_number data) ("Appointment booked for " ++ bk_appointment_date data)
  :: (if negb (String.eqb (bk_booking_type data) "Manual In-Clinic")
      then [WhatsApp (bk_mobile_number data) "Appointment confirmation pending from clinic"]
      else []).

(** The effects of a successful booking: the messages, then the mirrors. *)
Definition booking_effects (data : booking_data) (tables : list string) (d : db) : list effect :=
  app (notification_effects data) (map (fun t => CsvMirror t d) tables).

(** Concrete requests for the witnesses (with [Fixtures.booked] and
    [Fixtures.demo_env], whose clock says 9 November 2026). *)
Definition same_day_online : booking_data :=
  mk_booking "Ravi" "9990002222" "41" "Mumbai" "Consultation" "2026-11-09" "Online Direct".

Definition rebook_asha : booking_data :=
  mk_booking "Asha K" "9990001111" "35" "Pune East" "Collecting Medicine" "2026-11-10"
             "Online Direct".

Definition feb_30 : booking_data :=
  mk_booking "Ravi" "9990002222" "41" "Mumbai" "Consultation" "2026-02-30" "Online Manual".

Definition new_walk_in : booking_data :=
  mk_booking "Meera" "9990003333" "29" "Nashik" "Other" "2026-11-12" "Manual In-Clinic".

(** ** Lemmas *)

Lemma same_day_direct_refl (t : date) : same_day_direct t t "Online Direct" = true.
Proof. unfold same_day_direct. rewrite bool_decide_eq_true_2; reflexivity. Qed.

Lemma booking_notifications_run data E c w n effs :
  booking_notifications data (mk_conn E c w effs n) =
  (Ret tt, mk_conn E c w (app effs (notification_effects data)) n).
Proof.
  unfold booking_notifications, notification_effects. txn_simpl.
  destruct (negb _); txn_simpl; [by rewrite <- app_assoc | reflexivity].
Qed.

Lemma upsert_patient_run data E c w effs n :
  upsert_patient data (mk_conn E c w effs n) =
  match select_patient_by_mobile w (bk_mobile_number data) with
  | Some pid =>
      (Ret pid, mk_conn E c (update_patient pid (bk_name data) (bk_age data) (bk_address data) w)
                        effs n)
  | None =>
      match insert_patient (env_uuid E n) (mk_patient (bk_name data) (bk_mobile_number data)
                                                      (bk_age data) (bk_address data)) w with
      | inl e => (Raise (IntegrityError e), mk_conn E c w effs (S n))
      | inr w' => (Ret (env_uuid E n), mk_conn E c w' effs (S n))
      end
  end.
Proof.
  unfold upsert_patient. txn_simpl.
  destruct (select_patient_by_mobile w _); txn_simpl; [reflexivity|].
  by destruct (insert_patient _ _ _).
Qed.

Lemma check_in_eq s E d aid status :
  run (check_in s aid status) E d =
  if forbidden s "receptionist" then (JsonMessage 403 "Unauthorized", d, [])
  else match appointments d !! aid with
       | None => (JsonMessage 404 "Appointment not found", d, [])
       | Some _ => (JsonMessage 200 "Checked in",
                    update_checkin aid status (strftime_ymd_hms (env_now E)) d,
                    [CsvMirror "appointments" (update_checkin aid status (strftime_ymd_hms (env_now E)) d)])
       end.
Proof.
  unfold check_in, guard_json. destruct (forbidden s _); [reflexivity|].
  txn_simpl. rewrite select_appointment_patient_update_checkin.
  unfold select_appointment_patient. by destruct (appointments d !! aid).
Qed.

(** ** Theorems *)

(** C10: on both booking paths, a booking through [Online Direct] for the
    current date is refused (400 on the JSON endpoint, the error page on
    the dashboard) and the database is left exactly as it was: the
    patient upsert that ran before the check is rolled back by
    [conn.close()], and no notification is sent.  (The only hypothesis
    on the database is that the uuid drawn for a new patient is not a
    patient id already, so the upsert itself cannot fail.) *)
Theorem booking_same_day_direct_rejected s E d data :
  forbidden s "receptionist" = false ->
  strptime_ymd (bk_appointment_date data) = inr (dt_date (env_now E)) ->
  bk_booking_type data = "Online Direct" ->
  patients d !! env_uuid E 0 = None ->
  run (book_appointment s data) E d =
    (JsonMessage 400 "Same-day online bookings not allowed", d, []) /\
  run (receptionist_dashboard s (DashboardBooking data)) E d = (Page SameDayRejectedPage, d, []).
Proof.
  intros Hs Hdate Htype Hfresh.
  unfold book_appointment, receptionist_dashboard, guard_json, guard_page.
  rewrite Hs. unfold upsert_patient, parse_date. txn_simpl.
  destruct (select_patient_by_mobile d (bk_mobile_number data)) eqn:Hsel; txn_simpl.
  - rewrite Hdate, Htype, same_day_direct_refl. txn_simpl. split; reflexivity.
  - rewrite insert_patient_fresh by done. txn_simpl.
    rewrite Hdate, Htype, same_day_direct_refl. txn_simpl. split; reflexivity.
Qed.

(** C11: booking under the mobile number of an existing patient updates
    that patient's name, age and address in place (the set of patients is
    unchanged and the mobile number stays the key), always inserts a new
    appointment under the uuid drawn for it, creates the placeholder
    billing row, sends the confirmation (and the pending notice unless
    the channel is [Manual In-Clinic]) and mirrors the three tables. *)
Theorem book_appointment_existing_patient s E d data pid ad :
  forbidden s "receptionist" = false ->
  select_patient_by_mobile d (bk_mobile_number data) = Some pid ->
  appointments d !! env_uuid E 0 = None ->
  strptime_ymd (bk_appointment_date data) = inr ad ->
  same_day_direct ad (dt_date (env_now E)) (bk_booking_type data) = false ->
  let '(r, d', effs) := run (book_appointment s data) E d in
  r = JsonMessage 200 "Appointment booked" /\
  dom (patients d') = dom (patients d) /\
  patients d' !! pid = Some (mk_patient (bk_name data) (bk_mobile_number data)
                                        (bk_age data) (bk_address data)) /\
  (forall q, q <> pid -> patients d' !! q = patients d !! q) /\
  appointments d' = <[env_uuid E 0 := new_appointment pid data (strftime_ymd (dt_date (env_now E)))]>
                      (appointments d) /\
  is_Some (billing d' !! env_uuid E 0) /\
  effs = booking_effects data ["patients"; "appointments"; "billing"] d'.
Proof.
  intros Hs Hsel Hfresh Hdate Hsame.
  destruct (select_patient_by_mobile_Some _ _ _ Hsel) as [p [Hp Hmob]].
  unfold book_appointment, guard_json. rewrite Hs.
  unfold upsert_patient, parse_date. txn_simpl. rewrite Hsel. txn_simpl.
  rewrite Hdate, Hsame. txn_simpl. rewrite insert_appointment_fresh by done. txn_simpl.
  rewrite booking_notifications_run. txn_simpl.
  split_and!; try reflexivity.
  - unfold ensure_billing. case_match; cbn; apply dom_alter_L.
  - unfold ensure_billing. case_match; cbn; rewrite lookup_alter_eq, Hp; cbn; by rewrite Hmob.
  - intros q Hq. unfold ensure_billing. case_match; cbn; by rewrite lookup_alter_ne.
  - unfold ensure_billing. by case_match.
  - apply billing_ensure_billing_present.
  - unfold booking_effects, notification_effects. destruct (negb _); reflexivity.
Qed.

(** C12: booking under a mobile number no patient has inserts exactly one
    new patient under the first uuid drawn and the appointment under the
    second, referencing that patient, with the placeholder billing row. *)
Theorem book_appointment_new_patient s E d data ad :
  forbidden s "receptionist" = false ->
  select_patient_by_mobile d (bk_mobile_number data) = None ->
  patients d !! env_uuid E 0 = None ->
  appointments d !! env_uuid E 1 = None ->
  strptime_ymd (bk_appointment_date data) = inr ad ->
  same_day_direct ad (dt_date (env_now E)) (bk_booking_type data) = false ->
  let '(r, d', effs) := run (book_appointment s data) E d in
  r = JsonMessage 200 "Appointment booked" /\
  patients d' = <[env_uuid E 0 := mk_patient (bk_name data) (bk_mobile_number data)
                                             (bk_age data) (bk_address data)]> (patients d) /\
  appointments d' = <[env_uuid E 1 := new_appointment (env_uuid E 0) data
                                        (strftime_ymd (dt_date (env_now E)))]> (appointments d) /\
  is_Some (billing d' !! env_uuid E 1) /\
  effs = booking_effects data ["patients"; "appointments"; "billing"] d'.
Proof.
  intros Hs Hsel Hfp Hfa Hdate Hsame.
  unfold book_appointment, guard_json. rewrite Hs.
  unfold upsert_patient, parse_date. txn_simpl. rewrite Hsel.
  rewrite insert_patient_fresh by done. txn_simpl.
  rewrite Hdate, Hsame. txn_simpl. rewrite insert_appointment_fresh by done. txn_simpl.
  rewrite booking_notifications_run. txn_simpl.
  split_and!; try reflexivity.
  - unfold ensure_billing. by case_match.
  - unfold ensure_billing. by case_match.
  - apply billing_ensure_billing_present.
  - unfold booking_effects, notification_effects. destruct (negb _); reflexivity.
Qed.

(** C13: the dashboard's booking form never writes the billing table,
    whatever the outcome: unlike [book_appointment], it creates no
    placeholder billing row (spec section 4.1 says booking does). *)
Theorem receptionist_dashboard_keeps_billing s E d req :
  billing (db_of (receptionist_dashboard s req) E d) = billing d.
Proof.
  unfold db_of, receptionist_dashboard, guard_page.
  destruct (forbidden s _); [reflexivity|].
  destruct req as [|data]; unfold list_dashboard; txn_simpl; [reflexivity|].
  rewrite upsert_patient_run. unfold parse_date, insert_patient.
  destruct (select_patient_by_mobile d _) eqn:Hsel; txn_simpl;
    [|destruct (patients d !! _); txn_simpl; [reflexivity|]];
    (destruct (strptime_ymd _); txn_simpl; [reflexivity|]);
    (destruct (same_day_direct _ _ _); txn_simpl; [reflexivity|]);
    (lazymatch goal with
     | |- context [insert_appointment ?k _ ?w] =>
         unfold insert_appointment; destruct (appointments w !! k); txn_simpl; [reflexivity|]
     end);
    rewrite booking_notifications_run; reflexivity.
Qed.

(** C14: [check_in] answers 403 to a non-receptionist and 404 for an
    unknown appointment (the UPDATE that matched nothing is rolled back);
    otherwise it overwrites the check-in status and time with the given
    status and the current time, without any guard against a second
    check-in, and mirrors the appointments table. *)
Theorem check_in_run s E d aid status :
  run (check_in s aid status) E d =
  if forbidden s "receptionist" then (JsonMessage 403 "Unauthorized", d, [])
  else match appointments d !! aid with
       | None => (JsonMessage 404 "Appointment not found", d, [])
       | Some _ => (JsonMessage 200 "Checked in",
                    update_checkin aid status (strftime_ymd_hms (env_now E)) d,
                    [CsvMirror "appointments" (update_checkin aid status (strftime_ymd_hms (env_now E)) d)])
       end.
Proof. exact (check_in_eq s E d aid status). Qed.

(** C33: on both booking paths, an appointment date that
    [datetime.strptime(s, '%Y-%m-%d')] rejects (no match, trailing
    characters, year 0, a day past the end of the month) makes the
    request fail with the [ValueError] CPython raises for it, after the
    patient upsert and before any commit: the database is left exactly as
    it was and no notification is sent.  (As in C10, the uuid drawn for a
    new patient is not a patient id already.) *)
Theorem booking_invalid_date s E d data e :
  forbidden s "receptionist" = false ->
  strptime_ymd (bk_appointment_date data) = inl e ->
  patients d !! env_uuid E 0 = None ->
  run (book_appointment s data) E d =
    (ServerError (ValueError (strptime_message (bk_appointment_date data) e)), d, []) /\
  run (receptionist_dashboard s (DashboardBooking data)) E d =
    (ServerError (ValueError (strptime_message (bk_appointment_date data) e)), d, []).
Proof.
  intros Hs Hdate Hfresh.
  unfold book_appointment, receptionist_dashboard, guard_json, guard_page.
  rewrite Hs. unfold upsert_patient, parse_date. txn_simpl.
  destruct (select_patient_by_mobile d (bk_mobile_number data)) eqn:Hsel; txn_simpl;
    [|rewrite insert_patient_fresh by done; txn_simpl];
    rewrite Hdate; txn_simpl; split; reflexivity.
Qed.

(** ** Witnesses *)

Lemma booking_same_day_direct_rejected_witness :
  run (book_appointment receptionist same_day_online) demo_env booked =
    (JsonMessage 400 "Same-day online bookings not allowed", booked, []) /\
  run (receptionist_dashboard receptionist (DashboardBooking same_day_online)) demo_env booked =
    (Page SameDayRejectedPage, booked, []).
Proof. apply booking_same_day_direct_rejected; vm_compute; reflexivity. Defined.

Lemma book_appointment_existing_patient_witness :
  let '(r, d', effs) := run (book_appointment receptionist rebook_asha) demo_env booked in
  r = JsonMessage 200 "Appointment booked" /\
  dom (patients d') = dom (patients booked) /\
  patients d' !! "P1" = Some (mk_patient (bk_name rebook_asha) (bk_mobile_number rebook_asha)
                                         (bk_age rebook_asha) (bk_address rebook_asha)) /\
  (forall q, q <> "P1" -> patients d' !! q = patients booked !! q) /\
  appointments d' = <[env_uuid demo_env 0 := new_appointment "P1" rebook_asha
                                               (strftime_ymd (dt_date (env_now demo_env)))]>
                      (appointments booked) /\
  is_Some (billing d' !! env_uuid demo_env 0) /\
  effs = booking_effects rebook_asha ["patients"; "appointments"; "billing"] d'.
Proof.
  apply (book_appointment_existing_patient receptionist demo_env booked rebook_asha "P1"
           (mk_date 2026 11 10)); vm_compute; reflexivity.
Defined.

Lemma book_appointment_new_patient_witness :
  let '(r, d', effs) := run (book_appointment receptionist new_walk_in) demo_env booked in
  r = JsonMessage 200 "Appointment booked" /\
  patients d' = <[env_uuid demo_env 0 := mk_patient (bk_name new_walk_in) (bk_mobile_number new_walk_in)
                                          (bk_age new_walk_in) (bk_address new_walk_in)]>
                  (patients booked) /\
  appointments d' = <[env_uuid demo_env 1 := new_appointment (env_uuid demo_env 0) new_walk_in
                                               (strftime_ymd (dt_date (env_now demo_env)))]>
                      (appointments booked) /\
  is_Some (billing d' !! env_uuid demo_env 1) /\
  effs = booking_effects new_walk_in ["patients"; "appointments"; "billing"] d'.
Proof.
  apply (book_appointment_new_patient receptionist demo_env booked new_walk_in
           (mk_date 2026 11 12)); vm_compute; reflexivity.
Defined.

Lemma booking_invalid_date_witness :
  run (book_appointment receptionist feb_30) demo_env booked =
    (ServerError (ValueError "day is out of range for month"), booked, []) /\
  run (receptionist_dashboard receptionist (DashboardBooking feb_30)) demo_env booked =
    (ServerError (ValueError "day is out of range for month"), booked, []).
Proof. apply (booking_invalid_date _ _ _ _ DayOutOfRange); vm_compute; reflexivity. Defined.

End Booking.
