(* ===== verification/Diagnosis.v ===== *)
(** * Diagnosis: [get_diagnosis] and [save_diagnosis]

    [save_diagnosis] (lines 810-831 of [src/app.py]) computes
    [medicines_prescribed] from [data['medicines'].strip()], replaces the
    whole diagnosis row ([INSERT OR REPLACE]), makes sure the placeholder
    billing row exists, commits, and only then, when medicines were
    prescribed, reads the patient's mobile number to notify: a failure of
    that read comes after the commit.  [get_diagnosis] (lines 788-808)
    returns the row, or empty strings and zero flags when there is none.
    The doctor's and the pharmacist's dashboards (lines 419-435 and
    596-613) list the joined rows, the pharmacist's only those whose
    diagnosis has [medicines_prescribed = 1].  The JSON body is taken to
    carry the eight keys as strings, as the page's [saveDiagnosis] sends
    them; a missing key or a non-string [medicines] would be an HTTP 500
    not modelled here. *)

From S2P Require Import Prelude PyStr Dates Schema Txn Auth Fixtures Booking.
Import PyStr Schema Txn Auth Fixtures Booking.
Local Open Scope clinic_scope.

Module Diagnosis.

(** The JSON body of [POST /save_diagnosis/<id>]. *)
Record diagnosis_data := mk_diagnosis_data {
  dd_chief_complaints : string;
  dd_symptoms : string;
  dd_mind : string;
  dd_psychology : string;
  dd_diagnosis : string;
  dd_medicines : string;
  dd_tests : string;
  dd_next_visit : string
}.

(** [medicines_prescribed = 1 if data['medicines'].strip() else 0] *)
Definition prescribed_of (medicines : string) : Z :=
  if str_truthy (strip medicines) then 1%Z else 0%Z.

(** The row of [INSERT OR REPLACE INTO diagnoses (...) VALUES (id, ...,
    1, medicines_prescribed)]. *)
Definition diagnosis_row_of (data : diagnosis_data) : diagnosis_row :=
  mk_diagnosis (dd_chief_complaints data) (dd_symptoms data) (dd_mind data)
               (dd_psychology data) (dd_diagnosis data) (dd_medicines data)
               (dd_tests data) (dd_next_visit data) 1 (prescribed_of (dd_medicines data)).

(** [POST /save_diagnosis/<id>] (doctor) *)
Definition save_diagnosis (s : session) (aid : string) (data : diagnosis_data) : txn response :=
  guard_json "doctor" s (
    exec (replace_diagnosis aid (diagnosis_row_of data)) ;;
    exec (ensure_billing aid) ;;
    commit ;;
    (if Z.eqb (prescribed_of (dd_medicines data)) 0 then tret tt
     else mobile <- fetch_mobile aid ;; notify mobile "Medicines prescribed") ;;
    close ;;
    mirror "diagnoses" ;;
    mirror "billing" ;;
    tret (JsonMessage 200 "Diagnosis and prescription saved")).

(** What [get_diagnosis] answers when the appointment has no row. *)
Definition empty_diagnosis : diagnosis_row :=
  mk_diagnosis EmptyString EmptyString EmptyString EmptyString EmptyString EmptyString
               EmptyString EmptyString 0 0.

(** [GET /diagnosis/<id>] (doctor) *)
Definition get_diagnosis (s : session) (aid : string) : txn response :=
  guard_json "doctor" s (
    row <- query (fun d => diagnoses d !! aid) ;;
    close ;;
    tret (JsonDiagnosis (default empty_diagnosis row))).

(** [GET /doctor_dashboard] (doctor): every joined row. *)
Definition doctor_dashboard (s : session) : txn response :=
  guard_page "doctor" s (list_dashboard "doctor").

(** [WHERE d.medicines_prescribed = 1]: a NULL from the LEFT JOIN is not
    equal to 1. *)
Definition prescribed_row (r : joined_row) : bool :=
  match j_diagnosis r with
  | Some dg => Z.eqb (d_medicines_prescribed dg) 1
  | None => false
  end.

(** [GET /pharmacist_dashboard] (pharmacist) *)
Definition pharmacist_dashboard (s : session) : txn response :=
  guard_page "pharmacist" s (
    rows <- query (fun d => filter (fun r => prescribed_row r = true) (dashboard_rows d)) ;;
    close ;;
    tret (Page (DashboardPage "pharmacist" rows))).

(** A prescription for the witnesses. *)
Definition amoxicillin : diagnosis_data :=
  mk_diagnosis_data "fever" "cough" "calm" "stable" "bronchitis" "Amoxicillin" "CBC"
                    "2026-11-20".

(** ** Lemmas *)

Lemma get_diagnosis_run s E d aid :
  run (get_diagnosis s aid) E d =
  if forbidden s "doctor" then (JsonMessage 403 "Unauthorized", d, [])
  else (JsonDiagnosis (default empty_diagnosis (diagnoses d !! aid)), d, []).
Proof. unfold get_diagnosis, guard_json. destruct (forbidden s _); reflexivity. Qed.

Lemma forallb_spaces_Forall (l : list ascii) :
  forallb is_py_space l = true <-> Forall (fun c => is_py_space c = true) l.
Proof. rewrite forallb_forall, List.Forall_forall. reflexivity. Qed.

(** The flag is 1 exactly when some character is not whitespace. *)
Lemma prescribed_of_one_iff (medicines : string) :
  prescribed_of medicines = 1%Z <-> forallb is_py_space (list_ascii_of_string medicines) = false.
Proof.
  unfold prescribed_of, str_truthy. rewrite <- not_true_iff_false, forallb_spaces_Forall,
    <- strip_empty_iff.
  destruct (String.eqb_spec (strip medicines) EmptyString); cbn; split; congruence.
Qed.

Lemma save_diagnosis_eq s E d aid data :
  run (save_diagnosis s aid data) E d =
  if forbidden s "doctor" then (JsonMessage 403 "Unauthorized", d, [])
  else let d1 := ensure_billing aid (replace_diagnosis aid (diagnosis_row_of data) d) in
       if Z.eqb (prescribed_of (dd_medicines data)) 0 then
         (JsonMessage 200 "Diagnosis and prescription saved", d1,
          [CsvMirror "diagnoses" d1; CsvMirror "billing" d1])
       else match select_mobile d aid with
            | None => (ServerError (TypeError "'NoneType' object is not subscriptable"), d1, [])
            | Some m => (JsonMessage 200 "Diagnosis and prescription saved", d1,
                         [WhatsApp m "Medicines prescribed"; CsvMirror "diagnoses" d1;
                          CsvMirror "billing" d1])
            end.
Proof.
  unfold save_diagnosis, guard_json. destruct (forbidden s _); [reflexivity|].
  txn_simpl. destruct (Z.eqb _ 0); txn_simpl; [reflexivity|].
  rewrite select_mobile_ensure_billing, select_mobile_replace_diagnosis.
  destruct (select_mobile d aid); reflexivity.
Qed.

(** ** Theorems *)

(** C15: [save_diagnosis] answers 403 to a non-doctor; otherwise it
    replaces the diagnosis row as a whole, creates the placeholder billing
    row if needed and commits.  Without prescribed medicines it answers
    200 and mirrors both tables.  With prescribed medicines it reads the
    patient's mobile number after the commit: if that read finds nothing
    (no such appointment, or no patient), the request fails with a server
    error although the rows are already stored. *)
Theorem save_diagnosis_run s E d aid data :
  run (save_diagnosis s aid data) E d =
  if forbidden s "doctor" then (JsonMessage 403 "Unauthorized", d, [])
  else let d1 := ensure_billing aid (replace_diagnosis aid (diagnosis_row_of data) d) in
       if Z.eqb (prescribed_of (dd_medicines data)) 0 then
         (JsonMessage 200 "Diagnosis and prescription saved", d1,
          [CsvMirror "diagnoses" d1; CsvMirror "billing" d1])
       else match select_mobile d aid with
            | None => (ServerError (TypeError "'NoneType' object is not subscriptable"), d1, [])
            | Some m => (JsonMessage 200 "Diagnosis and prescription saved", d1,
                         [WhatsApp m "Medicines prescribed"; CsvMirror "diagnoses" d1;
                          CsvMirror "billing" d1])
            end.
Proof. exact (save_diagnosis_eq s E d aid data). Qed.

(** C16: the stored [medicines_prescribed] flag, computed through
    [str.strip], is 0 exactly when every character of the medicines text
    is Python whitespace (so ["  "] gives 0) and 1 otherwise. *)
Theorem prescribed_of_spec (medicines : string) :
  prescribed_of medicines =
  if forallb is_py_space (list_ascii_of_string medicines) then 0%Z else 1%Z.
Proof.
  unfold prescribed_of, str_truthy.
  destruct (forallb is_py_space _) eqn:E.
  - apply forallb_spaces_Forall, strip_empty_iff in E. by rewrite E.
  - destruct (String.eqb_spec (strip medicines) EmptyString) as [H|H]; [|reflexivity].
    apply strip_empty_iff, forallb_spaces_Forall in H. congruence.
Qed.

(** C17: whatever the outcome of a doctor's [save_diagnosis] (also when
    the notification step fails after the commit), a doctor's
    [get_diagnosis] afterwards returns exactly the saved text with
    [diagnosis_saved = 1] and the derived [medicines_prescribed]: the
    row was replaced, not merged with an earlier one. *)
Theorem save_then_get_diagnosis s s' E E' d aid data :
  forbidden s "doctor" = false -> forbidden s' "doctor" = false ->
  let d' := db_of (save_diagnosis s aid data) E d in
  run (get_diagnosis s' aid) E' d' = (JsonDiagnosis (diagnosis_row_of data), d', []).
Proof.
  intros Hs Hs'. cbv zeta. rewrite get_diagnosis_run, Hs'.
  unfold db_of. rewrite save_diagnosis_eq, Hs.
  destruct (Z.eqb _ 0); [|destruct (select_mobile d aid)]; cbn -[ensure_billing];
    rewrite diagnoses_ensure_billing; cbn; by rewrite lookup_insert_eq.
Qed.

(** ** Witnesses *)

Lemma save_then_get_diagnosis_witness :
  let d' := db_of (save_diagnosis doctor "A1" amoxicillin) demo_env booked in
  run (get_diagnosis doctor "A1") demo_env d' = (JsonDiagnosis (diagnosis_row_of amoxicillin), d', []).
Proof. apply save_then_get_diagnosis; reflexivity. Defined.

End Diagnosis.
