(* ===== verification/Billing.v ===== *)
(** * Billing: [get_billing] and [billing_prepare]

    [get_billing] (lines 850-875 of [src/app.py]) answers the billing
    row's columns, each NULL column (and every column of a missing row)
    replaced by its default: 0.0 for charges and payments, ['In-Person']
    for the delivery type, [''] for the other strings, 0 for the flags.
    [billing_prepare] (lines 877-906) makes sure the placeholder row
    exists and overwrites the eleven non-flag columns from the JSON body,
    each falsy value ([null], [0], [''] ) replaced by [0.0], ['In-Person']
    or [''].  The four progress flags are never written here.  The body is
    taken to carry every key, numbers as JSON numbers, as the page's
    [saveBilling] sends it; a missing key ([KeyError]) or a non-numeric
    string ([ValueError] of [float]) would be an HTTP 500 not modelled
    here. *)

From S2P Require Import Prelude Dates Schema Txn Auth Fixtures Lifecycle.
Import Schema Txn Auth Fixtures Lifecycle.
Local Open Scope clinic_scope.

Module Billing.

(** The JSON body of [POST /billing_prepare/<id>]: JSON numbers as
    rationals, [null] as [None]. *)
Record billing_payload := mk_billing_payload {
  bp_consultation_charge : option Q;
  bp_medicine_charge : option Q;
  bp_courier_charge : option Q;
  bp_delivery_type : option string;
  bp_delivered_to : option string;
  bp_courier_channel : option string;
  bp_courier_tracking : option string;
  bp_amount_paid : option Q;
  bp_payment_date : option string;
  bp_payment_id : option string;
  bp_discount : option Q
}.

(** [UPDATE billing SET consultation_charge = ?, ..., discount = ?]:
    [float(x) if x else 0.0] for numbers, [x or 'In-Person'] for the
    delivery type, [x or ''] for the other strings; flags untouched. *)
Definition apply_payload (p : billing_payload) (b : billing_row) : billing_row :=
  mk_billing (Some (or_zero (bp_consultation_charge p))) (Some (or_zero (bp_medicine_charge p)))
             (Some (or_zero (bp_courier_charge p)))
             (Some (or_str (bp_delivery_type p) "In-Person"))
             (Some (or_str (bp_delivered_to p) EmptyString))
             (Some (or_str (bp_courier_channel p) EmptyString))
             (Some (or_str (bp_courier_tracking p) EmptyString))
             (Some (or_zero (bp_amount_paid p)))
             (Some (or_str (bp_payment_date p) EmptyString))
             (Some (or_str (bp_payment_id p) EmptyString))
             (Some (or_zero (bp_discount p)))
             (b_medicines_prepared b) (b_medicines_handed_over b) (b_couriered b)
             (b_checkout_done b).

(** [POST /billing_prepare/<id>] (receptionist) *)
Definition billing_prepare (s : session) (aid : string) (p : billing_payload) : txn response :=
  guard_json "receptionist" s (
    exec (ensure_billing aid) ;;
    exec (update_billing aid (apply_payload p)) ;;
    commit ;;
    close ;;
    mirror "billing" ;;
    tret (JsonMessage 200 "Billing saved")).

(** The dictionary [get_billing] returns for a row, or for no row. *)
Definition billing_json_of (row : option billing_row) : billing_json :=
  match row with
  | Some b =>
      mk_billing_json (default 0 (b_consultation_charge b)) (default 0 (b_medicine_charge b))
        (default 0 (b_courier_charge b)) (default "In-Person" (b_delivery_type b))
        (default EmptyString (b_delivered_to b)) (default EmptyString (b_courier_channel b))
        (default EmptyString (b_courier_tracking b)) (default 0 (b_amount_paid b))
        (default EmptyString (b_payment_date b)) (default EmptyString (b_payment_id b))
        (default 0 (b_discount b)) (default 0%Z (b_medicines_prepared b))
        (default 0%Z (b_medicines_handed_over b)) (default 0%Z (b_couriered b))
        (default 0%Z (b_checkout_done b))
  | None =>
      mk_billing_json 0 0 0 "In-Person" EmptyString EmptyString EmptyString 0
        EmptyString EmptyString 0 0%Z 0%Z 0%Z 0%Z
  end.

(** [GET /billing/<id>] (receptionist) *)
Definition get_billing (s : session) (aid : string) : txn response :=
  guard_json "receptionist" s (
    row <- query (fun d => billing d !! aid) ;;
    close ;;
    tret (JsonBilling (billing_json_of row))).

(** A payment for the witnesses: 300 + 120 + no courier - 20 discount,
    400 paid. *)
Definition cash_payment : billing_payload :=
  mk_billing_payload (Some 300) (Some 120) None (Some "In-Person") (Some "Asha") None None
                     (Some 400) (Some "2026-11-10") (Some "TXN1") (Some 20).

(** ** Lemmas *)

Lemma billing_prepare_run_db s E d aid p :
  forbidden s "receptionist" = false ->
  run (billing_prepare s aid p) E d =
  (JsonMessage 200 "Billing saved", update_billing aid (apply_payload p) (ensure_billing aid d),
   [CsvMirror "billing" (update_billing aid (apply_payload p) (ensure_billing aid d))]).
Proof. intros Hs. unfold billing_prepare, guard_json. rewrite Hs. reflexivity. Qed.

Lemma apply_payload_idem (p : billing_payload) (b : billing_row) :
  apply_payload p (apply_payload p b) = apply_payload p b.
Proof. reflexivity. Qed.

Lemma billing_after_prepare (aid : string) (p : billing_payload) (d : db) :
  billing (update_billing aid (apply_payload p) (ensure_billing aid d)) !! aid =
  Some (apply_payload p (default placeholder_billing (billing d !! aid))).
Proof. by autorewrite with clinic_rw. Qed.

Lemma get_billing_eq s E d aid :
  run (get_billing s aid) E d =
  if forbidden s "receptionist" then (JsonMessage 403 "Unauthorized", d, [])
  else match billing d !! aid with
       | Some b => (JsonBilling (billing_json_of (Some b)), d, [])
       | None => (JsonBilling (mk_billing_json 0 0 0 "In-Person" EmptyString EmptyString
                                EmptyString 0 EmptyString EmptyString 0 0%Z 0%Z 0%Z 0%Z), d, [])
       end.
Proof.
  unfold get_billing, guard_json. destruct (forbidden s _); [reflexivity|].
  txn_simpl. by destruct (billing d !! aid).
Qed.

(** ** Theorems *)

(** C19: after a receptionist's [billing_prepare], [get_billing] reads
    back every field of the payload with its default applied ([0.0] for
    a falsy number, ['In-Person'] for a falsy delivery type, [''] for
    the other falsy strings), and the four progress flags the row had
    before the call ([0] for NULL, and [0] for every flag when there was
    no row: the placeholder's). *)
Theorem billing_prepare_then_get s s' E E' d aid p :
  forbidden s "receptionist" = false -> forbidden s' "receptionist" = false ->
  let d' := db_of (billing_prepare s aid p) E d in
  let flag (f : billing_row -> option Z) := match billing d !! aid with
                                             | Some b => default 0%Z (f b)
                                             | None => 0%Z
                                             end in
  run (get_billing s' aid) E' d' =
  (JsonBilling (mk_billing_json
     (or_zero (bp_consultation_charge p)) (or_zero (bp_medicine_charge p))
     (or_zero (bp_courier_charge p)) (or_str (bp_delivery_type p) "In-Person")
     (or_str (bp_delivered_to p) EmptyString) (or_str (bp_courier_channel p) EmptyString)
     (or_str (bp_courier_tracking p) EmptyString) (or_zero (bp_amount_paid p))
     (or_str (bp_payment_date p) EmptyString) (or_str (bp_payment_id p) EmptyString)
     (or_zero (bp_discount p))
     (flag b_medicines_prepared) (flag b_medicines_handed_over) (flag b_couriered)
     (flag b_checkout_done)), d', []).
Proof.
  intros Hs Hs'. cbv zeta. unfold db_of. rewrite billing_prepare_run_db by done. cbn -[update_billing ensure_billing].
  rewrite get_billing_eq, Hs', billing_after_prepare.
  by destruct (billing d !! aid).
Qed.

(** C7: [billing_prepare] is idempotent: a second identical call leaves
    the database exactly as the first one left it (the placeholder row
    is not created twice, and the UPDATE writes the same values). *)
Theorem billing_prepare_idempotent s E E' d aid p :
  db_of (billing_prepare s aid p) E' (db_of (billing_prepare s aid p) E d) =
  db_of (billing_prepare s aid p) E d.
Proof.
  unfold db_of. destruct (forbidden s "receptionist") eqn:Hs.
  - unfold billing_prepare, guard_json. rewrite Hs. reflexivity.
  - rewrite !billing_prepare_run_db by done. cbn -[update_billing ensure_billing].
    rewrite ensure_billing_present by (rewrite billing_after_prepare; by eexists).
    apply update_billing_idem, apply_payload_idem.
Qed.

(** C21: once a receptionist has saved the billing form, checkout of a
    handed-over (or couriered) appointment whose patient is known
    succeeds: [billing_prepare] always writes [amount_paid], which the
    placeholder row leaves NULL (compare C3). *)
Theorem checkout_after_billing_prepare s E E' d aid p b m :
  forbidden s "receptionist" = false ->
  billing d !! aid = Some b ->
  int_truthy (b_medicines_handed_over b) || int_truthy (b_couriered b) = true ->
  select_mobile d aid = Some m ->
  is_success (response_of (complete_checkout s aid) E' (db_of (billing_prepare s aid p) E d)) = true.
Proof.
  intros Hs Hb Hflag Hm. unfold response_of, db_of.
  rewrite billing_prepare_run_db by done. cbn -[update_billing ensure_billing].
  rewrite complete_checkout_eq, Hs, billing_after_prepare, Hb.
  rewrite select_mobile_update_billing, select_mobile_ensure_billing, Hm. cbn.
  destruct (int_truthy (b_medicines_handed_over b)), (int_truthy (b_couriered b));
    cbn in *; try discriminate; reflexivity.
Qed.

(** C27: [billing_prepare] never checks that the appointment exists:
    for an id that no appointment has, a receptionist's call answers 200
    "Billing saved" and stores a billing row for it (the placeholder
    overwritten with the payload), where check-in answers 404. *)
Theorem billing_prepare_unknown_appointment s E d aid p :
  forbidden s "receptionist" = false -> appointments d !! aid = None ->
  let '(r, d', effs) := run (billing_prepare s aid p) E d in
  r = JsonMessage 200 "Billing saved" /\ appointments d' !! aid = None /\
  billing d' !! aid = Some (apply_payload p (default placeholder_billing (billing d !! aid))).
Proof.
  intros Hs Ha. rewrite billing_prepare_run_db by done.
  split_and!; [done| |apply billing_after_prepare].
  unfold update_billing, ensure_billing. by destruct (billing d !! aid).
Qed.

(** ** Witnesses *)

Lemma billing_prepare_unknown_appointment_witness :
  let '(r, d', effs) := run (billing_prepare receptionist "A9" cash_payment) demo_env booked in
  r = JsonMessage 200 "Billing saved" /\ appointments d' !! "A9" = None /\
  billing d' !! "A9" = Some (apply_payload cash_payment (default placeholder_billing (billing booked !! "A9"))).
Proof. apply billing_prepare_unknown_appointment; reflexivity. Defined.

Lemma billing_prepare_then_get_witness :
  let d' := db_of (billing_prepare receptionist "A1" cash_payment) demo_env booked in
  run (get_billing receptionist "A1") demo_env d' =
  (JsonBilling (mk_billing_json
     (or_zero (bp_consultation_charge cash_payment)) (or_zero (bp_medicine_charge cash_payment))
     (or_zero (bp_courier_charge cash_payment)) (or_str (bp_delivery_type cash_payment) "In-Person")
     (or_str (bp_delivered_to cash_payment) EmptyString)
     (or_str (bp_courier_channel cash_payment) EmptyString)
     (or_str (bp_courier_tracking cash_payment) EmptyString) (or_zero (bp_amount_paid cash_payment))
     (or_str (bp_payment_date cash_payment) EmptyString)
     (or_str (bp_payment_id cash_payment) EmptyString) (or_zero (bp_discount cash_payment))
     0%Z 0%Z 0%Z 0%Z), d', []).
Proof. apply (billing_prepare_then_get receptionist receptionist demo_env demo_env booked "A1" cash_payment); reflexivity. Defined.

Lemma checkout_after_billing_prepare_witness :
  is_success (response_of (complete_checkout receptionist "A1") demo_env
                (db_of (billing_prepare receptionist "A1" cash_payment) demo_env
                   (db_of (hand_over_medicine receptionist "A1") demo_env
                      (db_of (prepare_medicine pharmacist "A1") demo_env booked)))) = true.
Proof.
  apply (checkout_after_billing_prepare _ _ _ _ _ _ (set_handed_over (set_prepared placeholder_billing))
           "9990001111"); vm_compute; reflexivity.
Defined.

End Billing.
