(* ===== verification/Pages.v ===== *)
(** * The dashboards' templates: rows as positional tuples

    The three dashboards pass [c.fetchall()] of one 38-column query
    ([SELECT a.*, p.name, p.mobile_number, p.age, p.address,
    d.chief_complaints, ..., b.checkout_done], lines 172-180, 425-433
    and 602-611 of [src/app.py]) to Jinja templates that read each row
    [appt] by position.  [columns] lays out a [joined_row] in the order of
    that SELECT list; [appt r i] is [appt[i]].  The receptionist's and the
    doctor's templates show status badges (lines 283-289 and 511-517),
    the diagnosis, medicines and billing cells (lines 253-280 and
    481-508), and the receptionist's and the pharmacist's templates show
    the action buttons of a row (lines 291-305 and 695-699).  Each
    template's [<tr>] is the list of its cells in order
    ([receptionist_row], [doctor_row], [pharmacist_row]).

    The theorems state, by column name, what each badge and button
    tests: the templates read the lifecycle flags two positions too
    early (position 32 is [payment_id], [medicines_prepared] is 34), the
    diagnosis fields one position too late. *)

From S2P Require Import Prelude Dates Schema Txn Auth Fixtures Lifecycle Booking Billing.
Import Schema Txn Auth Fixtures Lifecycle Booking Billing.
Local Open Scope clinic_scope.

Module Pages.

(** A value of a fetched row: [None], [int], [float] or [str]. *)
Inductive sql_value :=
| VNull
| VInt (z : Z)
| VReal (q : Q)
| VText (s : string).

Definition of_int (o : option Z) : sql_value :=
  match o with Some z => VInt z | None => VNull end.

Definition of_real (o : option Q) : sql_value :=
  match o with Some q => VReal q | None => VNull end.

Definition of_text (o : option string) : sql_value :=
  match o with Some s => VText s | None => VNull end.

(** The row tuple in the order of the SELECT list: the nine columns of
    [a.*], four of [p], ten of [d] and fifteen of [b]; the LEFT JOINs
    give NULL when there is no diagnosis or billing row. *)
Definition columns (r : joined_row) : list sql_value :=
  let a := j_appointment r in
  let p := j_patient r in
  let dg := j_diagnosis r in
  let b := j_billing r in
  [VText (j_id r); VText (a_patient_id a); VText (a_reason a); VText (a_booking_date a);
   VText (a_appointment_date a); VText (a_booking_type a); VInt (a_confirmed a);
   VText (a_checkin_status a); VText (a_checkin_time a);
   VText (p_name p); VText (p_mobile_number p); VText (p_age p); VText (p_address p);
   of_text (d_chief_complaints <$> dg); of_text (d_symptoms <$> dg); of_text (d_mind <$> dg);
   of_text (d_psychology <$> dg); of_text (d_diagnosis <$> dg); of_text (d_medicines <$> dg);
   of_text (d_tests <$> dg); of_text (d_next_visit <$> dg);
   of_int (d_diagnosis_saved <$> dg); of_int (d_medicines_prescribed <$> dg);
   of_real (b ≫= b_consultation_charge); of_real (b ≫= b_medicine_charge);
   of_real (b ≫= b_courier_charge); of_text (b ≫= b_delivery_type);
   of_text (b ≫= b_delivered_to); of_text (b ≫= b_courier_channel);
   of_text (b ≫= b_courier_tracking); of_real (b ≫= b_amount_paid);
   of_text (b ≫= b_payment_date); of_text (b ≫= b_payment_id); of_real (b ≫= b_discount);
   of_int (b ≫= b_medicines_prepared); of_int (b ≫= b_medicines_handed_over);
   of_int (b ≫= b_couriered); of_int (b ≫= b_checkout_done)].

(** [appt[i]]; every index the templates use is below 38. *)
Definition appt (r : joined_row) (i : nat) : sql_value := nth i (columns r) VNull.

(** Jinja's [{% if v %}]: [None], [0], [0.0] and [''] are false. *)
Definition truthy (v : sql_value) : bool :=
  match v with
  | VNull => false
  | VInt z => negb (Z.eqb z 0)
  | VReal q => q_truthy q
  | VText s => negb (String.eqb s EmptyString)
  end.

(** Jinja's [v == 'text']: false for [None] and numbers. *)
Definition text_eq (v : sql_value) (s : string) : bool :=
  match v with VText t => String.eqb t s | _ => false end.

(** [v|default(d, true)]: the default replaces every falsy value. *)
Definition default_true (v d : sql_value) : sql_value := if truthy v then v else d.

(** ** Status badges (lines 283-289, 511-517 and 687-693) *)

Inductive badge :=
| CheckedInBadge (status time : sql_value)
| DiagnosisSavedBadge
| MedicinesPrescribedBadge
| MedicinesPreparedBadge
| HandedOverBadge
| CourieredBadge
| CheckedOutBadge.

Definition when {A} (b : bool) (x : A) : list A := if b then [x] else [].

Definition status_badges (r : joined_row) : list badge :=
  when (truthy (appt r 7)) (CheckedInBadge (appt r 7) (appt r 8)) ++
  when (truthy (appt r 22)) DiagnosisSavedBadge ++
  when (truthy (appt r 23)) MedicinesPrescribedBadge ++
  when (truthy (appt r 32)) MedicinesPreparedBadge ++
  when (truthy (appt r 33)) HandedOverBadge ++
  when (truthy (appt r 34)) CourieredBadge ++
  when (truthy (appt r 35)) CheckedOutBadge.

(** ** Cells (lines 253-280 and 481-508) *)

(** The Diagnosis cell: the labelled values, or "Not Diagnosed". *)
Definition diagnosis_cell (r : joined_row) : option (list (string * sql_value)) :=
  if truthy (appt r 14) then
    Some [("Complaints", appt r 14); ("Symptoms", appt r 15); ("Mind", appt r 16);
          ("Psychology", appt r 17); ("Diagnosis", appt r 18); ("Tests", appt r 20);
          ("Next Visit", appt r 21)]
  else None.

(** The Medicines cell: [appt[19] if appt[19] else 'None']. *)
Definition medicines_cell (r : joined_row) : sql_value :=
  if truthy (appt r 19) then appt r 19 else VText "None".

(** The Billing cell: the labelled values with their defaults, or "Not
    Billed" when [appt[23] is none]. *)
Definition billing_cell (r : joined_row) : option (list (string * sql_value)) :=
  match appt r 23 with
  | VNull => None
  | _ =>
      Some [("Consultation", default_true (appt r 23) (VInt 0));
            ("Medicine", default_true (appt r 24) (VInt 0));
            ("Courier", default_true (appt r 25) (VInt 0));
            ("Delivery", default_true (appt r 26) (VText "In-Person"));
            ("Delivered To", default_true (appt r 27) (VText "N/A"));
            ("Courier Channel", default_true (appt r 28) (VText "N/A"));
            ("Tracking", default_true (appt r 29) (VText "N/A"));
            ("Paid", default_true (appt r 30) (VInt 0));
            ("Discount", default_true (appt r 31) (VInt 0))]
  end.

(** ** Action buttons *)

Inductive action :=
| CheckInButton
| BillingButton
| HandOverButton
| CourierDoneButton
| CompleteCheckoutButton
| PrepareMedicineButton.

(** Lines 291-305 of the receptionist's template. *)
Definition receptionist_actions (r : joined_row) : list action :=
  when (negb (truthy (appt r 7))) CheckInButton ++
  [BillingButton] ++
  when (truthy (appt r 32) && negb (truthy (appt r 33))) HandOverButton ++
  when (truthy (appt r 32) && negb (truthy (appt r 34)) && text_eq (appt r 26) "Courier")
       CourierDoneButton ++
  when (truthy (appt r 33) || truthy (appt r 34)) CompleteCheckoutButton.

(** Lines 695-699 of the pharmacist's template. *)
Definition pharmacist_actions (r : joined_row) : list action :=
  when (negb (truthy (appt r 32))) PrepareMedicineButton.

(** ** Rows *)

(** A cell of a rendered row. *)
Inductive cell :=
| CValue (v : sql_value)                                (** [{{ v }}] *)
| CDiagnosis (c : option (list (string * sql_value)))   (** the Diagnosis cell *)
| CBilling (c : option (list (string * sql_value)))     (** the Billing cell *)
| CBadges (bs : list badge)                             (** the Status cell *)
| CActions (acts : list action)                         (** the Actions cell *)
| CViewDiagnosis.                                       (** the doctor's View/Edit Diagnosis button *)

(** The receptionist's [<tr>] (lines 247-306): Patient, Mobile, Date,
    Reason, Diagnosis, Medicines, Billing, Status, Actions. *)
Definition receptionist_row (r : joined_row) : list cell :=
  [CValue (appt r 9); CValue (appt r 10); CValue (appt r 4); CValue (appt r 2);
   CDiagnosis (diagnosis_cell r); CValue (medicines_cell r); CBilling (billing_cell r);
   CBadges (status_badges r); CActions (receptionist_actions r)].

(** The doctor's [<tr>] (lines 476-521): the same columns, with the one
    button [showDoctorForm]. *)
Definition doctor_row (r : joined_row) : list cell :=
  [CValue (appt r 9); CValue (appt r 10); CValue (appt r 4); CValue (appt r 2);
   CDiagnosis (diagnosis_cell r); CValue (medicines_cell r); CBilling (billing_cell r);
   CBadges (status_badges r); CViewDiagnosis].

(** The pharmacist's [<tr>] (lines 653-700): Patient, Mobile, Date,
    Medicines, Diagnosis, Billing, Status, Action. *)
Definition pharmacist_row (r : joined_row) : list cell :=
  [CValue (appt r 9); CValue (appt r 10); CValue (appt r 4); CValue (medicines_cell r);
   CDiagnosis (diagnosis_cell r); CBilling (billing_cell r); CBadges (status_badges r);
   CActions (pharmacist_actions r)].

(** [cell.textContent] of a cell holding one value: Jinja's [str()] of a
    string is the string ([None] is written "None"); the text of the
    other cells is not modelled. *)
Definition cell_text (c : cell) : option string :=
  match c with
  | CValue (VText s) => Some s
  | CValue VNull => Some "None"
  | _ => None
  end.

(** ** Columns by name *)

(** The text of a nullable column, as the templates test it. *)
Definition text_truthy (o : option string) : bool := truthy (of_text o).
Definition real_truthy (o : option Q) : bool := truthy (of_real o).

(** ** Lemmas *)

Lemma truthy_of_int (o : option Z) : truthy (of_int o) = int_truthy o.
Proof. by destruct o. Qed.

Lemma text_eq_of_text (o : option string) : text_eq (of_text o) "Courier" = is_courier o.
Proof. by destruct o. Qed.

Lemma truthy_text (s : string) : truthy (VText s) = negb (String.eqb s EmptyString).
Proof. reflexivity. Qed.

#[export] Hint Rewrite truthy_of_int text_eq_of_text : clinic_rw.

(** ** Theorems *)

(** C28: by column name, the receptionist's buttons are: Check-In while
    [checkin_status] is empty; Billing always; Hand Over when
    [payment_id] is non-empty and [discount] is falsy; Courier Done when
    [payment_id] is non-empty, [medicines_prepared] is falsy and the
    delivery type is ['Courier']; Complete Checkout when [discount] or
    [medicines_prepared] is truthy.  The pharmacist's Prepare Medicine
    button shows exactly while [payment_id] is empty.  None of the
    lifecycle buttons tests the flag its handler checks. *)
Theorem actions_by_column (r : joined_row) :
  let b := j_billing r in
  receptionist_actions r = (
    when (String.eqb (a_checkin_status (j_appointment r)) EmptyString) CheckInButton ++
    [BillingButton] ++
    when (text_truthy (b ≫= b_payment_id) && negb (real_truthy (b ≫= b_discount))) HandOverButton ++
    when (text_truthy (b ≫= b_payment_id) && negb (int_truthy (b ≫= b_medicines_prepared))
          && is_courier (b ≫= b_delivery_type)) CourierDoneButton ++
    when (real_truthy (b ≫= b_discount) || int_truthy (b ≫= b_medicines_prepared))
         CompleteCheckoutButton)%list /\
  pharmacist_actions r = when (negb (text_truthy (b ≫= b_payment_id))) PrepareMedicineButton.
Proof.
  cbv zeta. unfold receptionist_actions, pharmacist_actions, appt. cbn [columns nth].
  rewrite truthy_text, negb_involutive, truthy_of_int, text_eq_of_text. by split.
Qed.

(** C29: by column name, the status badges read: Checked-In from
    [checkin_status] (with [checkin_time]); "Diagnosis Saved" from
    [medicines_prescribed]; "Medicines Prescribed" from
    [consultation_charge]; "Medicines Prepared" from [payment_id];
    "Handed Over" from [discount]; "Couriered" from
    [medicines_prepared]; "Checked Out" from [medicines_handed_over].
    [diagnosis_saved], [couriered] and [checkout_done] are never shown. *)
Theorem badges_by_column (r : joined_row) :
  let a := j_appointment r in
  let dg := j_diagnosis r in
  let b := j_billing r in
  status_badges r = (
    when (negb (String.eqb (a_checkin_status a) EmptyString))
         (CheckedInBadge (VText (a_checkin_status a)) (VText (a_checkin_time a))) ++
    when (int_truthy (d_medicines_prescribed <$> dg)) DiagnosisSavedBadge ++
    when (real_truthy (b ≫= b_consultation_charge)) MedicinesPrescribedBadge ++
    when (text_truthy (b ≫= b_payment_id)) MedicinesPreparedBadge ++
    when (real_truthy (b ≫= b_discount)) HandedOverBadge ++
    when (int_truthy (b ≫= b_medicines_prepared)) CourieredBadge ++
    when (int_truthy (b ≫= b_medicines_handed_over)) CheckedOutBadge)%list.
Proof.
  cbv zeta. unfold status_badges, appt. cbn [columns nth].
  by rewrite truthy_text, !truthy_of_int.
Qed.

(** C30: by column name, the cells show: the Diagnosis cell, present
    when [symptoms] is non-empty, labels [symptoms] "Complaints",
    [mind] "Symptoms", [psychology] "Mind", [diagnosis] "Psychology",
    [medicines] "Diagnosis", [next_visit] "Tests" and [diagnosis_saved]
    "Next Visit"; the Medicines cell shows [tests]; the Billing cell's
    "Discount" shows [payment_date]. *)
Theorem cells_by_column (r : joined_row) :
  let dg := j_diagnosis r in
  let b := j_billing r in
  diagnosis_cell r =
    (if text_truthy (d_symptoms <$> dg) then
       Some [("Complaints", of_text (d_symptoms <$> dg)); ("Symptoms", of_text (d_mind <$> dg));
             ("Mind", of_text (d_psychology <$> dg)); ("Psychology", of_text (d_diagnosis <$> dg));
             ("Diagnosis", of_text (d_medicines <$> dg)); ("Tests", of_text (d_next_visit <$> dg));
             ("Next Visit", of_int (d_diagnosis_saved <$> dg))]
     else None) /\
  medicines_cell r = (if text_truthy (d_tests <$> dg) then of_text (d_tests <$> dg) else VText "None") /\
  (forall cell, billing_cell r = Some cell ->
   last cell = Some ("Discount", default_true (of_text (b ≫= b_payment_date)) (VInt 0))).
Proof.
  cbv zeta. unfold diagnosis_cell, medicines_cell, billing_cell, appt. cbn [columns nth].
  split_and!; [done|done|]. intros cell. case_match; intros [= <-]; reflexivity.
Qed.

End Pages.
