(* ===== verification/App.v ===== *)
(** * The application: every route, the database as a transition system

    [handle] dispatches a request to the handler of its route, as Flask's
    [@app.route] table does, and returns the response, the session, the
    committed database and the effects.  The database is shared by every
    client, each with a session of its own, so [db_step] lets any request
    with any session and any environment move the database; [reachable]
    databases are those obtained from the empty schema of [init_db].

    The theorems: every reachable database keeps the schema invariants
    the handlers rely on (one patient per mobile number, every appointment
    has its patient, the progress flags of every billing row are
    consistent, every diagnosis row carries [diagnosis_saved = 1] and the
    [medicines_prescribed] flag derived from its text); no request clears
    a progress flag; a request whose session lacks the route's role
    changes nothing; and the end-to-end visit of spec section 8 as the
    code runs it, with what the dashboards show along the way.  The
    invariants are proved once for all handlers in Section
    [Preservation], for any property each SQL statement keeps under the
    guards its handler has checked.  Further: a well-formed session stays
    well formed and every answer is well typed; every progress flag of a
    reachable database is NULL, 0 or 1; and from every reachable
    database each appointment can still be taken to checkout. *)

From S2P Require Import Prelude PyStr Dates Schema Txn Auth Fixtures Lifecycle Booking Diagnosis Billing Pages.
Import PyStr Dates Schema Txn Auth Fixtures Lifecycle Booking Diagnosis Billing Pages.
Local Open Scope clinic_scope.

Module App.

(** One request per route of [src/app.py]. *)
Inductive request :=
| RLogin (form : option (string * string))       (** GET/POST / *)
| RLogout                                         (** GET /logout *)
| RReceptionistDashboard (q : dashboard_request)  (** GET/POST /receptionist_dashboard *)
| RDoctorDashboard                                (** GET /doctor_dashboard *)
| RPharmacistDashboard                            (** GET /pharmacist_dashboard *)
| RBookAppointment (data : booking_data)          (** POST /book_appointment *)
| RCheckIn (aid status : string)                  (** POST /check_in/<id>/<status> *)
| RGetDiagnosis (aid : string)                    (** GET /diagnosis/<id> *)
| RSaveDiagnosis (aid : string) (data : diagnosis_data)  (** POST /save_diagnosis/<id> *)
| RPrepareMedicine (aid : string)                 (** POST /prepare_medicine/<id> *)
| RGetBilling (aid : string)                      (** GET /billing/<id> *)
| RBillingPrepare (aid : string) (p : billing_payload)  (** POST /billing_prepare/<id> *)
| RHandOver (aid : string)                        (** POST /hand_over_medicine/<id> *)
| RCourierDone (aid : string)                     (** POST /courier_done/<id> *)
| RCompleteCheckout (aid : string).               (** POST /complete_checkout/<id> *)

(** The handler of every route that runs against the database. *)
Definition db_handler (req : request) (s : session) : option (txn response) :=
  match req with
  | RLogin _ | RLogout => None
  | RReceptionistDashboard q => Some (receptionist_dashboard s q)
  | RDoctorDashboard => Some (doctor_dashboard s)
  | RPharmacistDashboard => Some (pharmacist_dashboard s)
  | RBookAppointment data => Some (book_appointment s data)
  | RCheckIn aid st => Some (check_in s aid st)
  | RGetDiagnosis aid => Some (get_diagnosis s aid)
  | RSaveDiagnosis aid data => Some (save_diagnosis s aid data)
  | RPrepareMedicine aid => Some (prepare_medicine s aid)
  | RGetBilling aid => Some (get_billing s aid)
  | RBillingPrepare aid p => Some (billing_prepare s aid p)
  | RHandOver aid => Some (hand_over_medicine s aid)
  | RCourierDone aid => Some (courier_done s aid)
  | RCompleteCheckout aid => Some (complete_checkout s aid)
  end.

(** One request of one client: response, new session, committed
    database, effects. *)
Definition handle (sha256 : string -> string) (E : env) (req : request) (s : session) (d : db)
  : response * session * db * list effect :=
  match req with
  | RLogin form => let '(r, s') := login sha256 s form in (r, s', d, [])
  | RLogout => let '(r, s') := logout s in (r, s', d, [])
  | _ =>
      match db_handler req s with
      | Some h => let '(r, d', effs) := run h E d in (r, s, d', effs)
      | None => (JsonMessage 404 "Not Found", s, d, [])
      end
  end.

(** The role each route's guard asks for. *)
Definition required_role (req : request) : option string :=
  match req with
  | RLogin _ | RLogout => None
  | RDoctorDashboard | RGetDiagnosis _ | RSaveDiagnosis _ _ => Some "doctor"
  | RPharmacistDashboard | RPrepareMedicine _ => Some "pharmacist"
  | _ => Some "receptionist"
  end.

(** Any client, any session, any clock and uuid supply. *)
Inductive db_step : db -> db -> Prop :=
| db_step_intro sha256 E req s d r s' d' effs :
    handle sha256 E req s d = (r, s', d', effs) -> db_step d d'.

(** The databases some sequence of requests produces from the empty
    schema that [init_db] creates. *)
Definition reachable (d : db) : Prop := rtc db_step empty_db d.

(** ** The invariants *)

Definition mobile_unique (d : db) : Prop :=
  forall p1 p2 r1 r2, patients d !! p1 = Some r1 -> patients d !! p2 = Some r2 ->
  p_mobile_number r1 = p_mobile_number r2 -> p1 = p2.

Definition appointments_have_patients (d : db) : Prop :=
  forall aid a, appointments d !! aid = Some a -> is_Some (patients d !! a_patient_id a).

(** Spec section 4.6: hand-over and courier come after preparation,
    checkout after hand-over or courier. *)
Definition lc_wf (t : lc_state) : Prop :=
  (lc_handed_over t = true -> lc_prepared t = true) /\
  (lc_couriered t = true -> lc_prepared t = true) /\
  (lc_checkout_done t = true -> lc_handed_over t = true \/ lc_couriered t = true).

Definition billing_wf (d : db) : Prop :=
  forall aid b, billing d !! aid = Some b -> lc_wf (abs_row b).

Definition diagnoses_wf (d : db) : Prop :=
  forall aid r, diagnoses d !! aid = Some r ->
  d_diagnosis_saved r = 1%Z /\ d_medicines_prescribed r = prescribed_of (d_medicines r).

Record db_inv (d : db) : Prop := {
  inv_mobile : mobile_unique d;
  inv_appointments : appointments_have_patients d;
  inv_billing : billing_wf d;
  inv_diagnoses : diagnoses_wf d
}.

(** Every billing row of [d'] has every progress flag the same row has
    in [d]. *)
Definition flags_grow (d d' : db) : Prop :=
  forall x, lc_le (abs_billing (billing d !! x)) (abs_billing (billing d' !! x)).

(** What a failed role guard answers: the dashboards redirect to the
    login page, the JSON handlers answer 403. *)
Definition denied_response (req : request) : response :=
  match req with
  | RReceptionistDashboard _ | RDoctorDashboard | RPharmacistDashboard => Redirect "login"
  | _ => JsonMessage 403 "Unauthorized"
  end.

(** [h] keeps the database property [I], whatever the request's
    environment. *)
Definition preserves (I : db -> Prop) (h : txn response) : Prop :=
  forall E d, I d -> I (db_of h E d).

(** A sequence of requests, each with the session of its client, against
    one database: the responses in order and the final database.  Every
    request sees the same clock and uuid supply [E]. *)
Fixpoint replay (sha256 : string -> string) (E : env) (script : list (session * request))
  (d : db) : list response * db :=
  match script with
  | [] => ([], d)
  | (s, req) :: rest =>
      let '(r, _, d', _) := handle sha256 E req s d in
      let '(rs, d'') := replay sha256 E rest d' in
      (r :: rs, d'')
  end.

(** The visit of spec section 8: a walk-in booked for the next day. *)
Definition walk_in_tomorrow : booking_data :=
  mk_booking "Meera" "9990003333" "29" "Nashik" "Fever" "2026-11-10" "Manual In-Clinic".

(** Book, check in, diagnose (and read the diagnosis back), prepare,
    hand over, [billing_prepare] when [with_billing], then check out and
    read the billing row back.  The appointment is the second uuid the
    booking draws. *)
Definition visit_script (with_billing : bool) : list (session * request) :=
  [(receptionist, RBookAppointment walk_in_tomorrow);
   (receptionist, RCheckIn "uuid-1" "Scheduled");
   (doctor, RSaveDiagnosis "uuid-1" amoxicillin);
   (doctor, RGetDiagnosis "uuid-1");
   (pharmacist, RPrepareMedicine "uuid-1");
   (receptionist, RHandOver "uuid-1")] ++
  (if with_billing then [(receptionist, RBillingPrepare "uuid-1" cash_payment)] else []) ++
  [(receptionist, RCompleteCheckout "uuid-1");
   (receptionist, RGetBilling "uuid-1")].

(** The columns of an appointment that only its creation writes. *)
Definition appt_core (a : appointment_row) : string * string * string * string * string * Z :=
  (a_patient_id a, a_reason a, a_booking_date a, a_appointment_date a, a_booking_type a,
   a_confirmed a).

(** Every appointment of [d] is still in [d'] with the same core columns,
    and every patient of [d] is still in [d'] with the same mobile
    number (spec section 3). *)
Definition records_kept (d d' : db) : Prop :=
  (forall aid a, appointments d !! aid = Some a ->
     exists a', appointments d' !! aid = Some a' /\ appt_core a' = appt_core a) /\
  (forall pid p, patients d !! pid = Some p ->
     exists p', patients d' !! pid = Some p' /\ p_mobile_number p' = p_mobile_number p).

(** The four progress flags of a billing row. *)
Definition row_flags (b : billing_row) : list (option Z) :=
  [b_medicines_prepared b; b_medicines_handed_over b; b_couriered b; b_checkout_done b].

(** A flag column holds NULL, 0 or 1. *)
Definition flag_bounded (v : option Z) : Prop := v = None \/ v = Some 0%Z \/ v = Some 1%Z.

Definition flags_bounded (d : db) : Prop :=
  forall aid b, billing d !! aid = Some b -> Forall flag_bounded (row_flags b).

(** The requests that take an appointment from wherever it is to the
    end of its visit: the pharmacist prepares the medicines, the
    receptionist hands them over, saves the billing form [p] and checks
    out (spec section 4.6). *)
Definition checkout_script (aid : string) (p : billing_payload) : list (session * request) :=
  [(pharmacist, RPrepareMedicine aid); (receptionist, RHandOver aid);
   (receptionist, RBillingPrepare aid p); (receptionist, RCompleteCheckout aid)].

(** What a database property promises the handlers: each SQL statement
    they run keeps it, under the conditions the handler has checked when
    it runs the statement.  The handlers' theorems are proved once
    against this interface (Section [Preservation]); the invariants
    [db_inv], the flag monotonicity [flags_grow d0] and [records_kept d0]
    are instances of it. *)
Class StmtClosed (I : db -> Prop) : Prop := {
  closed_ensure_billing aid d : I d -> I (ensure_billing aid d);
  closed_set_prepared aid d : I d -> I (update_billing aid set_prepared d);
  closed_set_handed_over aid b d :
    billing d !! aid = Some b -> int_truthy (b_medicines_prepared b) = true ->
    I d -> I (update_billing aid set_handed_over d);
  closed_set_couriered aid b d :
    billing d !! aid = Some b -> int_truthy (b_medicines_prepared b) = true ->
    I d -> I (update_billing aid set_couriered d);
  closed_set_checkout_done aid b d :
    billing d !! aid = Some b ->
    negb (int_truthy (b_medicines_handed_over b)) && negb (int_truthy (b_couriered b)) = false ->
    I d -> I (update_billing aid set_checkout_done d);
  closed_apply_payload aid p d : I d -> I (update_billing aid (apply_payload p) d);
  closed_replace_diagnosis aid data d : I d -> I (replace_diagnosis aid (diagnosis_row_of data) d);
  closed_update_checkin aid status time d : I d -> I (update_checkin aid status time d);
  closed_update_patient pid name age address d : I d -> I (update_patient pid name age address d);
  closed_insert_patient pid p d d' : insert_patient pid p d = inr d' -> I d -> I d';
  closed_insert_appointment aid a d d' :
    insert_appointment aid a d = inr d' -> is_Some (patients d !! a_patient_id a) -> I d -> I d'
}.

(** ** Lemmas shared by the preservation proofs *)

Lemma update_patient_is_Some pid name age address d x :
  is_Some (patients (update_patient pid name age address d) !! x) <-> is_Some (patients d !! x).
Proof. apply lookup_alter_is_Some. Qed.

Lemma insert_patient_lookup pid p d w :
  insert_patient pid p d = inr w -> patients w !! pid = Some p.
Proof.
  unfold insert_patient. destruct (patients d !! pid); [done|].
  destruct (select_patient_by_mobile d _); [done|]. intros [= <-]. apply lookup_insert_eq.
Qed.

(** The committed database after one request. *)
Lemma handle_db sha256 E req s d :
  (handle sha256 E req s d).1.2 =
  match db_handler req s with Some h => db_of h E d | None => d end.
Proof.
  unfold handle, db_of.
  destruct req; cbn [db_handler];
    repeat match goal with |- context [match ?p with pair _ _ => _ end] => destruct p end;
    reflexivity.
Qed.

Lemma db_step_handle sha256 E req s d : db_step d (handle sha256 E req s d).1.2.
Proof. destruct (handle sha256 E req s d) as [[[r s'] d'] effs] eqn:H. by eapply db_step_intro. Qed.

Lemma replay_steps sha256 E script d : rtc db_step d (replay sha256 E script d).2.
Proof.
  revert d. induction script as [|[s req] script IH]; intros d; cbn; [done|].
  pose proof (db_step_handle sha256 E req s d) as Hs.
  destruct (handle sha256 E req s d) as [[[r s'] d'] effs]; cbn in *.
  destruct (replay sha256 E script d') eqn:Hr. eapply rtc_l; [exact Hs|].
  specialize (IH d'). by rewrite Hr in IH.
Qed.

(** A listed row carries the diagnosis row of its appointment. *)
Lemma dashboard_rows_diagnosis d r :
  r ∈ dashboard_rows d -> j_diagnosis r = diagnoses d !! j_id r.
Proof.
  unfold dashboard_rows. rewrite list_elem_of_omap. intros [[aid a] [_ Hr]].
  destruct (patients d !! a_patient_id a); cbn in Hr; by simplify_eq.
Qed.

(** Every answer of a route's handler is well typed. *)
Lemma db_handler_typed req s h :
  db_handler req s = Some h -> txn_post resp_typed (fun e => resp_typed (ServerError e)) h.
Proof.
  destruct req; cbn; intros [= <-];
    unfold receptionist_dashboard, doctor_dashboard, pharmacist_dashboard, list_dashboard,
      book_appointment, upsert_patient, parse_date, booking_notifications, check_in,
      get_diagnosis, save_diagnosis, prepare_medicine, get_billing, billing_prepare,
      hand_over_medicine, courier_done, complete_checkout, log_credit, guard_json, guard_page;
    txn_post_solve; cbn; auto; unfold url_endpoints; set_solver.
Qed.

(** ** Every handler preserves a property that each of its statements
    preserves *)

Section Preservation.

Context (I : db -> Prop) `{!StmtClosed I}.

(** The interface's statements for [I], as hints for [auto]. *)
Let I_ensure_billing := closed_ensure_billing (I := I).
Let I_set_prepared := closed_set_prepared (I := I).
Let I_set_handed_over := closed_set_handed_over (I := I).
Let I_set_couriered := closed_set_couriered (I := I).
Let I_set_checkout_done := closed_set_checkout_done (I := I).
Let I_apply_payload := closed_apply_payload (I := I).
Let I_replace_diagnosis := closed_replace_diagnosis (I := I).
Let I_update_checkin := closed_update_checkin (I := I).
Let I_update_patient := closed_update_patient (I := I).
Let I_insert_patient := closed_insert_patient (I := I).
Let I_insert_appointment := closed_insert_appointment (I := I).
#[local] Hint Resolve I_ensure_billing I_set_prepared I_set_handed_over I_set_couriered
  I_set_checkout_done I_apply_payload I_replace_diagnosis I_update_checkin I_update_patient
  I_insert_patient I_insert_appointment : clinic.

Lemma prepare_medicine_preserves s aid : preserves I (prepare_medicine s aid).
Proof.
  intros E d Hd. unfold db_of. rewrite prepare_medicine_eq.
  destruct (forbidden s _); [done|]. destruct (select_mobile d aid); cbn -[update_billing]; auto with clinic.
Qed.

Lemma hand_over_medicine_preserves s aid : preserves I (hand_over_medicine s aid).
Proof.
  intros E d Hd. unfold db_of. rewrite hand_over_medicine_eq.
  destruct (forbidden s _); [done|].
  destruct (billing d !! aid) as [b|] eqn:Hb; cbn -[update_billing]; [|done].
  destruct (int_truthy (b_medicines_prepared b)) eqn:Hp; cbn -[update_billing]; [|done].
  destruct (select_mobile d aid); cbn -[update_billing]; eauto with clinic.
Qed.

Lemma courier_done_preserves s aid : preserves I (courier_done s aid).
Proof.
  intros E d Hd. unfold db_of. rewrite courier_done_eq.
  destruct (forbidden s _); [done|].
  destruct (billing d !! aid) as [b|] eqn:Hb; [|done].
  destruct (int_truthy (b_medicines_prepared b)) eqn:Hp; cbn -[update_billing]; [|done].
  destruct (is_courier _); cbn -[update_billing]; [|done].
  destruct (select_mobile d aid); cbn -[update_billing]; eauto with clinic.
Qed.

Lemma complete_checkout_preserves s aid : preserves I (complete_checkout s aid).
Proof.
  intros E d Hd. unfold db_of. rewrite complete_checkout_eq.
  destruct (forbidden s _); [done|].
  destruct (billing d !! aid) as [b|] eqn:Hb; [|done].
  destruct (negb _ && negb _) eqn:Hg; [done|].
  destruct (b_amount_paid b); [|done].
  destruct (select_mobile d aid); cbn -[update_billing]; eauto with clinic.
Qed.

Lemma check_in_preserves s aid status : preserves I (check_in s aid status).
Proof.
  intros E d Hd. unfold db_of. rewrite check_in_eq.
  destruct (forbidden s _); [done|]. destruct (appointments d !! aid); cbn -[update_checkin]; auto with clinic.
Qed.

Lemma save_diagnosis_preserves s aid data : preserves I (save_diagnosis s aid data).
Proof.
  intros E d Hd. unfold db_of. rewrite save_diagnosis_eq.
  destruct (forbidden s _); [done|].
  destruct (Z.eqb _ 0); [|destruct (select_mobile d aid)];
    cbn -[ensure_billing replace_diagnosis]; auto with clinic.
Qed.

Lemma billing_prepare_preserves s aid p : preserves I (billing_prepare s aid p).
Proof.
  intros E d Hd. unfold db_of. destruct (forbidden s "receptionist") eqn:Hs.
  - unfold billing_prepare, guard_json. by rewrite Hs.
  - rewrite billing_prepare_run_db by done. cbn -[update_billing ensure_billing]. auto with clinic.
Qed.

Lemma get_diagnosis_preserves s aid : preserves I (get_diagnosis s aid).
Proof. intros E d Hd. unfold db_of. rewrite get_diagnosis_run. by destruct (forbidden s _). Qed.

Lemma get_billing_preserves s aid : preserves I (get_billing s aid).
Proof.
  intros E d Hd. unfold db_of. rewrite get_billing_eq.
  destruct (forbidden s _); [done|]. by destruct (billing d !! aid).
Qed.

Lemma doctor_dashboard_preserves s : preserves I (doctor_dashboard s).
Proof. intros E d Hd. unfold db_of, doctor_dashboard, guard_page. by destruct (forbidden s _). Qed.

Lemma pharmacist_dashboard_preserves s : preserves I (pharmacist_dashboard s).
Proof. intros E d Hd. unfold db_of, pharmacist_dashboard, guard_page. by destruct (forbidden s _). Qed.

(** The patient upsert of both booking paths: nothing committed, [I] on
    the working copy, and the patient it answers exists there. *)
Lemma upsert_patient_preserves data E d r c' :
  I d -> upsert_patient data (mk_conn E d d [] 0) = (r, c') ->
  c_committed c' = d /\ I (c_work c') /\
  forall pid, r = Ret pid -> is_Some (patients (c_work c') !! pid).
Proof.
  intros Hd. rewrite upsert_patient_run.
  destruct (select_patient_by_mobile d _) as [pid|] eqn:Hsel.
  - intros [= <- <-]. cbn. split_and!; auto with clinic. intros ? [= <-].
    apply update_patient_is_Some. destruct (select_patient_by_mobile_Some _ _ _ Hsel) as (p & Hp & _).
    by eexists.
  - destruct (insert_patient _ _ d) as [|w] eqn:Hins; intros [= <- <-]; cbn; split_and!; eauto with clinic.
    + by intros ? ?.
    + intros ? [= <-]. erewrite insert_patient_lookup by eassumption. by eexists.
Qed.

(** Both booking paths, from the parsed date on. *)
Ltac booking_tail :=
  unfold parse_date; txn_simpl;
  destruct (strptime_ymd _); txn_simpl; [done|];
  destruct (same_day_direct _ _ _); txn_simpl; [done|];
  destruct (insert_appointment _ _ _) as [|w'] eqn:Hins; txn_simpl; [done|];
  rewrite booking_notifications_run; try unfold list_dashboard; txn_simpl.

Ltac booking_upsert Hd :=
  txn_simpl;
  let Hup := fresh "Hup" in
  match goal with
  | |- context [upsert_patient ?data (mk_conn ?E ?d ?d [] 0)] =>
      destruct (upsert_patient data (mk_conn E d d [] 0)) as [[?pid|?e] c'] eqn:Hup;
      destruct (upsert_patient_preserves _ _ _ _ _ Hd Hup) as (Hc & Hw & Hp);
      destruct c' as [E' c w effs n]; cbn [c_committed c_work] in *; subst c; [|done]
  end.

Lemma book_appointment_preserves s data : preserves I (book_appointment s data).
Proof.
  intros E d Hd. unfold db_of, book_appointment, guard_json.
  destruct (forbidden s _); [done|]. booking_upsert Hd. booking_tail. eauto with clinic.
Qed.

Lemma receptionist_dashboard_preserves s q : preserves I (receptionist_dashboard s q).
Proof.
  intros E d Hd. unfold db_of, receptionist_dashboard, guard_page.
  destruct (forbidden s _); [done|]. destruct q as [|data]; [done|].
  booking_upsert Hd. booking_tail. eauto with clinic.
Qed.

Lemma db_handler_preserves req s h : db_handler req s = Some h -> preserves I h.
Proof.
  destruct req; cbn; intros [= <-]; auto using prepare_medicine_preserves,
    hand_over_medicine_preserves, courier_done_preserves, complete_checkout_preserves,
    check_in_preserves, save_diagnosis_preserves, billing_prepare_preserves,
    get_diagnosis_preserves, get_billing_preserves, doctor_dashboard_preserves,
    pharmacist_dashboard_preserves, book_appointment_preserves, receptionist_dashboard_preserves.
Qed.

Lemma db_step_preserves d d' : db_step d d' -> I d -> I d'.
Proof.
  intros [sha256 E req s d0 r s' d1 effs Hh] Hd.
  pose proof (handle_db sha256 E req s d0) as Hdb. rewrite Hh in Hdb. cbn in Hdb. subst d1.
  destruct (db_handler req s) eqn:Hr; [|done]. by eapply db_handler_preserves.
Qed.

Lemma steps_preserve d d' : rtc db_step d d' -> I d -> I d'.
Proof. induction 1; eauto using db_step_preserves. Qed.

End Preservation.

(** ** Progress flags never go down *)

Lemma flags_grow_refl d : flags_grow d d.
Proof. intros x. apply lc_le_refl. Qed.

Lemma flags_grow_trans d1 d2 d3 : flags_grow d1 d2 -> flags_grow d2 d3 -> flags_grow d1 d3.
Proof. intros H12 H23 x. specialize (H12 x). specialize (H23 x). unfold lc_le in *. intuition auto. Qed.

Lemma flags_grow_same_billing d d' : billing d' = billing d -> flags_grow d d'.
Proof. intros Hb x. rewrite Hb. apply lc_le_refl. Qed.

Lemma flags_grow_ensure_billing aid d : flags_grow d (ensure_billing aid d).
Proof.
  intros x. destruct (decide (x = aid)) as [->|Hne].
  - rewrite billing_ensure_billing_eq. destruct (billing d !! aid); [apply lc_le_refl|].
    unfold lc_le; cbn; naive_solver.
  - rewrite billing_ensure_billing_ne by done. apply lc_le_refl.
Qed.

Lemma flags_grow_update_billing aid f d :
  (forall b, lc_le (abs_row b) (abs_row (f b))) -> flags_grow d (update_billing aid f d).
Proof.
  intros Hf x. destruct (decide (x = aid)) as [->|Hne].
  - rewrite billing_update_billing_eq. destruct (billing d !! aid); [apply Hf|apply lc_le_refl].
  - rewrite billing_update_billing_ne by done. apply lc_le_refl.
Qed.

(** Every row update of the handlers only sets flags. *)
Lemma lc_le_row_updates b :
  lc_le (abs_row b) (abs_row (set_prepared b)) /\ lc_le (abs_row b) (abs_row (set_handed_over b)) /\
  lc_le (abs_row b) (abs_row (set_couriered b)) /\ lc_le (abs_row b) (abs_row (set_checkout_done b)) /\
  forall p, lc_le (abs_row b) (abs_row (apply_payload p b)).
Proof. unfold lc_le, abs_row; cbn; naive_solver. Qed.

(** The grown flags from a fixed database [d0], as a property of the
    current database: closed under every statement. *)
Lemma flags_grow_from_preserved d0 :
  let I := flags_grow d0 in
  (forall aid d, I d -> I (ensure_billing aid d)) /\
  (forall aid f d, (forall b, lc_le (abs_row b) (abs_row (f b))) -> I d -> I (update_billing aid f d)) /\
  (forall d d', billing d' = billing d -> I d -> I d').
Proof.
  split_and!; intros; eapply flags_grow_trans; eauto using flags_grow_ensure_billing,
    flags_grow_update_billing, flags_grow_same_billing.
Qed.

Lemma insert_patient_billing pid p d d' : insert_patient pid p d = inr d' -> billing d' = billing d.
Proof.
  unfold insert_patient. destruct (patients d !! pid); [done|].
  destruct (select_patient_by_mobile d _); [done|]. by intros [= <-].
Qed.

Lemma insert_appointment_billing aid a d d' :
  insert_appointment aid a d = inr d' -> billing d' = billing d.
Proof. unfold insert_appointment. destruct (appointments d !! aid); [done|]. by intros [= <-]. Qed.

(** ** Each SQL statement preserves the invariants *)

Lemma lc_wf_placeholder : lc_wf (abs_row placeholder_billing).
Proof. unfold lc_wf, abs_row; cbn; naive_solver. Qed.

Lemma lc_wf_set_prepared b : lc_wf (abs_row b) -> lc_wf (abs_row (set_prepared b)).
Proof. unfold lc_wf, abs_row; cbn; intuition auto. Qed.

Lemma lc_wf_set_handed_over b :
  int_truthy (b_medicines_prepared b) = true -> lc_wf (abs_row b) ->
  lc_wf (abs_row (set_handed_over b)).
Proof. unfold lc_wf, abs_row; cbn; intuition auto. Qed.

Lemma lc_wf_set_couriered b :
  int_truthy (b_medicines_prepared b) = true -> lc_wf (abs_row b) ->
  lc_wf (abs_row (set_couriered b)).
Proof. unfold lc_wf, abs_row; cbn; intuition auto. Qed.

Lemma lc_wf_set_checkout_done b :
  negb (int_truthy (b_medicines_handed_over b)) && negb (int_truthy (b_couriered b)) = false ->
  lc_wf (abs_row b) -> lc_wf (abs_row (set_checkout_done b)).
Proof.
  unfold lc_wf, abs_row; cbn.
  destruct (int_truthy (b_medicines_handed_over b)), (int_truthy (b_couriered b)); intuition (auto || discriminate).
Qed.

Lemma lc_wf_apply_payload p b : lc_wf (abs_row b) -> lc_wf (abs_row (apply_payload p b)).
Proof. unfold lc_wf, abs_row; cbn; naive_solver. Qed.

#[export] Hint Resolve lc_wf_placeholder lc_wf_set_prepared lc_wf_set_handed_over
  lc_wf_set_couriered lc_wf_set_checkout_done lc_wf_apply_payload : clinic.

Lemma db_inv_empty : db_inv empty_db.
Proof.
  split; repeat intro; cbn in *; by simplify_map_eq.
Qed.

Lemma db_inv_ensure_billing aid d : db_inv d -> db_inv (ensure_billing aid d).
Proof.
  intros [Hm Ha Hb Hd]. unfold ensure_billing. destruct (billing d !! aid); [by split|].
  split; try assumption. intros x b. cbn. rewrite lookup_insert_Some.
  intros [[<- <-]|[_ H]]; eauto with clinic.
Qed.

Lemma db_inv_update_billing aid f d :
  (forall b, billing d !! aid = Some b -> lc_wf (abs_row b) -> lc_wf (abs_row (f b))) ->
  db_inv d -> db_inv (update_billing aid f d).
Proof.
  intros Hf [Hm Ha Hb Hd]. split; try assumption. intros x b'. cbn. rewrite lookup_alter_Some.
  intros [[<- [b [Hb' ->]]]|[_ H]]; eauto.
Qed.

Lemma db_inv_replace_diagnosis aid data d :
  db_inv d -> db_inv (replace_diagnosis aid (diagnosis_row_of data) d).
Proof.
  intros [Hm Ha Hb Hd]. split; try assumption. intros x r. cbn. rewrite lookup_insert_Some.
  intros [[<- <-]|[_ H]]; eauto.
Qed.

Lemma db_inv_update_checkin aid status time d :
  db_inv d -> db_inv (update_checkin aid status time d).
Proof.
  intros [Hm Ha Hb Hd]. split; try assumption. intros x a. cbn. rewrite lookup_alter_Some.
  intros [[<- [a0 [Ha0 ->]]]|[_ H]]; cbn; eauto.
Qed.

Lemma db_inv_update_patient pid name age address d :
  db_inv d -> db_inv (update_patient pid name age address d).
Proof.
  intros [Hm Ha Hb Hd]. split; try assumption; unfold update_patient, mobile_unique, appointments_have_patients;
    cbn [patients appointments diagnoses billing].
  - intros p1 p2 r1 r2. rewrite !lookup_alter_Some.
    intros [[<- [q1 [H1 ->]]]|[_ H1]] [[<- [q2 [H2 ->]]]|[_ H2]]; cbn; eauto.
  - intros x a Hx. apply lookup_alter_is_Some. eauto.
Qed.

Lemma db_inv_insert_patient pid p d d' :
  insert_patient pid p d = inr d' -> db_inv d -> db_inv d'.
Proof.
  unfold insert_patient. destruct (patients d !! pid); [done|].
  destruct (select_patient_by_mobile d _) eqn:Hsel; [done|]. intros [= <-] [Hm Ha Hb Hd].
  pose proof (proj1 (select_patient_by_mobile_None _ _) Hsel) as Hfresh.
  split; try assumption; unfold mobile_unique, appointments_have_patients;
    cbn [patients appointments diagnoses billing].
  - intros p1 p2 r1 r2. rewrite !lookup_insert_Some.
    intros [[<- <-]|[_ H1]] [[<- <-]|[_ H2]] Hmob; eauto;
      [destruct (Hfresh _ _ H2) | destruct (Hfresh _ _ H1)]; congruence.
  - intros x a Hx. apply lookup_insert_is_Some'. eauto.
Qed.

Lemma db_inv_insert_appointment aid a d d' :
  insert_appointment aid a d = inr d' -> is_Some (patients d !! a_patient_id a) ->
  db_inv d -> db_inv d'.
Proof.
  unfold insert_appointment. destruct (appointments d !! aid); [done|].
  intros [= <-] Hp [Hm Ha Hb Hd]. split; try assumption; unfold appointments_have_patients;
    cbn [patients appointments diagnoses billing].
  intros x a'. rewrite lookup_insert_Some. intros [[<- <-]|[_ H]]; eauto.
Qed.

#[export] Hint Resolve db_inv_empty db_inv_ensure_billing db_inv_replace_diagnosis
  db_inv_update_checkin db_inv_update_patient : clinic.

Lemma db_inv_update_billing_at aid f b d :
  billing d !! aid = Some b -> (lc_wf (abs_row b) -> lc_wf (abs_row (f b))) ->
  db_inv d -> db_inv (update_billing aid f d).
Proof. intros Hb Hf. apply db_inv_update_billing. intros b' Hb'. by simplify_eq. Qed.


(** ** The invariants and the flag monotonicity satisfy the interface *)

#[export] Instance db_inv_closed : StmtClosed db_inv.
Proof.
  split; eauto using db_inv_update_billing_at, db_inv_insert_patient, db_inv_insert_appointment
    with clinic; intros; apply db_inv_update_billing; auto with clinic.
Qed.

#[export] Instance flags_grow_closed d0 : StmtClosed (flags_grow d0).
Proof.
  destruct (flags_grow_from_preserved d0) as (He & Hu & Hb). cbv zeta in *.
  split; try (intros; apply Hu; [intros b'; destruct (lc_le_row_updates b') as (?&?&?&?&?); auto|done]);
    intros; eapply Hb; eauto using insert_patient_billing, insert_appointment_billing.
Qed.

(** ** Appointments and patients are kept *)

Lemma records_kept_refl d : records_kept d d.
Proof. split; intros; eauto. Qed.

Lemma records_kept_trans d1 d2 d3 : records_kept d1 d2 -> records_kept d2 d3 -> records_kept d1 d3.
Proof.
  intros [A12 P12] [A23 P23]. split.
  - intros aid a Ha. destruct (A12 _ _ Ha) as (a2 & Ha2 & E2). destruct (A23 _ _ Ha2) as (a3 & ? & ?).
    exists a3. split; congruence.
  - intros pid p Hp. destruct (P12 _ _ Hp) as (p2 & Hp2 & E2). destruct (P23 _ _ Hp2) as (p3 & ? & ?).
    exists p3. split; congruence.
Qed.

(** A statement that leaves both tables alone keeps them. *)
Lemma records_kept_same d d' :
  appointments d' = appointments d -> patients d' = patients d -> records_kept d d'.
Proof. intros Ha Hp. unfold records_kept. rewrite Ha, Hp. apply records_kept_refl. Qed.

Lemma records_kept_update_checkin aid status time d :
  records_kept d (update_checkin aid status time d).
Proof.
  split; [|intros; eauto]. intros x a Ha. cbn.
  destruct (decide (x = aid)) as [->|Hne];
    [rewrite lookup_alter_eq | rewrite lookup_alter_ne by congruence]; rewrite Ha; cbn;
    eexists; split; reflexivity.
Qed.

Lemma records_kept_update_patient pid name age address d :
  records_kept d (update_patient pid name age address d).
Proof.
  split; [intros; eauto|]. intros x p Hp. cbn.
  destruct (decide (x = pid)) as [->|Hne];
    [rewrite lookup_alter_eq | rewrite lookup_alter_ne by congruence]; rewrite Hp; cbn;
    eexists; split; reflexivity.
Qed.

Lemma records_kept_insert_patient pid p d d' : insert_patient pid p d = inr d' -> records_kept d d'.
Proof.
  unfold insert_patient. destruct (patients d !! pid) eqn:Hpid; [done|].
  destruct (select_patient_by_mobile d _); [done|]. intros [= <-].
  split; [intros; eauto|]. intros x q Hq. cbn. exists q. split; [|done].
  rewrite lookup_insert_ne; [done|]. congruence.
Qed.

Lemma records_kept_insert_appointment aid a d d' :
  insert_appointment aid a d = inr d' -> records_kept d d'.
Proof.
  unfold insert_appointment. destruct (appointments d !! aid) eqn:Haid; [done|]. intros [= <-].
  split; [|intros; eauto]. intros x b Hb. cbn. exists b. split; [|done].
  rewrite lookup_insert_ne; [done|]. congruence.
Qed.

Lemma records_kept_ensure_billing aid d : records_kept d (ensure_billing aid d).
Proof. apply records_kept_same; unfold ensure_billing; by destruct (billing d !! aid). Qed.

#[export] Instance records_kept_closed d0 : StmtClosed (records_kept d0).
Proof.
  split; intros; eapply records_kept_trans; eauto using records_kept_ensure_billing,
    records_kept_update_checkin, records_kept_update_patient, records_kept_insert_patient,
    records_kept_insert_appointment; by apply records_kept_same.
Qed.

(** ** Flag columns hold NULL, 0 or 1 *)

Lemma flags_bounded_row_updates b :
  Forall flag_bounded (row_flags b) ->
  Forall flag_bounded (row_flags (set_prepared b)) /\ Forall flag_bounded (row_flags (set_handed_over b)) /\
  Forall flag_bounded (row_flags (set_couriered b)) /\ Forall flag_bounded (row_flags (set_checkout_done b)) /\
  forall p, Forall flag_bounded (row_flags (apply_payload p b)).
Proof.
  unfold row_flags, flag_bounded. intros H. repeat apply Forall_cons in H as [? H].
  split_and!; [..|intros p]; repeat (apply Forall_cons; split); cbn; auto.
Qed.

Lemma flags_bounded_update_billing aid f d :
  (forall b, Forall flag_bounded (row_flags b) -> Forall flag_bounded (row_flags (f b))) ->
  flags_bounded d -> flags_bounded (update_billing aid f d).
Proof.
  intros Hf Hd x b. cbn. rewrite lookup_alter_Some.
  intros [[<- [b0 [Hb0 ->]]]|[_ H]]; eauto.
Qed.

Lemma flags_bounded_ensure_billing aid d : flags_bounded d -> flags_bounded (ensure_billing aid d).
Proof.
  intros Hd. unfold ensure_billing. destruct (billing d !! aid); [done|].
  intros x b. cbn. rewrite lookup_insert_Some. intros [[<- <-]|[_ H]]; [|eauto].
  unfold row_flags, flag_bounded. cbn. repeat (apply Forall_cons; split); auto.
Qed.

Lemma flags_bounded_same_billing d d' : billing d' = billing d -> flags_bounded d -> flags_bounded d'.
Proof. intros Hb Hd x b. rewrite Hb. apply Hd. Qed.

#[export] Instance flags_bounded_closed : StmtClosed flags_bounded.
Proof.
  split; intros;
    try (apply flags_bounded_update_billing; [intros b' Hb'; destruct (flags_bounded_row_updates b' Hb') as (?&?&?&?&?); auto|done]);
    eauto using flags_bounded_ensure_billing, flags_bounded_same_billing, insert_patient_billing,
      insert_appointment_billing.
Qed.

(** ** Liveness: the end of a visit can always be reached *)

(** A request of a route that runs against the database, at the head of
    a script. *)
Lemma replay_db_route sha256 E s req rest d h :
  db_handler req s = Some h ->
  replay sha256 E ((s, req) :: rest) d =
  let '(r, d', _) := run h E d in let '(rs, d'') := replay sha256 E rest d' in (r :: rs, d'').
Proof.
  intros Hh. destruct req; cbn in Hh; simplify_eq; cbn [replay handle db_handler];
    destruct (run _ E d) as [[r d'] effs]; reflexivity.
Qed.

Lemma select_mobile_of_patient d aid a :
  appointments_have_patients d -> appointments d !! aid = Some a -> exists m, select_mobile d aid = Some m.
Proof.
  intros Hp Ha. destruct (Hp _ _ Ha) as [p Hpat]. exists (p_mobile_number p).
  unfold select_mobile. by rewrite Ha; cbn; rewrite Hpat.
Qed.

(** What [checkout_script] does, from any database where the
    appointment's patient is known. *)
Lemma checkout_script_run sha256 E d aid p m :
  select_mobile d aid = Some m ->
  replay sha256 E (checkout_script aid p) d =
  ([JsonMessage 200 "Medicines prepared"; JsonMessage 200 "Medicine handed over";
    JsonMessage 200 "Billing saved"; JsonMessage 200 "Checkout completed"],
   update_billing aid set_checkout_done
     (update_billing aid (apply_payload p)
        (update_billing aid set_handed_over (update_billing aid set_prepared (ensure_billing aid d))))).
Proof.
  intros Hm. unfold checkout_script.
  erewrite replay_db_route by reflexivity. rewrite prepare_medicine_eq, pharmacist_allowed.
  rewrite Hm. cbn iota beta.
  erewrite replay_db_route by reflexivity. rewrite hand_over_medicine_eq, receptionist_allowed.
  assert (Hprep : prepared_flag (b_medicines_prepared <$>
            billing (update_billing aid set_prepared (ensure_billing aid d)) !! aid) = true)
    by (rewrite billing_update_billing_eq, billing_ensure_billing_eq; reflexivity).
  rewrite Hprep, select_mobile_update_billing, select_mobile_ensure_billing, Hm. cbn [negb].
  erewrite replay_db_route by reflexivity. rewrite billing_prepare_run_db by reflexivity. cbn iota beta.
  erewrite replay_db_route by reflexivity. rewrite complete_checkout_eq, receptionist_allowed.
  rewrite ensure_billing_present
    by (rewrite billing_update_billing_eq, billing_update_billing_eq, billing_ensure_billing_eq; by eexists).
  rewrite !billing_update_billing_eq, billing_ensure_billing_eq, !select_mobile_update_billing,
    select_mobile_ensure_billing, Hm. cbn. reflexivity.
Qed.

(** ** Theorems *)

(** C22: every database the application can reach from the empty schema
    of [init_db], by any sequence of requests of any clients with any
    sessions, clocks and uuids, satisfies the invariants: no two patients
    share a mobile number, every appointment's patient exists, no billing
    row is handed over or couriered without [medicines_prepared] or
    checked out without a hand-over or courier, and every diagnosis row
    has [diagnosis_saved = 1] and the [medicines_prescribed] flag of its
    medicines text. *)
Theorem reachable_inv d : reachable d -> db_inv d.
Proof. intros Hr. apply (steps_preserve db_inv) with empty_db; auto using db_inv_empty. Qed.

(** C24: along any sequence of requests, of any routes, sessions and
    environments, no progress flag ([medicines_prepared],
    [medicines_handed_over], [couriered], [checkout_done]) of any billing
    row is ever cleared: [billing_prepare] rewrites the other columns
    only, and every other write sets a flag or creates the placeholder
    row. *)
Theorem flags_monotone_steps d d' : rtc db_step d d' -> flags_grow d d'.
Proof. intros Hs. apply (steps_preserve (flags_grow d)) with d; auto using flags_grow_refl. Qed.

(** C23: every route but login and logout checks the session's role
    before anything else: a request whose session does not carry the
    route's role gets the 403 answer (the login redirect for the
    dashboards), keeps its session, changes no table and has no effect. *)
Theorem unauthorized_request_denied sha256 E req s d role :
  required_role req = Some role -> forbidden s role = true ->
  handle sha256 E req s d = (denied_response req, s, d, []).
Proof.
  intros Hrole Hf. destruct req; cbn in Hrole; simplify_eq;
    unfold handle, db_handler, prepare_medicine, hand_over_medicine, courier_done,
      complete_checkout, check_in, save_diagnosis, billing_prepare, get_diagnosis, get_billing,
      doctor_dashboard, pharmacist_dashboard, book_appointment, receptionist_dashboard,
      guard_json, guard_page;
    rewrite Hf; reflexivity.
Qed.

(** The end-to-end visit of spec section 8 as the code runs it, from
    the empty database: booking ([Manual In-Clinic], tomorrow), check-in,
    diagnosis with "Amoxicillin" (read back exactly), preparation and
    hand-over all succeed; without a [billing_prepare] the checkout then
    fails with a server error (the placeholder row's NULL [amount_paid],
    C3) and the billing row keeps [checkout_done = 0]; with it, the
    checkout succeeds and the row reads back with all three flags set. *)
Example visit_scenario :
  (replay (fun x => x) demo_env (visit_script false) empty_db).1 =
    [JsonMessage 200 "Appointment booked"; JsonMessage 200 "Checked in";
      JsonMessage 200 "Diagnosis and prescription saved";
      JsonDiagnosis (diagnosis_row_of amoxicillin);
      JsonMessage 200 "Medicines prepared"; JsonMessage 200 "Medicine handed over";
      ServerError (TypeError "'<' not supported between instances of 'NoneType' and a number");
      JsonBilling (billing_json_of (Some (set_handed_over (set_prepared placeholder_billing))))] /\
  (replay (fun x => x) demo_env (visit_script true) empty_db).1 =
    [JsonMessage 200 "Appointment booked"; JsonMessage 200 "Checked in";
     JsonMessage 200 "Diagnosis and prescription saved";
     JsonDiagnosis (diagnosis_row_of amoxicillin);
     JsonMessage 200 "Medicines prepared"; JsonMessage 200 "Medicine handed over";
     JsonMessage 200 "Billing saved"; JsonMessage 200 "Checkout completed";
     JsonBilling (billing_json_of (Some (set_checkout_done (set_handed_over
       (apply_payload cash_payment (set_prepared placeholder_billing))))))].
Proof. split; vm_compute; reflexivity. Qed.

(** What the dashboards show along the same visit (without the
    billing step), with the templates' column positions: once the
    medicines are prepared, the receptionist's row offers Complete
    Checkout but not Hand Over, and the pharmacist's row still offers
    Prepare Medicine; once they are handed over, the row's badges say
    "Couriered" and "Checked Out" although neither happened, and never
    "Medicines Prepared" or "Handed Over". *)
Example visit_scenario_dashboards :
  let after n := (replay (fun x => x) demo_env (firstn n (visit_script false)) empty_db).2 in
  map receptionist_actions (dashboard_rows (after 5%nat)) = [[BillingButton; CompleteCheckoutButton]] /\
  map pharmacist_actions (dashboard_rows (after 5%nat)) = [[PrepareMedicineButton]] /\
  map status_badges (dashboard_rows (after 6%nat)) =
    [[CheckedInBadge (VText "Scheduled") (VText "2026-11-09 10:30:00"); DiagnosisSavedBadge;
      CourieredBadge; CheckedOutBadge]].
Proof. cbv zeta. split_and!; vm_compute; reflexivity. Qed.

(** C32: on every reachable database the pharmacist's queue lists, of
    the appointments the dashboards list, exactly those with a diagnosis
    whose medicines text has a character that is not whitespace: the
    query's [medicines_prescribed = 1] filter agrees with the text,
    because every stored diagnosis row derived its flag from it. *)
Theorem pharmacist_queue s E d :
  reachable d -> forbidden s "pharmacist" = false ->
  exists rows, run (pharmacist_dashboard s) E d = (Page (DashboardPage "pharmacist" rows), d, []) /\
  forall r, r ∈ rows <-> r ∈ dashboard_rows d /\
    exists dg, j_diagnosis r = Some dg /\
               forallb is_py_space (list_ascii_of_string (d_medicines dg)) = false.
Proof.
  intros Hr Hs. destruct (steps_preserve db_inv empty_db d Hr db_inv_empty) as [_ _ _ Hdiag].
  unfold pharmacist_dashboard, guard_page. rewrite Hs. eexists. split; [reflexivity|].
  intros r. rewrite list_elem_of_filter. cbn [start c_work]. unfold prescribed_row.
  split; [intros [Hp Hin] | intros [Hin (dg & Hdg & Hsp)]]; split; try done.
  - destruct (j_diagnosis r) as [dg|] eqn:Hdg; [|done]. exists dg. split; [done|].
    rewrite (dashboard_rows_diagnosis d r) in Hdg by done. destruct (Hdiag _ _ Hdg) as [_ Hm].
    apply Z.eqb_eq in Hp. rewrite Hm in Hp. by apply prescribed_of_one_iff.
  - rewrite Hdg. rewrite (dashboard_rows_diagnosis d r) in Hdg by done.
    destruct (Hdiag _ _ Hdg) as [_ Hm]. apply Z.eqb_eq. rewrite Hm. by apply prescribed_of_one_iff.
Qed.

(** The spec's invariant that diagnosis and billing rows reference
    an appointment does not hold: from the empty database, a
    receptionist's [billing_prepare] and a doctor's [save_diagnosis] for
    an id no appointment has store a billing row and a diagnosis row for
    it (the second request then fails with a server error, after its
    commit). *)
Example orphan_rows_reachable :
  let d := (replay (fun x => x) demo_env
              [(receptionist, RBillingPrepare "A404" cash_payment);
               (doctor, RSaveDiagnosis "A404" amoxicillin)] empty_db) in
  reachable d.2 /\ appointments d.2 !! "A404" = None /\
  is_Some (billing d.2 !! "A404") /\ is_Some (diagnoses d.2 !! "A404") /\
  d.1 = [JsonMessage 200 "Billing saved"; ServerError none_subscript].
Proof. cbv zeta. split; [apply replay_steps|]. vm_compute. split_and!; eauto. Qed.

(** C35: along any sequence of requests, no appointment and no patient
    is ever deleted; an appointment keeps its patient, reason, booking
    date, appointment date, booking channel and [confirmed] flag (only
    check-in writes it again, and only its check-in columns), and a
    patient keeps the mobile number it was created with. *)
Theorem records_kept_steps d d' : rtc db_step d d' -> records_kept d d'.
Proof. intros Hs. apply (steps_preserve (records_kept d)) with d; auto using records_kept_refl. Qed.

(** C36: every request from a well-formed session (none, or a user with
    one of the three roles) leaves a well-formed session, and its answer
    is well typed: every redirect names an endpoint [url_for] can build
    (the login page or the dashboard of the session's role), and no
    [KeyError] escapes; in particular [login] never reads a missing
    [session['role']]. *)
Theorem handle_well_typed sha256 E req s d :
  session_wf s -> let '(r, s', _, _) := handle sha256 E req s d in session_wf s' /\ resp_typed r.
Proof.
  intros Hs. destruct req as [form| | | | | | | | | | | | | |]; unfold handle.
  1: pose proof (login_typed sha256 s form Hs) as Hl; destruct (login sha256 s form); exact Hl.
  1: pose proof (logout_typed s) as Hl; destruct (logout s); exact Hl.
  all: destruct (db_handler _ s) as [h|] eqn:Hh; [|by split];
    pose proof (run_post resp_typed h E d (db_handler_typed _ _ _ Hh)) as Hr;
    unfold response_of in Hr; destruct (run h E d) as [[r d'] effs]; by split.
Qed.

(** C37: on every reachable database each progress flag of each billing
    row ([medicines_prepared], [medicines_handed_over], [couriered],
    [checkout_done]) is NULL, 0 or 1: the placeholder row writes 0 and
    NULL, the lifecycle handlers write 1, and nothing else writes them,
    so the pages' truthiness tests and the handlers' [== 1] tests read
    the same booleans. *)
Theorem reachable_flags_bounded d : reachable d -> flags_bounded d.
Proof.
  intros Hr. apply (steps_preserve flags_bounded) with empty_db; [done|].
  intros x b. cbn. by rewrite lookup_empty.
Qed.

(** C38: from every reachable database, every appointment can be taken
    to the end of its visit: the pharmacist's [prepare_medicine], the
    receptionist's [hand_over_medicine], [billing_prepare] with any form
    and [complete_checkout] all succeed, in this order, whatever the
    appointment's state, and leave its billing row with
    [checkout_done = 1] in a reachable database. *)
Theorem visit_completable sha256 E d aid p :
  reachable d -> is_Some (appointments d !! aid) ->
  let '(rs, d') := replay sha256 E (checkout_script aid p) d in
  rs = [JsonMessage 200 "Medicines prepared"; JsonMessage 200 "Medicine handed over";
        JsonMessage 200 "Billing saved"; JsonMessage 200 "Checkout completed"] /\
  lc_checkout_done (abs_billing (billing d' !! aid)) = true /\ reachable d'.
Proof.
  intros Hr [a Ha]. destruct (steps_preserve db_inv empty_db d Hr db_inv_empty) as [_ Hp _ _].
  destruct (select_mobile_of_patient d aid a Hp Ha) as [m Hm].
  assert (Hr' : reachable (replay sha256 E (checkout_script aid p) d).2)
    by (unfold reachable; etrans; [exact Hr | apply replay_steps]).
  rewrite (checkout_script_run sha256 E d aid p m Hm) in *. split_and!; [done| |done].
  by rewrite !billing_update_billing_eq, billing_ensure_billing_eq.
Qed.

(** ** Witnesses *)

Lemma reachable_inv_witness :
  db_inv (handle (fun x => x) demo_env (RBookAppointment walk_in_tomorrow) receptionist empty_db).1.2.
Proof. apply reachable_inv, rtc_once, db_step_handle. Defined.

Lemma unauthorized_request_denied_witness :
  handle (fun x => x) demo_env (RHandOver "A1") pharmacist booked =
  (denied_response (RHandOver "A1"), pharmacist, booked, []).
Proof. apply (unauthorized_request_denied _ _ _ _ _ "receptionist"); reflexivity. Defined.

Lemma flags_monotone_steps_witness :
  flags_grow booked (handle (fun x => x) demo_env (RPrepareMedicine "A1") pharmacist booked).1.2.
Proof. apply flags_monotone_steps, rtc_once, db_step_handle. Defined.

Lemma pharmacist_queue_witness :
  exists rows,
  run (pharmacist_dashboard pharmacist) demo_env
      (replay (fun x => x) demo_env (firstn 3 (visit_script false)) empty_db).2 =
    (Page (DashboardPage "pharmacist" rows),
     (replay (fun x => x) demo_env (firstn 3 (visit_script false)) empty_db).2, []) /\
  forall r, r ∈ rows <->
    r ∈ dashboard_rows (replay (fun x => x) demo_env (firstn 3 (visit_script false)) empty_db).2 /\
    exists dg, j_diagnosis r = Some dg /\
               forallb is_py_space (list_ascii_of_string (d_medicines dg)) = false.
Proof. apply pharmacist_queue; [apply replay_steps | reflexivity]. Defined.

Lemma records_kept_steps_witness :
  records_kept booked (handle (fun x => x) demo_env (RCheckIn "A1" "Scheduled") receptionist booked).1.2.
Proof. apply records_kept_steps, rtc_once, db_step_handle. Defined.

Lemma handle_well_typed_witness :
  session_wf receptionist /\
  let '(r, s', _, _) := handle (fun x => x) demo_env (RLogin None) receptionist booked in
  session_wf s' /\ resp_typed r.
Proof.
  assert (Hs : session_wf receptionist) by (right; do 2 eexists; split; [reflexivity | unfold roles; set_solver]).
  split; [exact Hs | apply handle_well_typed, Hs].
Defined.

Lemma reachable_flags_bounded_witness :
  flags_bounded (replay (fun x => x) demo_env (visit_script true) empty_db).2.
Proof. apply reachable_flags_bounded, replay_steps. Defined.

Lemma visit_completable_witness :
  let d := (replay (fun x => x) demo_env (firstn 2 (visit_script false)) empty_db).2 in
  let '(rs, d') := replay (fun x => x) demo_env (checkout_script "uuid-1" cash_payment) d in
  rs = [JsonMessage 200 "Medicines prepared"; JsonMessage 200 "Medicine handed over";
        JsonMessage 200 "Billing saved"; JsonMessage 200 "Checkout completed"] /\
  lc_checkout_done (abs_billing (billing d' !! "uuid-1")) = true /\ reachable d'.
Proof. apply visit_completable; [apply replay_steps | vm_compute; eexists; reflexivity]. Defined.

End App.
