(* ===== verification/Scripts.v ===== *)
(** * The pages' scripts: buttons, the editor forms and the search box

    Each dashboard of [src/app.py] ends with a [<script>] whose functions
    the buttons call: [checkIn], [showBillingForm], [saveBilling],
    [handOverMedicine], [courierDone], [completeCheckout] and
    [searchAppointments] on the receptionist's page (lines 343-414),
    [showDoctorForm], [saveDiagnosis] and [searchAppointments] on the
    doctor's (lines 546-591), [prepareMedicine] and [searchAppointments]
    on the pharmacist's (lines 708-723).  A button's [onclick] passes the
    row's [appt[0]], the appointment id.

    Every function that posts awaits [fetch] and then shows its fixed
    [alert] and reloads: [fetch] resolves on any HTTP status, so the
    alert does not depend on the answer.  The two editors copy the JSON
    of [GET /billing/<id>] or [GET /diagnosis/<id>] into form elements
    and send the elements' values back; the browser's elements change
    what they are given: a [<select>] set to a value none of its options
    has reads back [''], a text [<input>] drops line feeds and carriage
    returns, a date [<input>] keeps only a valid date string, a
    [<textarea>] turns CR LF and CR into LF (HTML Living Standard, value
    sanitization and API value).  A number [<input>] set to a JSON number
    reads back the same number ([parseFloat(String(x)) === x]), so it is
    kept as a rational here, [None] when the user has cleared it.
    [searchAppointments] reads the first cells of each rendered row
    ([search_rows]); on the joined rows it is a filter on the patient's
    name, mobile number and appointment date, and the two agree. *)

From S2P Require Import Prelude PyStr Dates Schema Txn Auth Fixtures Lifecycle Booking Diagnosis Billing Pages App.
Import PyStr Dates Schema Txn Auth Fixtures Lifecycle Booking Diagnosis Billing Pages App.
Local Open Scope clinic_scope.

Module Scripts.

(** ** JavaScript values and the browser's form elements *)

(** [x || d] on a string: [''] is falsy. *)
Definition js_or (s d : string) : string := if String.eqb s EmptyString then d else s.

(** [x || 0] on a number: [0] is falsy (a JSON number is never [NaN]). *)
Definition js_or_zero (x : Q) : Q := if q_truthy x then x else 0.

(** [parseFloat(input.value) || 0]: an empty number input parses to
    [NaN], which is falsy. *)
Definition parse_number (v : option Q) : Q :=
  match v with Some x => js_or_zero x | None => 0 end.

(** [select.value = v]: the first option with that value is selected; if
    there is none, no option is selected and [select.value] reads ['']. *)
Definition select_value (options : list string) (v : string) : string :=
  if bool_decide (v ∈ options) then v else EmptyString.

Definition LF : ascii := "010"%char.
Definition CR : ascii := "013"%char.

(** [input.value = v] on [<input type="text">]: the value sanitization
    algorithm strips LF and CR. *)
Definition text_input (v : string) : string :=
  string_of_list_ascii
    (List.filter (fun c => negb (Ascii.eqb c LF || Ascii.eqb c CR)) (list_ascii_of_string v)).

(** The textarea line break normalization: CR LF and lone CR become LF.
    [after_cr] says that the previous character was a CR already
    written as LF. *)
Fixpoint normalize_newlines (after_cr : bool) (l : list ascii) : list ascii :=
  match l with
  | [] => []
  | c :: r =>
      if Ascii.eqb c CR then LF :: normalize_newlines true r
      else if after_cr && Ascii.eqb c LF then normalize_newlines false r
      else c :: normalize_newlines false r
  end.

(** [textarea.value = v], read back. *)
Definition textarea (v : string) : string :=
  string_of_list_ascii (normalize_newlines false (list_ascii_of_string v)).

(** The leading ASCII digits of a string and the rest. *)
Fixpoint span_digits (l : list ascii) : list ascii * list ascii :=
  match l with
  | c :: r => if is_digit c then let '(ds, rest) := span_digits r in (c :: ds, rest) else ([], l)
  | [] => ([], [])
  end.

Definition digits_value (l : list ascii) : Z :=
  fold_left (fun acc c => 10 * acc + digit_value c)%Z l 0%Z.

(** A valid date string: four or more digits of a year above 0, a
    hyphen, two digits of a month in 1..12, a hyphen, two digits of a day
    of that month. *)
Definition valid_date_string (v : string) : bool :=
  let '(ys, rest) := span_digits (list_ascii_of_string v) in
  match rest with
  | [h1; m1; m2; h2; d1; d2] =>
      let y := digits_value ys in
      let m := digits_value [m1; m2] in
      let d := digits_value [d1; d2] in
      Ascii.eqb h1 "-" && Ascii.eqb h2 "-" && forallb is_digit [m1; m2; d1; d2] &&
      (4 <=? List.length ys)%nat && (0 <? y)%Z && (1 <=? m)%Z && (m <=? 12)%Z &&
      (1 <=? d)%Z && (d <=? days_in_month y m)%Z
  | _ => false
  end.

(** [input.value = v] on [<input type="date">]: a value that is not a
    valid date string becomes ['']. *)
Definition date_input (v : string) : string :=
  if valid_date_string v then v else EmptyString.

(** ** The billing editor (receptionist, lines 345-388) *)

Definition delivery_types : list string := ["In-Person"; "Courier"].
Definition courier_channels : list string :=
  ["Rapido"; "Porter"; "India Post"; "DTDC"; "BlueDart"; "Others"].

(** The elements of [<div id="billingForm">]. *)
Record billing_form := mk_billing_form {
  billingAppointmentId : string;
  consultationCharge : option Q;
  medicineCharge : option Q;
  courierCharge : option Q;
  deliveryType : string;
  deliveredTo : string;
  courierChannel : string;
  courierTracking : string;
  amountPaid : option Q;
  paymentDate : string;
  paymentId : string;
  discount : option Q
}.

(** A key of [response.json()]: [undefined] when the object lacks it
    (the 403 answer [{"message": ...}]), which [||] treats as the falsy
    [absent]. *)
Definition field {A} (data : option billing_json) (f : billing_json -> A) (absent : A) : A :=
  match data with Some j => f j | None => absent end.

(** [showBillingForm(id)] after [await response.json()]. *)
Definition showBillingForm (id : string) (data : option billing_json) : billing_form :=
  mk_billing_form id
    (Some (js_or_zero (field data bj_consultation_charge 0)))
    (Some (js_or_zero (field data bj_medicine_charge 0)))
    (Some (js_or_zero (field data bj_courier_charge 0)))
    (select_value delivery_types (js_or (field data bj_delivery_type EmptyString) "In-Person"))
    (text_input (js_or (field data bj_delivered_to EmptyString) EmptyString))
    (select_value courier_channels (js_or (field data bj_courier_channel EmptyString) "Rapido"))
    (text_input (js_or (field data bj_courier_tracking EmptyString) EmptyString))
    (Some (js_or_zero (field data bj_amount_paid 0)))
    (date_input (js_or (field data bj_payment_date EmptyString) EmptyString))
    (text_input (js_or (field data bj_payment_id EmptyString) EmptyString))
    (Some (js_or_zero (field data bj_discount 0))).

(** The JSON body [saveBilling()] builds from the form. *)
Definition billing_body (f : billing_form) : billing_payload :=
  mk_billing_payload (Some (parse_number (consultationCharge f)))
    (Some (parse_number (medicineCharge f))) (Some (parse_number (courierCharge f)))
    (Some (deliveryType f)) (Some (deliveredTo f)) (Some (courierChannel f))
    (Some (courierTracking f)) (Some (parse_number (amountPaid f))) (Some (paymentDate f))
    (Some (paymentId f)) (Some (parse_number (discount f))).

(** [saveBilling()]: [POST /billing_prepare/<id>] with that body. *)
Definition saveBilling (f : billing_form) : request :=
  RBillingPrepare (billingAppointmentId f) (billing_body f).

(** ** The diagnosis editor (doctor, lines 547-580) *)

(** The elements of [<div id="doctorForm">]. *)
Record doctor_form := mk_doctor_form {
  appointmentId : string;
  chiefComplaints : string;
  symptoms : string;
  mind : string;
  psychology : string;
  diagnosis : string;
  medicines : string;
  tests : string;
  nextVisit : string
}.

(** [showDoctorForm(id)] after [await response.json()]: [||] turns a
    missing key into ['']. *)
Definition showDoctorForm (id : string) (data : option diagnosis_row) : doctor_form :=
  let f g := match data with Some r => g r | None => EmptyString end in
  mk_doctor_form id
    (textarea (js_or (f d_chief_complaints) EmptyString)) (textarea (js_or (f d_symptoms) EmptyString))
    (textarea (js_or (f d_mind) EmptyString)) (textarea (js_or (f d_psychology) EmptyString))
    (textarea (js_or (f d_diagnosis) EmptyString)) (textarea (js_or (f d_medicines) EmptyString))
    (textarea (js_or (f d_tests) EmptyString)) (date_input (js_or (f d_next_visit) EmptyString)).

(** [saveDiagnosis()]: the JSON body it posts to [/save_diagnosis/<id>]. *)
Definition saveDiagnosis (f : doctor_form) : request :=
  RSaveDiagnosis (appointmentId f)
    (mk_diagnosis_data (chiefComplaints f) (symptoms f) (mind f) (psychology f) (diagnosis f)
       (medicines f) (tests f) (nextVisit f)).

(** ** Buttons and what the page does after a click *)

(** The functions the buttons call, with their arguments. *)
Inductive js_call :=
| JsCheckIn (id status : string)      (** [checkIn] *)
| JsShowBillingForm (id : string)     (** [showBillingForm] *)
| JsHandOverMedicine (id : string)    (** [handOverMedicine] *)
| JsCourierDone (id : string)         (** [courierDone] *)
| JsCompleteCheckout (id : string)    (** [completeCheckout] *)
| JsPrepareMedicine (id : string)     (** [prepareMedicine] *)
| JsShowDoctorForm (id : string).     (** [showDoctorForm] *)

(** The [onclick] of a button of the receptionist's and the
    pharmacist's rows, with [appt[0]], the appointment id. *)
Definition onclick (a : action) (r : joined_row) : js_call :=
  match a with
  | CheckInButton => JsCheckIn (j_id r) "Scheduled"
  | BillingButton => JsShowBillingForm (j_id r)
  | HandOverButton => JsHandOverMedicine (j_id r)
  | CourierDoneButton => JsCourierDone (j_id r)
  | CompleteCheckoutButton => JsCompleteCheckout (j_id r)
  | PrepareMedicineButton => JsPrepareMedicine (j_id r)
  end.

(** The doctor's row has one button, "View/Edit Diagnosis". *)
Definition doctor_onclick (r : joined_row) : js_call := JsShowDoctorForm (j_id r).

(** The request each function sends with [fetch]. *)
Definition fetch_of (c : js_call) : request :=
  match c with
  | JsCheckIn id status => RCheckIn id status
  | JsShowBillingForm id => RGetBilling id
  | JsHandOverMedicine id => RHandOver id
  | JsCourierDone id => RCourierDone id
  | JsCompleteCheckout id => RCompleteCheckout id
  | JsPrepareMedicine id => RPrepareMedicine id
  | JsShowDoctorForm id => RGetDiagnosis id
  end.

(** What the page shows once the function has run. *)
Inductive ui_result :=
| Alerted (text : string)              (** [alert(text)], then [location.reload()] *)
| BillingEditor (f : billing_form)     (** the billing form, filled and shown *)
| DoctorEditor (f : doctor_form)       (** the diagnosis form, filled and shown *)
| ScriptError.                         (** [response.json()] rejected: the form stays hidden *)

(** [await response.json()] in [showBillingForm]: an HTML answer (an
    error page, or the login page a redirect leads to) is not JSON. *)
Definition billing_data (r : response) : option (option billing_json) :=
  match r with
  | JsonBilling j => Some (Some j)
  | JsonMessage _ _ | JsonDiagnosis _ => Some None
  | _ => None
  end.

(** [await response.json()] in [showDoctorForm]. *)
Definition diagnosis_data_of (r : response) : option (option diagnosis_row) :=
  match r with
  | JsonDiagnosis dg => Some (Some dg)
  | JsonMessage _ _ | JsonBilling _ => Some None
  | _ => None
  end.

(** The page's reaction to the answer: the posting functions alert
    their fixed text whatever the answer was. *)
Definition react (c : js_call) (r : response) : ui_result :=
  match c with
  | JsCheckIn _ status => Alerted ("Checked in as " ++ status)
  | JsShowBillingForm id =>
      match billing_data r with Some data => BillingEditor (showBillingForm id data) | None => ScriptError end
  | JsHandOverMedicine _ => Alerted "Medicine handed over"
  | JsCourierDone _ => Alerted "Courier done"
  | JsCompleteCheckout _ => Alerted "Checkout completed"
  | JsPrepareMedicine _ => Alerted "Medicines prepared"
  | JsShowDoctorForm id =>
      match diagnosis_data_of r with Some data => DoctorEditor (showDoctorForm id data) | None => ScriptError end
  end.

(** A click: the request, the server's answer, what the page shows, and
    the database after it. *)
Definition click (sha256 : string -> string) (E : env) (s : session) (c : js_call) (d : db)
  : response * ui_result * db :=
  let '(r, _, d', _) := handle sha256 E (fetch_of c) s d in (r, react c r, d').

(** The "Save Billing" button. *)
Definition save_billing (sha256 : string -> string) (E : env) (s : session) (f : billing_form) (d : db)
  : response * ui_result * db :=
  let '(r, _, d', _) := handle sha256 E (saveBilling f) s d in (r, Alerted "Billing saved", d').

(** The "Save" button of the diagnosis form. *)
Definition save_doctor_form (sha256 : string -> string) (E : env) (s : session) (f : doctor_form) (d : db)
  : response * ui_result * db :=
  let '(r, _, d', _) := handle sha256 E (saveDiagnosis f) s d in
  (r, Alerted "Diagnosis and prescription saved", d').

(** Open the billing form of an appointment and save it untouched. *)
Definition resave_billing (sha256 : string -> string) (E : env) (s : session) (aid : string) (d : db) : db :=
  match click sha256 E s (JsShowBillingForm aid) d with
  | (_, BillingEditor f, d') => (save_billing sha256 E s f d').2
  | (_, _, d') => d'
  end.

(** Open the diagnosis form of an appointment and save it untouched. *)
Definition resave_diagnosis (sha256 : string -> string) (E : env) (s : session) (aid : string) (d : db)
  : db :=
  match click sha256 E s (JsShowDoctorForm aid) d with
  | (_, DoctorEditor f, d') => (save_doctor_form sha256 E s f d').2
  | (_, _, d') => d'
  end.

(** ** The search box (lines 404-413, 581-590 and 714-724) *)

(** [toLowerCase] on one character of U+0000..U+00FF: A-Z and
    U+00C0..U+00DE but U+00D7 move by 32. *)
Definition js_to_lower (c : ascii) : ascii :=
  let n := nat_of_ascii c in
  if (Nat.leb 65 n && Nat.leb n 90) || (Nat.leb 192 n && Nat.leb n 222 && negb (Nat.eqb n 215))
  then ascii_of_nat (n + 32)%nat else c.

Definition to_lower (s : string) : list ascii := map js_to_lower (list_ascii_of_string s).

Fixpoint starts_with (needle hay : list ascii) : bool :=
  match needle, hay with
  | [], _ => true
  | c :: n, h :: t => Ascii.eqb c h && starts_with n t
  | _ :: _, [] => false
  end.

(** [hay.includes(needle)] *)
Fixpoint includes (hay needle : list ascii) : bool :=
  starts_with needle hay || match hay with [] => false | _ :: t => includes t needle end.

(** [searchAppointments()]: the rows left displayed.  The cells read are
    [appt[9]], [appt[10]] and, except on the pharmacist's page,
    [appt[4]]: the patient's name, mobile number and the appointment
    date, whose [textContent] is the column's text. *)
Definition search_hit (with_date : bool) (q : list ascii) (r : joined_row) : bool :=
  includes (to_lower (p_name (j_patient r))) q ||
  includes (to_lower (p_mobile_number (j_patient r))) q ||
  (with_date && includes (to_lower (a_appointment_date (j_appointment r))) q).

Definition searchAppointments (with_date : bool) (input : string) (rows : list joined_row)
  : list joined_row :=
  List.filter (search_hit with_date (to_lower input)) rows.

(** The doctor's page searches the same three cells (lines 581-590),
    the pharmacist's only the name and the mobile number (lines
    714-722). *)
Definition doctor_search (input : string) (rows : list joined_row) : list joined_row :=
  searchAppointments true input rows.
Definition pharmacist_search (input : string) (rows : list joined_row) : list joined_row :=
  searchAppointments false input rows.

(** The same function as written, on the rendered table: for each
    [<tr>], whether it stays displayed, that is whether the
    [textContent] of one of its first [n] cells (3, or 2 on the
    pharmacist's page), lowercased, includes the lowercased input. *)
Definition search_rows (n : nat) (input : string) (rows : list (list cell)) : list bool :=
  let q := to_lower input in
  map (fun cells => existsb (fun c => match cell_text c with
                                     | Some t => includes (to_lower t) q
                                     | None => false
                                     end) (firstn n cells)) rows.

(** The rows whose [style.display] is not ['none']. *)
Definition displayed {A} (rows : list A) (shown : list bool) : list A :=
  map fst (List.filter snd (zip rows shown)).

(** ** Which rows an untouched billing form writes back unchanged *)

(** A REAL column the number input gives back: a nonzero number, or
    the [0] that [x || 0] and [float(x) if x else 0.0] write. *)
Definition num_kept (o : option Q) : bool :=
  match o with
  | Some x => q_truthy x || ((Qnum x =? 0)%Z && (Qden x =? 1)%positive)
  | None => false
  end.

Definition select_kept (options : list string) (o : option string) : bool :=
  match o with Some t => bool_decide (t ∈ options) | None => false end.

Definition text_kept (o : option string) : bool :=
  match o with Some t => String.eqb (text_input t) t | None => false end.

Definition date_kept (o : option string) : bool :=
  match o with Some t => String.eqb (date_input t) t | None => false end.

Definition billing_form_kept (b : billing_row) : bool :=
  num_kept (b_consultation_charge b) && num_kept (b_medicine_charge b) &&
  num_kept (b_courier_charge b) && select_kept delivery_types (b_delivery_type b) &&
  text_kept (b_delivered_to b) && select_kept courier_channels (b_courier_channel b) &&
  text_kept (b_courier_tracking b) && num_kept (b_amount_paid b) &&
  date_kept (b_payment_date b) && text_kept (b_payment_id b) && num_kept (b_discount b).

(** A diagnosis row the doctor's form gives back: texts without a CR,
    and a next visit that is empty or a valid date string. *)
Definition doctor_form_kept (r : diagnosis_row) : bool :=
  forallb (fun t => String.eqb (textarea t) t)
    [d_chief_complaints r; d_symptoms r; d_mind r; d_psychology r; d_diagnosis r;
     d_medicines r; d_tests r] &&
  String.eqb (date_input (d_next_visit r)) (d_next_visit r).

(** A billing form a receptionist fills in before the medicines are
    prepared: a payment reference, no discount. *)
Definition advance_payment : billing_payload :=
  mk_billing_payload (Some 300) None None (Some "In-Person") (Some "Asha") (Some "Rapido") None
                     (Some 300) (Some "2026-11-09") (Some "UPI-77") None.

(** ** Lemmas *)

Lemma js_or_empty (t : string) : js_or t EmptyString = t.
Proof. unfold js_or. by destruct (String.eqb_spec t EmptyString) as [->|]. Qed.

Lemma or_str_empty (t : string) : or_str (Some t) EmptyString = t.
Proof. cbn. by destruct (String.eqb_spec t EmptyString) as [->|]. Qed.

Lemma some_eqb (t u : string) : Some t = Some u <-> String.eqb t u = true.
Proof. rewrite String.eqb_eq. split; congruence. Qed.

Lemma js_or_zero_idem (x : Q) : js_or_zero (js_or_zero x) = js_or_zero x.
Proof. unfold js_or_zero. destruct (q_truthy x) eqn:Hx; [rewrite Hx|]; reflexivity. Qed.

(** What the form gives back, column by column. *)
Lemma num_field_kept (o : option Q) :
  Some (or_zero (Some (parse_number (Some (js_or_zero (default 0 o)))))) = o <-> num_kept o = true.
Proof.
  destruct o as [x|]; cbn [default from_option id]; [|split; [discriminate|done]].
  change (or_zero (Some (parse_number (Some (js_or_zero x))))) with (js_or_zero (js_or_zero (js_or_zero x))).
  rewrite !js_or_zero_idem. unfold js_or_zero, num_kept. destruct (q_truthy x); cbn [orb]; [done|].
  split; [intros [= <-]; reflexivity|]. destruct x as [n dd]; cbn [Qnum Qden orb].
  rewrite andb_true_iff, Z.eqb_eq, Pos.eqb_eq. by intros [-> ->].
Qed.

Lemma text_field_kept (o : option string) :
  Some (or_str (Some (text_input (js_or (default EmptyString o) EmptyString))) EmptyString) = o <->
  text_kept o = true.
Proof.
  destruct o as [t|]; cbn [default from_option id text_kept]; [|split; [discriminate|done]].
  rewrite js_or_empty, or_str_empty. apply some_eqb.
Qed.

Lemma date_field_kept (o : option string) :
  Some (or_str (Some (date_input (js_or (default EmptyString o) EmptyString))) EmptyString) = o <->
  date_kept o = true.
Proof.
  destruct o as [t|]; cbn [default from_option id date_kept]; [|split; [discriminate|done]].
  rewrite js_or_empty, or_str_empty. apply some_eqb.
Qed.

Lemma select_field_kept (options : list string) (absent js_dflt srv_dflt : string) (o : option string) :
  EmptyString ∉ options -> js_dflt ∈ options -> srv_dflt ∈ options \/ srv_dflt = EmptyString ->
  Some (or_str (Some (select_value options (js_or (default absent o) js_dflt))) srv_dflt) = o <->
  select_kept options o = true.
Proof.
  intros Hnil Hjs Hsrv. destruct o as [t|]; cbn [default from_option id select_kept]; [|split; [discriminate|done]].
  rewrite bool_decide_eq_true. unfold js_or, select_value, or_str.
  destruct (String.eqb_spec t EmptyString) as [->|Ht].
  - rewrite bool_decide_true by done.
    destruct (String.eqb_spec js_dflt EmptyString) as [->|]; [done|]. split; [congruence|done].
  - case_bool_decide as Hin; cbn; [|destruct (String.eqb_spec srv_dflt EmptyString)];
      [by destruct (String.eqb_spec t EmptyString) | split; [congruence | done] |
       split; [intros [= ->]; destruct Hsrv; done | done]].
Qed.

Lemma delivery_field_kept (o : option string) :
  Some (or_str (Some (select_value delivery_types (js_or (default "In-Person" o) "In-Person"))) "In-Person") = o <->
  select_kept delivery_types o = true.
Proof. apply select_field_kept; unfold delivery_types; [decide_elem | decide_elem | left; decide_elem]. Qed.

Lemma channel_field_kept (dflt : string) (o : option string) :
  dflt ∈ courier_channels ->
  Some (or_str (Some (select_value courier_channels (js_or (default EmptyString o) dflt))) EmptyString) = o <->
  select_kept courier_channels o = true.
Proof. intros Hd. apply select_field_kept; [unfold courier_channels; decide_elem | done | by right]. Qed.

(** The untouched billing form writes back the row it was filled from
    exactly when every column is one the form gives back. *)
Lemma billing_body_kept (aid : string) (b : billing_row) :
  apply_payload (billing_body (showBillingForm aid (Some (billing_json_of (Some b))))) b = b <->
  billing_form_kept b = true.
Proof.
  destruct b. unfold apply_payload, billing_body, showBillingForm, billing_json_of, field.
  cbn [bj_consultation_charge bj_medicine_charge bj_courier_charge bj_delivery_type bj_delivered_to
    bj_courier_channel bj_courier_tracking bj_amount_paid bj_payment_date bj_payment_id bj_discount
    consultationCharge medicineCharge courierCharge deliveryType deliveredTo courierChannel
    courierTracking amountPaid paymentDate paymentId discount
    bp_consultation_charge bp_medicine_charge bp_courier_charge bp_delivery_type bp_delivered_to
    bp_courier_channel bp_courier_tracking bp_amount_paid bp_payment_date bp_payment_id bp_discount
    b_medicines_prepared b_medicines_handed_over b_couriered b_checkout_done].
  unfold billing_form_kept; cbn [b_consultation_charge b_medicine_charge b_courier_charge b_delivery_type
    b_delivered_to b_courier_channel b_courier_tracking b_amount_paid b_payment_date b_payment_id b_discount].
  rewrite !andb_true_iff, <- !num_field_kept, <- !text_field_kept, <- date_field_kept,
    <- delivery_field_kept.
  lazymatch goal with
  | |- context [select_value courier_channels (js_or _ ?dflt)] =>
      rewrite <- (channel_field_kept dflt) by (unfold courier_channels; decide_elem)
  end.
  split; [intros H; injection H; intros; split_and!; assumption|].
  intros H. destruct_and!. f_equal; assumption.
Qed.

Lemma click_show_billing sha256 E s d aid b :
  forbidden s "receptionist" = false -> billing d !! aid = Some b ->
  click sha256 E s (JsShowBillingForm aid) d =
  (JsonBilling (billing_json_of (Some b)), BillingEditor (showBillingForm aid (Some (billing_json_of (Some b)))), d).
Proof. intros Hs Hb. unfold click, handle. cbn [fetch_of db_handler]. rewrite get_billing_eq, Hs, Hb. reflexivity. Qed.

Lemma save_billing_db sha256 E s f d :
  forbidden s "receptionist" = false ->
  (save_billing sha256 E s f d).2 =
  update_billing (billingAppointmentId f) (apply_payload (billing_body f)) (ensure_billing (billingAppointmentId f) d).
Proof. intros Hs. unfold save_billing, saveBilling, handle. cbn [db_handler]. by rewrite billing_prepare_run_db. Qed.

Lemma click_show_doctor sha256 E s d aid :
  forbidden s "doctor" = false ->
  click sha256 E s (JsShowDoctorForm aid) d =
  (JsonDiagnosis (default empty_diagnosis (diagnoses d !! aid)),
   DoctorEditor (showDoctorForm aid (Some (default empty_diagnosis (diagnoses d !! aid)))), d).
Proof. intros Hs. unfold click, handle. cbn [fetch_of db_handler]. rewrite get_diagnosis_run, Hs. reflexivity. Qed.

Lemma save_doctor_form_db sha256 E s f d aid :
  forbidden s "doctor" = false -> appointmentId f = aid ->
  diagnoses (save_doctor_form sha256 E s f d).2 !! aid =
  Some (diagnosis_row_of (mk_diagnosis_data (chiefComplaints f) (symptoms f) (mind f) (psychology f)
                            (diagnosis f) (medicines f) (tests f) (nextVisit f))).
Proof.
  intros Hs <-. unfold save_doctor_form, saveDiagnosis, handle. cbn [db_handler].
  rewrite save_diagnosis_eq, Hs. cbv zeta.
  assert (Hd : forall d1, diagnoses d1 = diagnoses (ensure_billing (appointmentId f) d1))
    by (intros d1; unfold ensure_billing; by destruct (billing d1 !! _)).
  destruct (Z.eqb _ 0); [|destruct (select_mobile d _)]; cbn [fst snd]; rewrite <- Hd; apply lookup_insert_eq.
Qed.

(** The untouched diagnosis form writes back a row whose flags derive
    from its text exactly when its texts have no CR and its next visit
    is empty or a valid date string. *)
Lemma doctor_form_resave sha256 E s d aid r :
  forbidden s "doctor" = false -> diagnoses d !! aid = Some r ->
  d_diagnosis_saved r = 1%Z -> d_medicines_prescribed r = prescribed_of (d_medicines r) ->
  diagnoses (resave_diagnosis sha256 E s aid d) !! aid = Some r <-> doctor_form_kept r = true.
Proof.
  intros Hs Hr Hsaved Hpres. unfold resave_diagnosis. rewrite click_show_doctor, Hr by done.
  cbv iota. rewrite (save_doctor_form_db _ _ _ _ _ aid Hs) by reflexivity. destruct r; cbn in *; subst.
  unfold doctor_form_kept, diagnosis_row_of; cbn -[textarea date_input prescribed_of]. rewrite !js_or_empty, !andb_true_iff, !String.eqb_eq.
  split; [intros H; injection H; intros; split_and!; first [assumption | reflexivity]|].
  intros H. destruct_and!. f_equal; first [assumption | congruence].
Qed.

Lemma includes_nil (hay : list ascii) : includes hay [] = true.
Proof. by destruct hay. Qed.

(** An empty search box shows every row. *)
Lemma searchAppointments_empty with_date rows : searchAppointments with_date EmptyString rows = rows.
Proof.
  unfold searchAppointments. cbv zeta. change (to_lower EmptyString) with (@nil ascii).
  induction rows as [|r rows IH]; cbn [List.filter]; [done|]. rewrite IH.
  unfold search_hit. by rewrite !includes_nil.
Qed.

Lemma displayed_map {A} (f : A -> bool) (rows : list A) : displayed rows (map f rows) = List.filter f rows.
Proof.
  unfold displayed. induction rows as [|r rows IH]; cbn; [done|].
  destruct (f r); cbn; by rewrite IH.
Qed.

Lemma search_rows_hit (n : nat) (row : joined_row -> list cell) (with_date : bool) input rows :
  (forall r, existsb (fun c => match cell_text c with
                              | Some t => includes (to_lower t) (to_lower input)
                              | None => false
                              end) (firstn n (row r)) = search_hit with_date (to_lower input) r) ->
  search_rows n input (map row rows) = map (search_hit with_date (to_lower input)) rows.
Proof. intros H. unfold search_rows. rewrite map_map. apply map_ext, H. Qed.

(** The first cells of a rendered row hold the patient's name, mobile
    number and appointment date, which the script reads. *)
Ltac search_cells :=
  intros; unfold doctor_search, pharmacist_search, searchAppointments; rewrite <- displayed_map;
  f_equal; apply search_rows_hit; intros r;
  unfold search_hit, appt, columns; simpl; repeat destruct (includes _ _); reflexivity.

(** [searchAppointments] on the table the templates render hides and
    shows the rows [searchAppointments] on the joined rows keeps. *)
Lemma receptionist_search_rendered input rows :
  displayed rows (search_rows 3 input (map receptionist_row rows)) = searchAppointments true input rows.
Proof. search_cells. Qed.

Lemma doctor_search_rendered input rows :
  displayed rows (search_rows 3 input (map doctor_row rows)) = doctor_search input rows.
Proof. search_cells. Qed.

Lemma pharmacist_search_rendered input rows :
  displayed rows (search_rows 2 input (map pharmacist_row rows)) = pharmacist_search input rows.
Proof. search_cells. Qed.


(** The first save of a placeholder row's form records the select's
    default courier channel, ['Rapido'], for an in-person visit. *)
Example placeholder_resave_rapido :
  let d := db_of (prepare_medicine pharmacist "A1") demo_env booked in
  (billing (resave_billing (fun x => x) demo_env receptionist "A1" d) !! "A1") ≫= b_courier_channel =
  Some "Rapido".
Proof. vm_compute. reflexivity. Qed.

(** After a billing form with a payment reference and no discount is
    saved for an appointment whose medicines are not prepared, the
    receptionist's row offers "Hand Over Medicine" (the template reads
    [payment_id] and [discount] where it means the flags); the click is
    refused with 400, and the page still alerts "Medicine handed over". *)
Example hand_over_refused_but_alerted :
  let d := db_of (billing_prepare receptionist "A1" advance_payment) demo_env booked in
  map receptionist_actions (dashboard_rows d) = [[CheckInButton; BillingButton; HandOverButton]] /\
  map (fun r => click (fun x => x) demo_env receptionist (onclick HandOverButton r) d) (dashboard_rows d) =
    [(JsonMessage 400 "Medicines not prepared yet", Alerted "Medicine handed over", d)].
Proof. split; vm_compute; reflexivity. Qed.

(** Searching is case-insensitive; the pharmacist's page does not
    search the appointment date. *)
Example search_by_name_and_date :
  doctor_search "ASHA" (dashboard_rows booked) = dashboard_rows booked /\
  doctor_search "2026-11-10" (dashboard_rows booked) = dashboard_rows booked /\
  pharmacist_search "2026-11-10" (dashboard_rows booked) = [].
Proof. split_and!; vm_compute; reflexivity. Qed.

(** ** Theorems *)

(** C40: a receptionist who opens the billing form of an appointment
    ("Billing", [showBillingForm]) and saves it without touching it
    ("Save Billing", [saveBilling]) leaves a billing row [b'] that is
    the row [b] it was filled from exactly when every column of [b] is
    one the form gives back: a nonzero charge or payment or the [0]
    written for a falsy one, a delivery type and a courier channel among
    the select's options, texts without line breaks, and an empty or
    valid payment date.  Otherwise the save changes the row: a NULL or
    empty courier channel becomes ['Rapido'] (the select's first option,
    so an in-person visit is recorded as sent by Rapido), a NULL or
    empty delivery type ['In-Person'], every NULL charge, payment or
    discount [0]; the four progress flags are kept. *)
Theorem billing_form_resave sha256 E s d aid b :
  forbidden s "receptionist" = false -> billing d !! aid = Some b ->
  exists b', billing (resave_billing sha256 E s aid d) !! aid = Some b' /\
    (b' = b <-> billing_form_kept b = true) /\
    (b_courier_channel b = None \/ b_courier_channel b = Some EmptyString ->
     b_courier_channel b' = Some "Rapido") /\
    (b_delivery_type b = None \/ b_delivery_type b = Some EmptyString ->
     b_delivery_type b' = Some "In-Person") /\
    Forall (fun col : billing_row -> option Q => col b = None -> col b' = Some 0)
      [b_consultation_charge; b_medicine_charge; b_courier_charge; b_amount_paid; b_discount] /\
    (b_medicines_prepared b', b_medicines_handed_over b', b_couriered b', b_checkout_done b') =
    (b_medicines_prepared b, b_medicines_handed_over b, b_couriered b, b_checkout_done b).
Proof.
  intros Hs Hb. unfold resave_billing. rewrite (click_show_billing _ _ _ _ _ b), save_billing_db by done.
  cbn [billingAppointmentId showBillingForm]. rewrite billing_after_prepare, Hb. cbn [default from_option id].
  eexists. split; [reflexivity|]. split; [apply billing_body_kept|].
  destruct b as [cc mc kc dt dto ch tr ap pd pid dis f1 f2 f3 f4]; cbn [b_courier_channel b_delivery_type].
  split_and!.
  - intros [-> | ->]; reflexivity.
  - intros [-> | ->]; reflexivity.
  - repeat constructor; cbn; intros ->; reflexivity.
  - reflexivity.
Qed.

(** ** Witnesses *)

Lemma billing_form_resave_witness :
  let d := db_of (prepare_medicine pharmacist "A1") demo_env booked in
  exists b', billing (resave_billing (fun x => x) demo_env receptionist "A1" d) !! "A1" = Some b' /\
    (b' = set_prepared placeholder_billing <-> billing_form_kept (set_prepared placeholder_billing) = true) /\
    (b_courier_channel (set_prepared placeholder_billing) = None \/
     b_courier_channel (set_prepared placeholder_billing) = Some EmptyString ->
     b_courier_channel b' = Some "Rapido") /\
    (b_delivery_type (set_prepared placeholder_billing) = None \/
     b_delivery_type (set_prepared placeholder_billing) = Some EmptyString ->
     b_delivery_type b' = Some "In-Person") /\
    Forall (fun col : billing_row -> option Q => col (set_prepared placeholder_billing) = None -> col b' = Some 0)
      [b_consultation_charge; b_medicine_charge; b_courier_charge; b_amount_paid; b_discount] /\
    (b_medicines_prepared b', b_medicines_handed_over b', b_couriered b', b_checkout_done b') =
    (b_medicines_prepared (set_prepared placeholder_billing),
     b_medicines_handed_over (set_prepared placeholder_billing),
     b_couriered (set_prepared placeholder_billing), b_checkout_done (set_prepared placeholder_billing)).
Proof. apply billing_form_resave; reflexivity. Defined.

End Scripts.
