(* ===== verification/Mirrors.v ===== *)
(** * The CSV mirrors of the tables

    After its commit, a handler calls
    [save_to_csv(table, pd.read_sql_query("SELECT * FROM table", sqlite3.connect('clinic.db')).to_dict('records'))]
    (lines 53-55 and, for instance, 847): a fresh connection reads the
    committed table and [df.to_csv] overwrites [uploads/<table>.csv].
    The effect [CsvMirror t snapshot] of [Txn.v] carries the database as
    committed when it was read; the files are a map from table name to
    the snapshot last written, of which the file holds table [t] (the CSV
    text pandas writes, one line per row with its columns, is not
    modelled: the row order of [SELECT *] and the float formatting are
    not part of any claim).

    [init_db] runs at start-up; a server handling one request at a time
    is the relation [sys_reach] over the first start, restarts and
    requests.

    The theorems: every request, run on its own, leaves the file of
    every table it changed holding that table as committed, except a
    [save_diagnosis] that fails with a server error, which it does after
    its commit and before its mirrors; so for one request at a time
    every state reached without such a failure has its mirrors in sync.
    [app.run()] serves requests on threads, and the mirrors are not
    written in the transaction: a request that read its snapshot before
    another's commit and writes it after leaves the file stale
    ([mirror_race]). *)

From S2P Require Import Prelude Dates Schema Txn Auth Fixtures Lifecycle Booking Diagnosis Billing App.
Import Dates Schema Txn Auth Fixtures Lifecycle Booking Diagnosis Billing App.
Local Open Scope clinic_scope.

Module Mirrors.

(** The tables the handlers mirror. *)
Definition mirrored_tables : list string := ["patients"; "appointments"; "diagnoses"; "billing"].

(** The files [uploads/<table>.csv]: the snapshot each was last written
    from; a table never mirrored has no file. *)
Abbreviation files := (gmap string db) (only parsing).

(** [df.to_csv(f'{UPLOAD_FOLDER}/{table_name}.csv')]: the file of the
    table is overwritten; the other effects write no file. *)
Definition write_effect (F : files) (e : effect) : files :=
  match e with
  | CsvMirror t snapshot => <[t := snapshot]> F
  | _ => F
  end.

Definition write_effects (F : files) (effs : list effect) : files := fold_left write_effect effs F.

(** Some effect of [effs] writes the file of table [t]. *)
Definition writes_table (t : string) (effs : list effect) : bool :=
  existsb (fun e => match e with CsvMirror u _ => String.eqb u t | _ => false end) effs.

(** Table [t] is the same in both databases. *)
Definition table_eq (t : string) (d1 d2 : db) : Prop :=
  if String.eqb t "patients" then patients d1 = patients d2
  else if String.eqb t "appointments" then appointments d1 = appointments d2
  else if String.eqb t "diagnoses" then diagnoses d1 = diagnoses d2
  else if String.eqb t "billing" then billing d1 = billing d2
  else True.

(** Every mirror holds its table as it is in [d]; a table without a file
    is empty. *)
Definition csv_in_sync (d : db) (F : files) : Prop :=
  Forall (fun t => table_eq t (default empty_db (F !! t)) d) mirrored_tables.

(** What one request must do for the mirrors: every snapshot it writes
    is the database it leaves committed, and every mirrored table it
    changed is written. *)
Definition snapshots_are (d' : db) (effs : list effect) : Prop :=
  Forall (fun e => match e with CsvMirror _ snap => snap = d' | _ => True end) effs.

Definition mirror_ok (d d' : db) (effs : list effect) : Prop :=
  snapshots_are d' effs /\
  Forall (fun t => writes_table t effs = true \/ table_eq t d d') mirrored_tables.

Definition handler_mirror_ok (h : txn response) : Prop :=
  forall E d, mirror_ok d (db_of h E d) (effects_of h E d).

#[export] Instance table_eq_dec t d1 d2 : Decision (table_eq t d1 d2).
Proof. unfold table_eq. repeat case_match; apply _. Defined.

#[export] Instance csv_in_sync_dec d F : Decision (csv_in_sync d F).
Proof. unfold csv_in_sync. apply _. Defined.

(** Requests served one after the other by the process, against the
    database and the files. *)
Fixpoint replay_files (sha256 : string -> string) (E : env) (script : list (session * request))
  (d : db) (F : files) : db * files :=
  match script with
  | [] => (d, F)
  | (s, req) :: rest =>
      let '(_, _, d', effs) := handle sha256 E req s d in
      replay_files sha256 E rest d' (write_effects F effs)
  end.

(** [init_db()], run when the module is imported (lines 15-50): each
    [CREATE TABLE IF NOT EXISTS] leaves a stored table as it is and
    creates a missing one empty (the four are created together by the
    same commit), then [users.csv] is rewritten with the three accounts
    of [Auth.users].  No table mirror is written. *)
Definition init_db (sha256 : string -> string) (stored : option db)
  : db * list (string * string * string) :=
  (default empty_db stored, users sha256).

(** A request that fails after [save_diagnosis] has committed. *)
Definition save_failed (req : request) (r : response) : bool :=
  match req, r with
  | RSaveDiagnosis _ _, ServerError _ => true
  | _, _ => false
  end.

(** The states of the deployment: the database and the files, from the
    first start on an empty [uploads/] through restarts and requests of
    any client, with a flag that stays [true] as long as no
    [save_diagnosis] has failed after its commit. *)
Inductive sys_reach (sha256 : string -> string) : bool -> db -> files -> Prop :=
| reach_boot : sys_reach sha256 true (init_db sha256 None).1 ∅
| reach_restart ok d F :
    sys_reach sha256 ok d F -> sys_reach sha256 ok (init_db sha256 (Some d)).1 F
| reach_request ok d F E req s r s' d' effs :
    sys_reach sha256 ok d F -> handle sha256 E req s d = (r, s', d', effs) ->
    sys_reach sha256 (ok && negb (save_failed req r)) d' (write_effects F effs).

(** ** Lemmas *)

Lemma write_effects_lookup F effs d' t :
  snapshots_are d' effs ->
  write_effects F effs !! t = if writes_table t effs then Some d' else F !! t.
Proof.
  unfold write_effects. revert F.
  induction effs as [|e effs IH]; intros F Hsnap; cbn [fold_left writes_table existsb]; [done|].
  inversion_clear Hsnap as [|? ? He Hrest]. rewrite IH by done.
  destruct e as [m msg|u snap|aid q]; cbn; [done| |done].
  cbn in He. subst snap.
  fold (writes_table t effs).
  destruct (String.eqb_spec u t) as [->|Hne]; cbn [orb];
    destruct (writes_table t effs); try done.
  - by rewrite lookup_insert_eq.
  - by rewrite lookup_insert_ne.
Qed.

Lemma table_eq_refl t d : table_eq t d d.
Proof. unfold table_eq. by repeat case_match. Qed.

Lemma table_eq_trans t d1 d2 d3 : table_eq t d1 d2 -> table_eq t d2 d3 -> table_eq t d1 d3.
Proof. unfold table_eq. repeat case_match; congruence. Qed.

(** A request keeps the mirrors in sync when every mirror it writes
    holds its final database and every table it changed is mirrored. *)
Lemma sync_write d d' F effs :
  csv_in_sync d F -> mirror_ok d d' effs -> csv_in_sync d' (write_effects F effs).
Proof.
  unfold csv_in_sync. intros Hsync [Hsnap Hcov]. rewrite !Forall_forall in Hsync, Hcov |- *.
  intros t Ht. rewrite (write_effects_lookup F effs d') by done.
  destruct (writes_table t effs) eqn:Hw; [apply table_eq_refl|].
  destruct (Hcov t Ht) as [?|Heq]; [congruence|]. eauto using table_eq_trans.
Qed.

Lemma mirror_ok_same d : mirror_ok d d [].
Proof. split; [constructor|]. apply Forall_forall. intros. right. apply table_eq_refl. Qed.

(** Discharge [mirror_ok] on an explicit list of effects. *)
Ltac mirror_ok_solve :=
  cbn [fst snd app]; try apply mirror_ok_same;
  unfold mirror_ok, snapshots_are, mirrored_tables; split;
  repeat apply List.Forall_cons; try apply List.Forall_nil;
  first
    [ exact I | reflexivity
    | left; reflexivity
    | right; unfold table_eq; cbn [String.eqb Ascii.eqb Bool.eqb andb];
      cbn [patients appointments diagnoses billing update_billing update_checkin
           replace_diagnosis update_patient];
      autorewrite with clinic_rw; cbn [patients appointments diagnoses billing update_patient];
      reflexivity ].

(** A handler whose every branch is given by its [_eq] lemma. *)
Ltac mirror_by H :=
  intros ? ?; unfold db_of, effects_of; rewrite H; repeat case_match; mirror_ok_solve.

(** Both booking paths, after the guard: every branch before the commit
    leaves [d] and emits nothing; the committed branch mirrors. *)
Ltac booking_mirror_ok :=
  txn_simpl; rewrite upsert_patient_run; unfold parse_date, insert_patient;
  destruct (select_patient_by_mobile _ _); txn_simpl;
    [|destruct (patients _ !! _); txn_simpl; [mirror_ok_solve|]];
    (destruct (strptime_ymd _); txn_simpl; [mirror_ok_solve|]);
    (destruct (same_day_direct _ _ _); txn_simpl; [mirror_ok_solve|]);
    (lazymatch goal with
     | |- context [insert_appointment ?k _ ?w] =>
         unfold insert_appointment; destruct (appointments w !! k); txn_simpl; [mirror_ok_solve|]
     end);
    rewrite booking_notifications_run; unfold list_dashboard; txn_simpl;
    unfold notification_effects; destruct (negb _); mirror_ok_solve.

Lemma prepare_medicine_mirror_ok s aid : handler_mirror_ok (prepare_medicine s aid).
Proof. mirror_by prepare_medicine_eq. Qed.

Lemma hand_over_medicine_mirror_ok s aid : handler_mirror_ok (hand_over_medicine s aid).
Proof. mirror_by hand_over_medicine_eq. Qed.

Lemma courier_done_mirror_ok s aid : handler_mirror_ok (courier_done s aid).
Proof. mirror_by courier_done_eq. Qed.

Lemma complete_checkout_mirror_ok s aid : handler_mirror_ok (complete_checkout s aid).
Proof. mirror_by complete_checkout_eq. Qed.

Lemma check_in_mirror_ok s aid status : handler_mirror_ok (check_in s aid status).
Proof. mirror_by check_in_eq. Qed.

Lemma get_diagnosis_mirror_ok s aid : handler_mirror_ok (get_diagnosis s aid).
Proof. mirror_by get_diagnosis_run. Qed.

Lemma get_billing_mirror_ok s aid : handler_mirror_ok (get_billing s aid).
Proof. mirror_by get_billing_eq. Qed.

Lemma billing_prepare_mirror_ok s aid p : handler_mirror_ok (billing_prepare s aid p).
Proof.
  intros E d. unfold db_of, effects_of. destruct (forbidden s "receptionist") eqn:Hs.
  - unfold billing_prepare, guard_json. rewrite Hs. txn_simpl. mirror_ok_solve.
  - rewrite billing_prepare_run_db by done. mirror_ok_solve.
Qed.

Lemma doctor_dashboard_mirror_ok s : handler_mirror_ok (doctor_dashboard s).
Proof.
  intros E d. unfold db_of, effects_of, doctor_dashboard, guard_page, list_dashboard.
  destruct (forbidden _ _); txn_simpl; mirror_ok_solve.
Qed.

Lemma pharmacist_dashboard_mirror_ok s : handler_mirror_ok (pharmacist_dashboard s).
Proof.
  intros E d. unfold db_of, effects_of, pharmacist_dashboard, guard_page.
  destruct (forbidden _ _); txn_simpl; mirror_ok_solve.
Qed.

Lemma book_appointment_mirror_ok s data : handler_mirror_ok (book_appointment s data).
Proof.
  intros E d. unfold db_of, effects_of, book_appointment, guard_json.
  destruct (forbidden _ _); [txn_simpl; mirror_ok_solve|]. booking_mirror_ok.
Qed.

Lemma receptionist_dashboard_mirror_ok s q : handler_mirror_ok (receptionist_dashboard s q).
Proof.
  intros E d. unfold db_of, effects_of, receptionist_dashboard, guard_page.
  destruct (forbidden _ _); [txn_simpl; mirror_ok_solve|].
  destruct q as [|data]; [unfold list_dashboard; txn_simpl; mirror_ok_solve|]. booking_mirror_ok.
Qed.

(** [save_diagnosis] mirrors both tables it writes, unless it fails
    after its commit. *)
Lemma save_diagnosis_mirror_ok s aid data E d :
  mirror_ok d (db_of (save_diagnosis s aid data) E d) (effects_of (save_diagnosis s aid data) E d) \/
  exists e, response_of (save_diagnosis s aid data) E d = ServerError e.
Proof.
  unfold db_of, effects_of, response_of. rewrite save_diagnosis_eq.
  repeat case_match; cbn [fst snd]; try (right; by eexists); left; mirror_ok_solve.
Qed.

Lemma handle_run_mirror_ok h E d (s : session) :
  handler_mirror_ok h ->
  mirror_ok d (let '(r, d', effs) := run h E d in (r, s, d', effs)).1.2
              (let '(r, d', effs) := run h E d in (r, s, d', effs)).2.
Proof. intros H. specialize (H E d). unfold db_of, effects_of in H. by destruct (run h E d) as [[r d'] effs]. Qed.

(** One request from a reachable state, its outcome left symbolic. *)
Lemma reach_handle sha256 ok d F E req s :
  sys_reach sha256 ok d F ->
  sys_reach sha256 (ok && negb (save_failed req (handle sha256 E req s d).1.1.1))
    (handle sha256 E req s d).1.2 (write_effects F (handle sha256 E req s d).2).
Proof. intros H. destruct (handle sha256 E req s d) as [[[r s'] d'] effs] eqn:Hh. by eapply reach_request. Qed.

(** ** The mirrors follow the database *)

(** What every request does for the mirrors, read off its handler. *)
Lemma handle_mirror_ok sha256 E req s d :
  mirror_ok d (handle sha256 E req s d).1.2 (handle sha256 E req s d).2 \/
  exists aid data e, req = RSaveDiagnosis aid data /\ (handle sha256 E req s d).1.1.1 = ServerError e.
Proof.
  unfold handle. destruct req as [form| | | | | | | |aid data| | | | | |]; cbn [db_handler];
    try (left; apply handle_run_mirror_ok; solve [auto using prepare_medicine_mirror_ok,
      hand_over_medicine_mirror_ok, courier_done_mirror_ok, complete_checkout_mirror_ok,
      check_in_mirror_ok, get_diagnosis_mirror_ok, get_billing_mirror_ok,
      billing_prepare_mirror_ok, doctor_dashboard_mirror_ok, pharmacist_dashboard_mirror_ok,
      book_appointment_mirror_ok, receptionist_dashboard_mirror_ok]).
  - destruct (login sha256 s form). left. apply mirror_ok_same.
  - destruct (logout s). left. apply mirror_ok_same.
  - destruct (save_diagnosis_mirror_ok s aid data E d) as [Hok|[e He]];
      unfold db_of, effects_of, response_of in *;
      destruct (run (save_diagnosis s aid data) E d) as [[r d'] effs]; cbn in *; [by left|].
    right. eauto.
Qed.

(** After the writes of a request that does what [mirror_ok] asks, the
    file of each table it changed holds that table as committed. *)
Lemma mirror_ok_files d d' F effs :
  mirror_ok d d' effs ->
  Forall (fun t => table_eq t d d' \/ table_eq t (default empty_db (write_effects F effs !! t)) d')
    mirrored_tables.
Proof.
  intros [Hsnap Hcov]. rewrite Forall_forall in Hcov |- *. intros t Ht.
  rewrite (write_effects_lookup F effs d') by done.
  destruct (writes_table t effs) eqn:Hw; [right; apply table_eq_refl|].
  destruct (Hcov t Ht) as [?|?]; [congruence|by left].
Qed.

(** C6: every request, run on its own, leaves the CSV file of each
    table it changed holding that table exactly as the request
    committed it, whatever the files held before: each handler mirrors,
    after its commit, every table it writes, reading it back from the
    committed database.  The one exception is a [save_diagnosis] that
    fails with a server error, which it does after committing and
    before mirroring.  (Requests served concurrently can still leave a
    mirror stale: see [mirror_race].) *)
Theorem handle_mirrors_changed_tables sha256 E req s d F :
  let '(r, _, d', effs) := handle sha256 E req s d in
  Forall (fun t => table_eq t d d' \/ table_eq t (default empty_db (write_effects F effs !! t)) d')
    mirrored_tables \/
  exists aid data e, req = RSaveDiagnosis aid data /\ r = ServerError e.
Proof.
  pose proof (handle_mirror_ok sha256 E req s d) as Hok.
  destruct (handle sha256 E req s d) as [[[r s'] d'] effs]; cbn in Hok.
  destruct Hok as [Hok|Hsave]; [left; by apply mirror_ok_files | by right].
Qed.

(** Every request keeps every CSV mirror equal to its table when the
    mirrors were equal to the tables before, with the same exception. *)
Lemma handle_keeps_csv_in_sync sha256 E req s d F :
  csv_in_sync d F ->
  let '(r, _, d', effs) := handle sha256 E req s d in
  csv_in_sync d' (write_effects F effs) \/
  exists aid data e, req = RSaveDiagnosis aid data /\ r = ServerError e.
Proof.
  intros Hsync. pose proof (handle_mirror_ok sha256 E req s d) as Hok.
  destruct (handle sha256 E req s d) as [[[r s'] d'] effs]; cbn in Hok.
  destruct Hok as [Hok|Hsave]; [left; by eapply sync_write | by right].
Qed.

(** For a server that handles one request at a time (the sequence of
    [sys_reach]), every state reached without a failed [save_diagnosis]
    has every CSV mirror equal to its table in [clinic.db]: the first
    start has no mirror and empty tables, a restart keeps the stored
    tables ([IF NOT EXISTS]), and every request mirrors what it changes.
    [app.run()] serves requests on threads, where this fails
    ([mirror_race]). *)
Lemma sys_reach_csv_in_sync sha256 d F :
  sys_reach sha256 true d F -> csv_in_sync d F.
Proof.
  enough (forall ok, sys_reach sha256 ok d F -> ok = true -> csv_in_sync d F) by eauto.
  induction 1 as [|ok d F _ IH|ok d F E req s r s' d' effs _ IH Hh]; intros Hok.
  - apply Forall_forall. intros t _. apply table_eq_refl.
  - by apply IH.
  - apply andb_prop in Hok as [-> Hsf].
    pose proof (handle_keeps_csv_in_sync sha256 E req s d F (IH eq_refl)) as Hs.
    rewrite Hh in Hs. destruct Hs as [Hs|(aid & data & e & -> & ->)]; [done|].
    discriminate Hsf.
Qed.

(** Two check-ins of the same appointment served on two threads, from
    a database whose files are in sync: the first commits and reads its
    snapshot of [appointments], the second commits, reads and writes
    its own, then the first writes its older snapshot.  No request
    failed, and [appointments.csv] no longer holds the table (the
    divergence spec section 5 allows). *)
Example mirror_race :
  csv_in_sync booked (<["patients" := booked]> (<["appointments" := booked]>
                       (<["diagnoses" := booked]> (<["billing" := booked]> ∅)))) /\
  ~ csv_in_sync
      (handle (fun x => x) demo_env (RCheckIn "A1" "Late") receptionist
         (handle (fun x => x) demo_env (RCheckIn "A1" "Scheduled") receptionist booked).1.2).1.2
      (write_effects
         (write_effects (<["patients" := booked]> (<["appointments" := booked]>
                          (<["diagnoses" := booked]> (<["billing" := booked]> ∅))))
            (handle (fun x => x) demo_env (RCheckIn "A1" "Late") receptionist
               (handle (fun x => x) demo_env (RCheckIn "A1" "Scheduled") receptionist booked).1.2).2)
         (handle (fun x => x) demo_env (RCheckIn "A1" "Scheduled") receptionist booked).2).
Proof. split; apply (bool_decide_unpack _); vm_compute; reflexivity. Qed.

(** The visit of spec section 8, served from an empty database and no
    files, leaves every mirror equal to its table. *)
Example visit_script_files_in_sync :
  csv_in_sync (replay_files (fun x => x) demo_env (visit_script true) empty_db ∅).1
              (replay_files (fun x => x) demo_env (visit_script true) empty_db ∅).2.
Proof. apply (bool_decide_unpack _). vm_compute. reflexivity. Qed.

(** A prescription saved for an appointment that does not exist: the
    diagnosis and the placeholder billing row are committed, the lookup
    of the mobile number fails, and no file is written, so the mirrors
    (none yet) no longer hold the tables. *)
Example orphan_prescription_desyncs :
  let out := handle (fun x => x) demo_env (RSaveDiagnosis "A9" amoxicillin) doctor empty_db in
  out.1.1.1 = ServerError (TypeError "'NoneType' object is not subscriptable") /\
  out.2 = [] /\ ~ csv_in_sync out.1.2 (write_effects ∅ out.2).
Proof.
  cbv zeta. split_and!; [vm_compute; reflexivity | vm_compute; reflexivity |].
  apply (bool_decide_unpack _). vm_compute. reflexivity.
Qed.

Lemma sys_reach_csv_in_sync_example :
  let out := handle (fun x => x) demo_env (RBookAppointment walk_in_tomorrow) receptionist
                    (init_db (fun x => x) None).1 in
  sys_reach (fun x => x) true out.1.2 (write_effects ∅ out.2) /\
  csv_in_sync out.1.2 (write_effects ∅ out.2).
Proof.
  cbv zeta.
  assert (Hr : sys_reach (fun x => x) true
    (handle (fun x => x) demo_env (RBookAppointment walk_in_tomorrow) receptionist
            (init_db (fun x => x) None).1).1.2
    (write_effects ∅ (handle (fun x => x) demo_env (RBookAppointment walk_in_tomorrow) receptionist
                             (init_db (fun x => x) None).1).2)).
  { pose proof (reach_handle (fun x => x) _ _ _ demo_env (RBookAppointment walk_in_tomorrow)
                 receptionist (reach_boot _)) as H.
    match type of H with sys_reach _ ?b _ _ => replace b with true in H by (vm_compute; reflexivity) end.
    exact H. }
  split; [exact Hr | apply (sys_reach_csv_in_sync _ _ _ Hr)].
Defined.

End Mirrors.
