(* ===== verification/Routing.v ===== *)
(** * Flask's URL map: from method, path and body to a handler

    Each view of [src/app.py] is registered by its decorator
    [@app.route(rule, methods=...)] (lines 61, 101, 107, 419, 596, 728,
    769, 788, 810, 833, 850, 877, 908, 928, 951); its endpoint is the
    name of the decorated function.  Werkzeug splits the request path at
    ['/'] and matches it against the rules: a literal segment matches
    itself, a [<name>] (the default converter, [[^/]+]) any non-empty
    segment, which becomes the view's keyword argument.  A path matched
    by no rule answers 404; a path matched only by rules without the
    request's method answers 405.  A rule that does not end in ['/']
    matches no path with a trailing ['/'].

    The view then reads its body: [request.form] on the login and
    receptionist pages, [request.json] on [book_appointment],
    [save_diagnosis] and [billing_prepare].  The body is modelled as
    already parsed into the data each handler reads; a body of another
    shape is not modelled (the handler's guard runs first and the access
    to the body then raises).

    The theorems: every [fetch] of the pages' scripts reaches the view
    that [Scripts.fetch_of] assumes, with its arguments, whenever the
    appointment id is made of URL-unreserved characters, as a [uuid4]
    string is; every endpoint a redirect names is served by a GET rule. *)

From S2P Require Import Prelude PyStr Dates Schema Txn Auth Fixtures Booking Diagnosis Billing App Scripts.
Import PyStr Dates Schema Txn Auth Fixtures Booking Diagnosis Billing App Scripts.
Local Open Scope clinic_scope.

Module Routing.

Inductive http_method := GET | POST.

#[export] Instance http_method_eq_dec : EqDecision http_method.
Proof. solve_decision. Defined.

(** ** Rules *)

(** A segment of a rule. *)
Inductive segment :=
| Lit (text : string)
| Var (name : string).

(** [path.split('/')]: the segments of a path after its leading ['/']. *)
Fixpoint split_slash (s : string) : list string :=
  match s with
  | EmptyString => [EmptyString]
  | String c rest =>
      let segs := split_slash rest in
      if Ascii.eqb c "/" then EmptyString :: segs
      else match segs with
           | seg :: more => String c seg :: more
           | [] => [String c EmptyString]
           end
  end.

Definition path_segments (path : string) : option (list string) :=
  match path with
  | String "/" rest => Some (split_slash rest)
  | _ => None
  end.

(** A segment of the rule text: [<name>] or literal text. *)
Definition segment_of (text : string) : segment :=
  match text with
  | String "<" rest =>
      let n := String.length rest in
      if (0 <? n)%nat && String.eqb (String.substring (n - 1) 1 rest) ">"
      then Var (String.substring 0 (n - 1) rest) else Lit text
  | _ => Lit text
  end.

Record rule := mk_rule {
  r_text : string;
  r_methods : list http_method;
  r_endpoint : string
}.

Definition rule_segments (r : rule) : list segment :=
  map segment_of (default [] (path_segments (r_text r))).

(** The decorators, in the order the module registers them, each with
    the line of [src/app.py] it stands at.  A rule without [methods]
    accepts GET. *)

(** Line 61. *)
Definition login_rule := mk_rule "/" [GET; POST] "login".

(** Line 101. *)
Definition logout_rule := mk_rule "/logout" [GET] "logout".

(** Line 107. *)
Definition receptionist_dashboard_rule := mk_rule "/receptionist_dashboard" [GET; POST] "receptionist_dashboard".

(** Line 419. *)
Definition doctor_dashboard_rule := mk_rule "/doctor_dashboard" [GET] "doctor_dashboard".

(** Line 596. *)
Definition pharmacist_dashboard_rule := mk_rule "/pharmacist_dashboard" [GET] "pharmacist_dashboard".

(** Line 728. *)
Definition book_appointment_rule := mk_rule "/book_appointment" [POST] "book_appointment".

(** Line 769. *)
Definition check_in_rule := mk_rule "/check_in/<id>/<status>" [POST] "check_in".

(** Line 788. *)
Definition get_diagnosis_rule := mk_rule "/diagnosis/<id>" [GET] "get_diagnosis".

(** Line 810. *)
Definition save_diagnosis_rule := mk_rule "/save_diagnosis/<id>" [POST] "save_diagnosis".

(** Line 833. *)
Definition prepare_medicine_rule := mk_rule "/prepare_medicine/<id>" [POST] "prepare_medicine".

(** Line 850. *)
Definition get_billing_rule := mk_rule "/billing/<id>" [GET] "get_billing".

(** Line 877. *)
Definition billing_prepare_rule := mk_rule "/billing_prepare/<id>" [POST] "billing_prepare".

(** Line 908. *)
Definition hand_over_medicine_rule := mk_rule "/hand_over_medicine/<id>" [POST] "hand_over_medicine".

(** Line 928. *)
Definition courier_done_rule := mk_rule "/courier_done/<id>" [POST] "courier_done".

(** Line 951. *)
Definition complete_checkout_rule := mk_rule "/complete_checkout/<id>" [POST] "complete_checkout".

Definition url_map : list rule :=
  [login_rule; logout_rule; receptionist_dashboard_rule; doctor_dashboard_rule;
   pharmacist_dashboard_rule; book_appointment_rule; check_in_rule; get_diagnosis_rule;
   save_diagnosis_rule; prepare_medicine_rule; get_billing_rule; billing_prepare_rule;
   hand_over_medicine_rule; courier_done_rule; complete_checkout_rule].

(** ** Matching *)

(** The segments of a path against those of a rule: the values of the
    rule's variables, in order. *)
Fixpoint match_segments (pat : list segment) (segs : list string) : option (list string) :=
  match pat, segs with
  | [], [] => Some []
  | Lit l :: pat', x :: segs' => if String.eqb l x then match_segments pat' segs' else None
  | Var _ :: pat', x :: segs' =>
      match x with
      | EmptyString => None
      | _ => (fun args => x :: args) <$> match_segments pat' segs'
      end
  | _, _ => None
  end.

Inductive dispatch_result :=
| NotFound                                       (** 404 *)
| MethodNotAllowed                               (** 405 *)
| Endpoint (endpoint : string) (args : list string).

(** [MapAdapter.match]: the first rule that matches the path and allows
    the method; 405 when rules match the path but none allows it. *)
Definition dispatch (m : http_method) (path : string) : dispatch_result :=
  match path_segments path with
  | None => NotFound
  | Some segs =>
      let hits := filter (fun r => is_Some (match_segments (rule_segments r) segs)) url_map in
      match List.find (fun r => bool_decide (m ∈ r_methods r)) hits with
      | Some r => Endpoint (r_endpoint r) (default [] (match_segments (rule_segments r) segs))
      | None => if bool_decide (hits = []) then NotFound else MethodNotAllowed
      end
  end.

(** [url_for(endpoint)] for a rule without variables. *)
Definition url_for (endpoint : string) : option string :=
  r_text <$> List.find (fun r => String.eqb (r_endpoint r) endpoint) url_map.

(** ** Views *)

(** The body of the request, as the views read it. *)
Inductive body :=
| NoBody
| LoginForm (username password : string)        (** [request.form] of the login page *)
| BookingForm (data : booking_data)             (** [request.form] with [booking] *)
| BookingJson (data : booking_data)             (** [request.json] of [book_appointment] *)
| DiagnosisJson (data : diagnosis_data)         (** [request.json] of [save_diagnosis] *)
| BillingJson (p : billing_payload).            (** [request.json] of [billing_prepare] *)

Inductive route_result :=
| HttpError (status : Z)
| Routed (req : request)
| BodyNotModelled (endpoint : string).

(** The view of an endpoint called with its arguments and the body.
    [login] reads the form only on a POST; [receptionist_dashboard]
    books only on a POST whose form has [booking]. *)
Definition view (m : http_method) (endpoint : string) (args : list string) (b : body) : route_result :=
  let no := BodyNotModelled endpoint in
  let with_id (k : string -> route_result) := match args with [id] => k id | _ => no end in
  if String.eqb endpoint "login" then
    match b with
    | LoginForm u p => Routed (RLogin (if bool_decide (m = POST) then Some (u, p) else None))
    | _ => if bool_decide (m = POST) then no else Routed (RLogin None)
    end
  else if String.eqb endpoint "logout" then Routed RLogout
  else if String.eqb endpoint "receptionist_dashboard" then
    match b with
    | BookingForm data =>
        Routed (RReceptionistDashboard
                  (if bool_decide (m = POST) then DashboardBooking data else DashboardView))
    | _ => Routed (RReceptionistDashboard DashboardView)
    end
  else if String.eqb endpoint "doctor_dashboard" then Routed RDoctorDashboard
  else if String.eqb endpoint "pharmacist_dashboard" then Routed RPharmacistDashboard
  else if String.eqb endpoint "book_appointment" then
    match b with BookingJson data => Routed (RBookAppointment data) | _ => no end
  else if String.eqb endpoint "check_in" then
    match args with [id; status] => Routed (RCheckIn id status) | _ => no end
  else if String.eqb endpoint "get_diagnosis" then with_id (fun id => Routed (RGetDiagnosis id))
  else if String.eqb endpoint "save_diagnosis" then
    with_id (fun id => match b with DiagnosisJson data => Routed (RSaveDiagnosis id data) | _ => no end)
  else if String.eqb endpoint "prepare_medicine" then with_id (fun id => Routed (RPrepareMedicine id))
  else if String.eqb endpoint "get_billing" then with_id (fun id => Routed (RGetBilling id))
  else if String.eqb endpoint "billing_prepare" then
    with_id (fun id => match b with BillingJson p => Routed (RBillingPrepare id p) | _ => no end)
  else if String.eqb endpoint "hand_over_medicine" then with_id (fun id => Routed (RHandOver id))
  else if String.eqb endpoint "courier_done" then with_id (fun id => Routed (RCourierDone id))
  else if String.eqb endpoint "complete_checkout" then with_id (fun id => Routed (RCompleteCheckout id))
  else no.

Definition route (m : http_method) (path : string) (b : body) : route_result :=
  match dispatch m path with
  | NotFound => HttpError 404
  | MethodNotAllowed => HttpError 405
  | Endpoint e args => view m e args b
  end.

(** ** The pages' requests *)

(** The [fetch] of each button's function: method and URL
    (lines 345, 350, 390, 395, 400, 548 and 710). *)
Definition js_fetch (c : js_call) : http_method * string :=
  match c with
  | JsCheckIn id status => (POST, "/check_in/" ++ id ++ "/" ++ status)
  | JsShowBillingForm id => (GET, "/billing/" ++ id)
  | JsHandOverMedicine id => (POST, "/hand_over_medicine/" ++ id)
  | JsCourierDone id => (POST, "/courier_done/" ++ id)
  | JsCompleteCheckout id => (POST, "/complete_checkout/" ++ id)
  | JsPrepareMedicine id => (POST, "/prepare_medicine/" ++ id)
  | JsShowDoctorForm id => (GET, "/diagnosis/" ++ id)
  end.

(** Every request the pages' scripts send: a button's function, or the
    Save button of one of the two editors with its JSON body
    ([saveBilling], lines 366-388; [saveDiagnosis], lines 561-580). *)
Inductive page_fetch :=
| FetchCall (c : js_call)
| FetchSaveBilling (f : billing_form)
| FetchSaveDiagnosis (f : doctor_form).

Definition page_request (p : page_fetch) : http_method * string * body :=
  match p with
  | FetchCall c => ((js_fetch c).1, (js_fetch c).2, NoBody)
  | FetchSaveBilling f =>
      (POST, "/billing_prepare/" ++ billingAppointmentId f, BillingJson (billing_body f))
  | FetchSaveDiagnosis f =>
      match saveDiagnosis f with
      | RSaveDiagnosis _ data => (POST, "/save_diagnosis/" ++ appointmentId f, DiagnosisJson data)
      | _ => (POST, "/save_diagnosis/" ++ appointmentId f, NoBody)
      end
  end.

(** The request [Scripts] sends for it. *)
Definition page_intent (p : page_fetch) : request :=
  match p with
  | FetchCall c => fetch_of c
  | FetchSaveBilling f => saveBilling f
  | FetchSaveDiagnosis f => saveDiagnosis f
  end.

(** A character the browser sends in a path as it is and the server
    gives back as it is: a letter, a digit, ['-'] or ['_'] (RFC 3986's
    unreserved characters but ['.'] and ['~']). *)
Definition unreserved (c : ascii) : bool :=
  char_between "a" "z" c || char_between "A" "Z" c || char_between "0" "9" c ||
  Ascii.eqb c "-" || Ascii.eqb c "_".

Definition segment_safe (s : string) : bool :=
  negb (String.eqb s EmptyString) && forallb unreserved (list_ascii_of_string s).

Definition js_call_safe (c : js_call) : bool :=
  match c with
  | JsCheckIn id status => segment_safe id && segment_safe status
  | JsShowBillingForm id | JsHandOverMedicine id | JsCourierDone id | JsCompleteCheckout id
  | JsPrepareMedicine id | JsShowDoctorForm id => segment_safe id
  end.

Definition page_fetch_safe (p : page_fetch) : bool :=
  match p with
  | FetchCall c => js_call_safe c
  | FetchSaveBilling f => segment_safe (billingAppointmentId f)
  | FetchSaveDiagnosis f => segment_safe (appointmentId f)
  end.

(** ** Lemmas *)

Lemma append_cons (c : ascii) (s t : string) : String c s ++ t = String c (s ++ t).
Proof. reflexivity. Qed.

Lemma append_nil (t : string) : EmptyString ++ t = t.
Proof. reflexivity. Qed.

Lemma split_slash_no_slash (a : string) :
  forallb unreserved (list_ascii_of_string a) = true -> split_slash a = [a].
Proof.
  induction a as [|c a IH]; simpl; [done|]. intros [Hc Ha]%andb_prop.
  rewrite IH by done. destruct (Ascii.eqb_spec c "/") as [->|]; [discriminate Hc|done].
Qed.

Lemma split_slash_app (a b : string) :
  forallb unreserved (list_ascii_of_string a) = true ->
  split_slash (a ++ String "/" b) = a :: split_slash b.
Proof.
  induction a as [|c a IH]; simpl; [done|]. intros [Hc Ha]%andb_prop.
  rewrite IH by done. destruct (Ascii.eqb_spec c "/") as [->|]; [discriminate Hc|done].
Qed.

(** Split the hypotheses of [js_call_safe] and make each argument a
    non-empty string. *)
Ltac safe_args :=
  repeat match goal with H : _ && _ = true |- _ => apply andb_prop in H as [? ?] end.

Ltac nonempty_args :=
  repeat match goal with
         | H : negb (String.eqb ?x EmptyString) = true |- _ => destruct x; [discriminate H|clear H]
         end.

(** Every button's [fetch] reaches, through the URL map, the request
    [fetch_of] gives it when its arguments are safe path segments. *)
Lemma js_fetch_route (c : js_call) :
  js_call_safe c = true -> route (js_fetch c).1 (js_fetch c).2 NoBody = Routed (fetch_of c).
Proof.
  destruct c; unfold js_call_safe, segment_safe; intros H; safe_args;
    unfold route, dispatch, js_fetch, fst, snd; rewrite ?append_cons, ?append_nil; simpl;
    repeat first [rewrite split_slash_app by done | rewrite split_slash_no_slash by done];
    nonempty_args; reflexivity.
Qed.

(** C20: every request the pages' scripts send by [fetch] (a button's
    function, or the Save button of the billing or the diagnosis editor
    with its JSON body) reaches, through Flask's URL map, the view and
    the request [Scripts] gives it, with the appointment id (and the
    check-in status) as arguments, whenever these are non-empty and made
    of letters, digits, ['-'] and ['_'] (every [uuid4] string is). *)
Theorem page_fetch_routed (p : page_fetch) :
  page_fetch_safe p = true ->
  route (page_request p).1.1 (page_request p).1.2 (page_request p).2 = Routed (page_intent p).
Proof.
  destruct p as [[]| |]; unfold page_fetch_safe, js_call_safe, segment_safe; intros H; safe_args;
    unfold page_request, page_intent, saveBilling, saveDiagnosis, route, dispatch, js_fetch, fst, snd;
    rewrite ?append_cons, ?append_nil; simpl;
    repeat first [rewrite split_slash_app by done | rewrite split_slash_no_slash by done];
    nonempty_args; reflexivity.
Qed.

(** An appointment id with a ['/'] in it would make the check-in button
    answer 404. *)
Example check_in_slash_not_found :
  route (js_fetch (JsCheckIn "A/1" "Scheduled")).1 (js_fetch (JsCheckIn "A/1" "Scheduled")).2 NoBody
  = HttpError 404.
Proof. reflexivity. Qed.

(** Every endpoint the handlers redirect to has a URL, which a GET
    reaches. *)
Lemma redirect_targets_served (t : string) :
  t ∈ ["login"; "receptionist_dashboard"; "doctor_dashboard"; "pharmacist_dashboard"] ->
  exists u req, url_for t = Some u /\ route GET u NoBody = Routed req.
Proof. intros Ht. repeat (inversion Ht as [|? ? ? Ht']; subst; clear Ht; try rename Ht' into Ht); eauto. Qed.

Lemma page_fetch_routed_witness :
  page_fetch_safe (FetchCall (JsCheckIn "uuid-1" "Scheduled")) = true /\
  route POST "/check_in/uuid-1/Scheduled" NoBody = Routed (RCheckIn "uuid-1" "Scheduled").
Proof.
  split; [reflexivity|].
  exact (page_fetch_routed (FetchCall (JsCheckIn "uuid-1" "Scheduled")) eq_refl).
Defined.

End Routing.
