(* ===== verification/Forms.v ===== *)
(** * The receptionist's booking form

    The receptionist's page (lines 205-225 of [src/app.py]) has a
    [<form method="post">] without [action]: submitting it posts its
    form data set to the page's own URL, [/receptionist_dashboard], with
    the hidden [booking=1], so [receptionist_dashboard] takes its booking
    path.  Each control sends its value after the element's value
    sanitization: text inputs drop line breaks, the number input [age]
    keeps only a valid floating-point number, the date input keeps only
    a valid date string (a year of four or more digits), a select sends
    the option picked, its first option if none was.  No control is
    [required], so an empty date can be submitted.  The URL encoding of
    the form and Werkzeug's decoding of [request.form] give the values
    back unchanged.

    The theorem: the form always reaches the dashboard's booking path
    with these values, and [datetime.strptime] accepts its date exactly
    when the date input holds a valid date whose year has four digits:
    an empty date, or a year after 9999 from the date picker, makes the
    request fail with [ValueError]. *)

From S2P Require Import Prelude Dates Booking App Scripts Routing.
Import Dates Booking App Scripts Routing.
Local Open Scope clinic_scope.
Local Open Scope Z_scope.

Module Forms.

(** The options of the two selects. *)
Definition reason_options : list string := ["Consultation"; "Collecting Medicine"; "Other"].
Definition booking_type_options : list string := ["Online Direct"; "Online Manual"; "Manual In-Clinic"].

(** What the user left in each control. *)
Record booking_form := mk_booking_form {
  patient_name : string;
  mobile_number : string;
  age : string;
  address : string;
  reason : string;
  appointment_date : string;
  booking_type : string
}.

(** A select shows the option the user picked, or its first option. *)
Definition select_picked (options : list string) (v : string) : string :=
  if bool_decide (v ∈ options) then v else default EmptyString (head options).

Definition is_nil (l : list ascii) : bool := match l with [] => true | _ => false end.

(** The optional exponent of a valid floating-point number. *)
Definition exponent_ok (l : list ascii) : bool :=
  match l with
  | [] => true
  | e :: r =>
      (Ascii.eqb e "e" || Ascii.eqb e "E") &&
      let r' := match r with
                | s :: r'' => if Ascii.eqb s "+" || Ascii.eqb s "-" then r'' else r
                | [] => r
                end in
      let '(ds, rest) := span_digits r' in
      negb (is_nil ds) && is_nil rest
  end.

(** A valid floating-point number (HTML): an optional ['-'], digits,
    or digits, ['.'] and digits, or ['.'] and digits, then an optional
    exponent. *)
Definition valid_float (v : string) : bool :=
  let l := list_ascii_of_string v in
  let l1 := match l with c :: r => if Ascii.eqb c "-" then r else l | [] => l end in
  let '(ip, r1) := span_digits l1 in
  match r1 with
  | c :: r2 =>
      if Ascii.eqb c "." then
        let '(fp, r3) := span_digits r2 in negb (is_nil fp) && exponent_ok r3
      else negb (is_nil ip) && exponent_ok r1
  | [] => negb (is_nil ip)
  end.

(** [<input type="number">]: a value that is not a valid floating-point
    number becomes ['']. *)
Definition number_input (v : string) : string := if valid_float v then v else EmptyString.

(** The form data set, as [request.form] reads it on lines 112-120. *)
Definition form_data (f : booking_form) : booking_data :=
  mk_booking (text_input (patient_name f)) (text_input (mobile_number f)) (number_input (age f))
             (text_input (address f)) (select_picked reason_options (reason f))
             (date_input (appointment_date f)) (select_picked booking_type_options (booking_type f)).

(** Submitting the form: a POST to the page's URL. *)
Definition submit_booking (f : booking_form) : http_method * string * body :=
  (POST, "/receptionist_dashboard", BookingForm (form_data f)).

(** The login page's form (lines 91-95): a POST of [username] and
    [password] to the page's URL, ['/']; both inputs drop line breaks. *)
Definition submit_login (username password : string) : http_method * string * body :=
  (POST, "/", LoginForm (text_input username) (text_input password)).

(** The number of digits of the year of a date string. *)
Definition year_digits (v : string) : nat := List.length (span_digits (list_ascii_of_string v)).1.

(** ** Lemmas *)

Lemma span_digits_app (l : list ascii) :
  l = ((span_digits l).1 ++ (span_digits l).2)%list /\ Forall (fun c => is_digit c = true) (span_digits l).1.
Proof.
  induction l as [|c l [IH Hd]]; cbn; [done|].
  destruct (is_digit c) eqn:Hc; cbn; [|done].
  destruct (span_digits l) as [ds rest]; cbn in *. split; [by f_equal|by constructor].
Qed.

Lemma digits_value_two (a b : ascii) : digits_value [a; b] = 10 * digit_value a + digit_value b.
Proof. unfold digits_value. cbn. lia. Qed.

(** Two digits are the [pad2] of their value. *)
Lemma pad2_digits (a b : ascii) :
  is_digit a = true -> is_digit b = true -> pad2 (digits_value [a; b]) = [a; b].
Proof.
  intros Ha Hb. destruct (digit_inv a Ha) as [Ra Ea], (digit_inv b Hb) as [Rb Eb].
  rewrite digits_value_two. unfold pad2.
  rewrite <- (Z.div_unique (10 * digit_value a + digit_value b) 10 (digit_value a) (digit_value b)),
    <- (Z.mod_unique (10 * digit_value a + digit_value b) 10 (digit_value a) (digit_value b)), Ea, Eb
    by lia.
  reflexivity.
Qed.

Lemma re_year_four (a b c e : ascii) (r : list ascii) :
  Forall (fun x => is_digit x = true) [a; b; c; e] ->
  re_year (a :: b :: c :: e :: r) = [(digits_value [a; b; c; e], r)].
Proof.
  rewrite !Forall_cons. intros (Ha & Hb & Hc & He & _).
  cbn [re_year]. rewrite Ha, Hb, Hc, He. cbn [andb]. unfold digits_value. cbn [fold_left].
  repeat f_equal. lia.
Qed.

Lemma digit_not_hyphen (c : ascii) : is_digit c = true -> Ascii.eqb c "-" = false.
Proof. intros Hc. destruct (Ascii.eqb_spec c "-") as [->|]; [discriminate Hc|done]. Qed.

Lemma digits_value_four_bound (a b c e : ascii) :
  Forall (fun x => is_digit x = true) [a; b; c; e] -> digits_value [a; b; c; e] <= 9999.
Proof.
  rewrite !Forall_cons. intros (Ha & Hb & Hc & He & _).
  pose proof (digit_inv a Ha) as [? _]. pose proof (digit_inv b Hb) as [? _].
  pose proof (digit_inv c Hc) as [? _]. pose proof (digit_inv e He) as [? _].
  unfold digits_value. cbn. lia.
Qed.

(** What [valid_date_string] accepts: a year of four or more digits,
    then ["-mm-dd"] with a month and a day of that month. *)
Lemma valid_date_string_shape (v : string) :
  valid_date_string v = true ->
  exists ys m1 m2 d1 d2,
    list_ascii_of_string v = (ys ++ ["-"; m1; m2; "-"; d1; d2])%char%list /\
    year_digits v = List.length ys /\
    Forall (fun x => is_digit x = true) ys /\ (4 <= List.length ys)%nat /\
    is_digit m1 = true /\ is_digit m2 = true /\ is_digit d1 = true /\ is_digit d2 = true /\
    0 < digits_value ys /\ 1 <= digits_value [m1; m2] <= 12 /\
    1 <= digits_value [d1; d2] <= days_in_month (digits_value ys) (digits_value [m1; m2]).
Proof.
  unfold valid_date_string, year_digits. destruct (span_digits_app (list_ascii_of_string v)) as [Hl Hd].
  destruct (span_digits _) as [ys rest]; cbn [fst snd] in Hl, Hd |- *.
  destruct rest as [|h1 [|m1 [|m2 [|h2 [|d1 [|d2 [|]]]]]]]; try discriminate.
  intros H. cbn [forallb] in H.
  repeat match goal with
         | H : _ && _ = true |- _ => apply andb_prop in H as [? ?]
         | H : Ascii.eqb _ _ = true |- _ => apply Ascii.eqb_eq in H; subst
         | H : Nat.leb _ _ = true |- _ => apply Nat.leb_le in H
         | H : Z.leb _ _ = true |- _ => apply Z.leb_le in H
         | H : Z.ltb _ _ = true |- _ => apply Z.ltb_lt in H
         end.
  exists ys, m1, m2, d1, d2. split_and!; done || lia.
Qed.

(** A valid date string with a four-digit year is parsed to its date. *)
Lemma strptime_four_digit_year (v : string) (ys : list ascii) (m1 m2 d1 d2 : ascii) :
  list_ascii_of_string v = (ys ++ ["-"; m1; m2; "-"; d1; d2])%char%list ->
  Forall (fun x => is_digit x = true) ys -> List.length ys = 4%nat ->
  is_digit m1 = true -> is_digit m2 = true -> is_digit d1 = true -> is_digit d2 = true ->
  0 < digits_value ys -> 1 <= digits_value [m1; m2] <= 12 ->
  1 <= digits_value [d1; d2] <= days_in_month (digits_value ys) (digits_value [m1; m2]) ->
  strptime_ymd v = inr (mk_date (digits_value ys) (digits_value [m1; m2]) (digits_value [d1; d2])).
Proof.
  intros Hv Hys Hlen Hm1 Hm2 Hd1 Hd2 Hy Hm Hd.
  destruct ys as [|a [|b [|c [|e [|]]]]]; try discriminate Hlen.
  pose proof (digits_value_four_bound a b c e Hys) as Hy'.
  unfold strptime_ymd, re_ymd. rewrite Hv. cbn [app]. rewrite re_year_four by done.
  cbn [mbind list_bind re_lit Ascii.eqb fst snd]. cbn -[re_month re_day digits_value].
  set (mv := digits_value [m1; m2]) in *. set (dv := digits_value [d1; d2]) in *.
  assert (Hl : (m1 :: m2 :: "-" :: d1 :: d2 :: [])%char = (pad2 mv ++ "-"%char :: pad2 dv)%list)
    by (unfold mv, dv; rewrite !pad2_digits by done; reflexivity).
  destruct (re_month_complete mv (pad2 mv) (pad2 dv) Hm) as [lm Em]; [left|].
  destruct (re_day_complete dv (pad2 dv)) as [ld Ed];
    [pose proof (days_in_month_le_31 (digits_value [a; b; c; e]) mv); lia|left|].
  rewrite Hl, Em. cbn -[re_day pad2 digits_value]. rewrite Ed. cbn -[digits_value].
  apply make_date_inr. split; [done|]. unfold valid_date; cbn [year month day]. lia.
Qed.

(** A year of five or more digits is not matched by [%Y-]. *)
Lemma strptime_long_year (v : string) (ys rest : list ascii) :
  list_ascii_of_string v = (ys ++ rest)%list ->
  Forall (fun x => is_digit x = true) ys -> (5 <= List.length ys)%nat ->
  strptime_ymd v = inl NoMatch.
Proof.
  intros Hv Hys Hlen. destruct ys as [|a [|b [|c [|e [|g ys]]]]]; cbn in Hlen; try lia.
  apply Forall_cons in Hys as [Ha Hys]. apply Forall_cons in Hys as [Hb Hys].
  apply Forall_cons in Hys as [Hc Hys]. apply Forall_cons in Hys as [He Hys].
  apply Forall_cons in Hys as [Hg _].
  unfold strptime_ymd, re_ymd. rewrite Hv. cbn [app].
  rewrite (re_year_four a b c e) by (repeat constructor; done).
  cbn. rewrite (digit_not_hyphen g Hg). reflexivity.
Qed.

(** The login form reaches [login] with what was typed. *)
Lemma submit_login_routed (username password : string) :
  route (submit_login username password).1.1 (submit_login username password).1.2
        (submit_login username password).2
  = Routed (RLogin (Some (text_input username, text_input password))).
Proof. reflexivity. Qed.

(** ** The form and the dashboard's date parsing *)

(** C31: submitting the receptionist's booking form, whatever the user
    left in its controls, reaches the dashboard's booking path with the
    controls' sanitized values, and [datetime.strptime(date,
    '%Y-%m-%d')] on line 138 accepts the date exactly when the date
    input holds a valid date whose year has four digits.  So an empty
    date (no control of the form is [required]) or a date after the year
    9999 picked in the date input makes the booking fail with
    [ValueError]. *)
Theorem booking_form_submitted (f : booking_form) :
  route (submit_booking f).1.1 (submit_booking f).1.2 (submit_booking f).2 =
    Routed (RReceptionistDashboard (DashboardBooking (form_data f))) /\
  ((exists t, strptime_ymd (bk_appointment_date (form_data f)) = inr t) <->
   valid_date_string (appointment_date f) = true /\ year_digits (appointment_date f) = 4%nat).
Proof.
  split; [reflexivity|]. cbn [form_data bk_appointment_date]. unfold date_input.
  destruct (valid_date_string (appointment_date f)) eqn:Hv.
  - destruct (valid_date_string_shape _ Hv)
      as (ys & m1 & m2 & d1 & d2 & Hl & -> & Hys & H4 & Hm1 & Hm2 & Hd1 & Hd2 & Hy & Hm & Hd).
    split.
    + intros [t Ht]. split; [done|]. destruct (decide (List.length ys = 4%nat)) as [|Hne]; [done|].
      rewrite (strptime_long_year _ ys _ Hl Hys) in Ht by lia. discriminate Ht.
    + intros [_ H4']. eexists. by apply strptime_four_digit_year.
  - split; [intros [t Ht]; vm_compute in Ht; discriminate Ht | intros [? _]; discriminate].
Qed.

End Forms.
