(* ===== verification/Ui.v ===== *)
(** * The pages and the server together

    A click on a dashboard button runs the button's [onclick] (the
    page's scripts, [Scripts]), whose [fetch] goes through Flask's URL
    map ([Routing]) to the view and its handler ([App]); the page then
    alerts and reloads, and the reloaded dashboard renders the rows
    ([Pages]) from the database the handler committed.  A browser (or a
    [fetch]) follows each redirect a view answers with a GET of the
    endpoint's URL.

    The theorems: the pharmacist's Prepare Medicine button and the
    receptionist's Check-In button do what their alert says and vanish
    from the row once the page reloads; and every redirect the
    application answers with lands, after at most two more requests, on
    the login form of a logged-out client or on the dashboard of the
    client's own role: no redirect loops and no redirect to a page the
    session may not see. *)

From S2P Require Import Prelude Dates Schema Txn Auth Fixtures Lifecycle Booking Diagnosis Billing App Pages Scripts Routing.
Import Dates Schema Txn Auth Fixtures Lifecycle Booking Diagnosis Billing App Pages Scripts Routing.
Local Open Scope clinic_scope.

Module Ui.

#[export] Instance action_eq_dec : EqDecision action.
Proof. solve_decision. Defined.

(** ** The browser follows redirects *)

(** The request a GET of an endpoint's URL makes. *)
Definition follow (t : string) : option request :=
  u ← url_for t;
  match route GET u NoBody with Routed req => Some req | _ => None end.

(** One request, then up to [fuel] redirects followed: the last
    response, session and database. *)
Fixpoint browse (fuel : nat) (sha256 : string -> string) (E : env) (req : request) (s : session)
    (d : db) : response * session * db :=
  let '(r, s', d', _) := handle sha256 E req s d in
  match fuel, r with
  | S n, Redirect t =>
      match follow t with
      | Some req' => browse n sha256 E req' s' d'
      | None => (r, s', d')
      end
  | _, _ => (r, s', d')
  end.

(** Where a client may land: the login form without a user, or the
    dashboard of the session's role. *)
Definition landed (r : response) (s : session) : Prop :=
  match r with
  | Page (LoginPage None) => s_username s = None
  | Page (DashboardPage role _) => s_role s = Some role
  | _ => False
  end.

(** A handler's answer is a redirect only to the login page. *)
Definition redirect_login (r : response) : Prop :=
  match r with Redirect t => t = "login" | _ => True end.

(** ** Lemmas *)

(** The rows of the dashboards, by their appointment. *)
Lemma elem_of_dashboard_rows d r :
  r ∈ dashboard_rows d <->
  exists aid a p, appointments d !! aid = Some a /\ patients d !! a_patient_id a = Some p /\
    r = mk_joined aid a p (diagnoses d !! aid) (billing d !! aid).
Proof.
  unfold dashboard_rows. rewrite list_elem_of_omap. split.
  - intros [[aid a] [Hin Hr]]. apply elem_of_map_to_list in Hin.
    destruct (patients d !! a_patient_id a) as [p|] eqn:Hp; cbn in Hr; [|done].
    simplify_eq. eauto 7.
  - intros (aid & a & p & Ha & Hp & ->). exists (aid, a).
    split; [by apply elem_of_map_to_list|]. cbn. by rewrite Hp.
Qed.

(** A dashboard row whose appointment keeps its patient is listed again
    after a change of the other tables. *)
Lemma dashboard_row_kept d aid a p :
  appointments d !! aid = Some a -> patients d !! a_patient_id a = Some p ->
  exists r', r' ∈ dashboard_rows d /\ j_id r' = aid.
Proof. intros Ha Hp. eexists. split; [apply elem_of_dashboard_rows; eauto 7|done]. Qed.

Lemma check_in_button_shown r : CheckInButton ∈ receptionist_actions r <-> truthy (appt r 7) = false.
Proof.
  unfold receptionist_actions, when.
  destruct (truthy (appt r 7)); cbn; repeat case_match; set_solver.
Qed.

Lemma db_handler_redirects_login req s h :
  db_handler req s = Some h -> txn_post redirect_login (fun e => redirect_login (ServerError e)) h.
Proof.
  destruct req; cbn; intros [= <-];
    unfold receptionist_dashboard, doctor_dashboard, pharmacist_dashboard, list_dashboard,
      book_appointment, upsert_patient, parse_date, booking_notifications, check_in,
      get_diagnosis, save_diagnosis, prepare_medicine, get_billing, billing_prepare,
      hand_over_medicine, courier_done, complete_checkout, log_credit, guard_json, guard_page;
    txn_post_solve; cbn; auto.
Qed.

(** The dashboard of a session's role serves it. *)
Lemma dashboard_lands n sha256 E s d r :
  s_role s = Some r -> r ∈ roles ->
  exists req', follow (r ++ "_dashboard") = Some req' /\
    landed (browse n sha256 E req' s d).1.1 (browse n sha256 E req' s d).1.2.
Proof.
  intros Hs Hr. unfold roles in Hr.
  repeat (apply elem_of_cons in Hr as [->|Hr]; [eexists; split; [reflexivity|];
    destruct n; cbn [browse handle db_handler];
    unfold receptionist_dashboard, doctor_dashboard, pharmacist_dashboard, guard_page, forbidden;
    rewrite Hs; cbn; done|]).
  by apply elem_of_nil in Hr.
Qed.

(** The login page of a well-formed session: the form, or a redirect
    to the dashboard of its role. *)
Lemma login_lands n sha256 E s d :
  session_wf s ->
  landed (browse (S n) sha256 E (RLogin None) s d).1.1 (browse (S n) sha256 E (RLogin None) s d).1.2.
Proof.
  intros [->|(u & r & -> & Hr)]; [done|].
  destruct (dashboard_lands n sha256 E (mk_session (Some u) (Some r)) d r) as (req' & Hf & Hl);
    [done..|].
  cbn [browse handle login s_username s_role]. by rewrite Hf.
Qed.

Lemma follow_login : follow "login" = Some (RLogin None).
Proof. reflexivity. Qed.

Lemma browse_redirect n sha256 E req s d t s' d' effs req' :
  handle sha256 E req s d = (Redirect t, s', d', effs) -> follow t = Some req' ->
  browse (S n) sha256 E req s d = browse n sha256 E req' s' d'.
Proof. intros Hh Hf. cbn [browse]. rewrite Hh. cbn -[follow]. by rewrite Hf. Qed.

(** A redirect from a route's handler goes to the login page and keeps
    the session. *)
Lemma handle_db_redirect sha256 E req s d t :
  (forall f, req <> RLogin f) -> req <> RLogout ->
  (handle sha256 E req s d).1.1.1 = Redirect t ->
  t = "login" /\ (handle sha256 E req s d).1.1.2 = s.
Proof.
  intros Hl Ho Ht. destruct req; try solve [destruct (Hl form); done | destruct Ho; done];
    cbn [handle] in Ht |- *; destruct (db_handler _ s) as [h|] eqn:Hh; try discriminate;
    pose proof (run_post _ h E d (db_handler_redirects_login _ _ _ Hh)) as Hr;
    unfold response_of in Hr; destruct (run h E d) as [[r d'] effs]; cbn in Ht |- *; subst r;
    by cbn [redirect_login] in Hr.
Qed.

(** The mobile number [fetch_mobile] reads for a listed appointment. *)
Lemma select_mobile_listed d aid a p :
  appointments d !! aid = Some a -> patients d !! a_patient_id a = Some p ->
  select_mobile d aid = Some (p_mobile_number p).
Proof. intros Ha Hp. unfold select_mobile. by rewrite Ha; cbn; rewrite Hp. Qed.

(** ** Theorems *)

(** C18: a pharmacist's click on Prepare Medicine in the row of a listed
    appointment (an id of letters, digits, ['-'] and ['_'], as every
    [uuid4] is) posts to [/prepare_medicine/<id>], which Flask routes to
    [prepare_medicine] for that id; the server answers 200 "Medicines
    prepared" and the page alerts it; the database now has a billing
    row for the appointment (the placeholder, if there was none) with
    [medicines_prepared = 1]; and on the reloaded dashboard the
    appointment is still listed with the same buttons as before: the
    Prepare Medicine button stays, because the template tests
    [appt[32]], the payment id the handler does not touch, rather than
    [medicines_prepared] at position 34. *)
Theorem prepare_click_served sha256 E s d r :
  forbidden s "pharmacist" = false -> r ∈ dashboard_rows d -> segment_safe (j_id r) = true ->
  let d' := update_billing (j_id r) set_prepared (ensure_billing (j_id r) d) in
  route (js_fetch (onclick PrepareMedicineButton r)).1 (js_fetch (onclick PrepareMedicineButton r)).2
    NoBody = Routed (RPrepareMedicine (j_id r)) /\
  click sha256 E s (onclick PrepareMedicineButton r) d
    = (JsonMessage 200 "Medicines prepared", Alerted "Medicines prepared", d') /\
  (exists b, billing d' !! j_id r = Some b /\ b_medicines_prepared b = Some 1%Z) /\
  (exists r', r' ∈ dashboard_rows d' /\ j_id r' = j_id r) /\
  forall r', r' ∈ dashboard_rows d' -> j_id r' = j_id r -> pharmacist_actions r' = pharmacist_actions r.
Proof.
  intros Hs Hr Hsafe d'. apply elem_of_dashboard_rows in Hr as (aid & a & p & Ha & Hp & ->).
  cbn [j_id] in *.
  assert (Hb : billing d' !! aid = Some (set_prepared (default placeholder_billing (billing d !! aid))))
    by (subst d'; rewrite billing_update_billing_eq, billing_ensure_billing_eq; reflexivity).
  split_and!.
  - exact (js_fetch_route (JsPrepareMedicine aid) Hsafe).
  - unfold click. cbn [handle db_handler fetch_of onclick j_id].
    by rewrite prepare_medicine_eq, Hs, (select_mobile_listed d aid a p).
  - by eexists.
  - apply (dashboard_row_kept _ _ a p); subst d'; cbn [appointments patients update_billing];
      by rewrite ?appointments_ensure_billing, ?patients_ensure_billing.
  - intros r' Hr' Hid. apply elem_of_dashboard_rows in Hr' as (aid' & a' & p' & _ & _ & ->).
    cbn in Hid; subst aid'. rewrite Hb. by destruct (billing d !! aid).
Qed.

(** C25: every redirect the application answers to a client with a
    well-formed session (logged out, or logged in with one of the three
    roles) lands, after at most two more GETs, on the login form of a
    logged-out client or on the dashboard of the client's own role: a
    login redirects to the role's dashboard, a logout and a dashboard's
    guard to the login page, which sends a logged-in client on to its
    own dashboard.  No redirect loops, and none leads to a page that
    would redirect again or to an endpoint without a URL. *)
Theorem redirects_land sha256 E req s d t :
  session_wf s -> (handle sha256 E req s d).1.1.1 = Redirect t ->
  landed (browse 2 sha256 E req s d).1.1 (browse 2 sha256 E req s d).1.2.
Proof.
  intros Hwf Ht.
  destruct req as [form| | | | | | | | | | | | | |]; [| |
    lazymatch goal with |- context [browse _ _ _ ?q _ _] => set (req := q) in * end;
    destruct (handle_db_redirect sha256 E req s d t) as [-> Hs]; [done..|];
    destruct (handle sha256 E req s d) as [[[r s'] d'] effs] eqn:Hh; cbn in Ht, Hs; subst r s';
    erewrite browse_redirect; [|exact Hh|exact follow_login]; by apply login_lands..].
  - destruct Hwf as [->|(u & r & -> & Hr)].
    + destruct form as [[u pw]|]; cbn in Ht; [|discriminate].
      destruct (find_user sha256 u (sha256 pw)) as [r|] eqn:Hf; [|discriminate].
      destruct (dashboard_lands 1 sha256 E (mk_session (Some u) (Some r)) d r) as (req' & Hfl & Hl);
        [done|by eapply find_user_role|].
      erewrite browse_redirect; [exact Hl| |exact Hfl]. cbn. by rewrite Hf.
    + destruct (dashboard_lands 1 sha256 E (mk_session (Some u) (Some r)) d r) as (req' & Hfl & Hl);
        [done..|].
      by erewrite browse_redirect; [exact Hl| |exact Hfl].
  - erewrite browse_redirect; [|reflexivity|exact follow_login]. by apply login_lands; left.
Qed.

(** C34: a receptionist's click on Check-In in the row of a listed
    appointment posts to [/check_in/<id>/Scheduled], which Flask routes
    to [check_in] for that id and the status "Scheduled"; the server
    answers 200 "Checked in", the page alerts "Checked in as Scheduled",
    and the appointment now has that status and the request's time
    ([%Y-%m-%d %H:%M:%S]); on the reloaded dashboard the appointment is
    still listed, shows that status and time ([appt[7]], [appt[8]]),
    and no longer has the Check-In button. *)
Theorem check_in_click_served sha256 E s d r :
  forbidden s "receptionist" = false -> r ∈ dashboard_rows d -> segment_safe (j_id r) = true ->
  let d' := update_checkin (j_id r) "Scheduled" (strftime_ymd_hms (env_now E)) d in
  route (js_fetch (onclick CheckInButton r)).1 (js_fetch (onclick CheckInButton r)).2 NoBody
    = Routed (RCheckIn (j_id r) "Scheduled") /\
  click sha256 E s (onclick CheckInButton r) d
    = (JsonMessage 200 "Checked in", Alerted "Checked in as Scheduled", d') /\
  (exists r', r' ∈ dashboard_rows d' /\ j_id r' = j_id r) /\
  forall r', r' ∈ dashboard_rows d' -> j_id r' = j_id r ->
    (CheckInButton ∉ receptionist_actions r') /\ appt r' 7 = VText "Scheduled" /\
    appt r' 8 = VText (strftime_ymd_hms (env_now E)).
Proof.
  intros Hs Hr Hsafe d'. apply elem_of_dashboard_rows in Hr as (aid & a & p & Ha & Hp & ->).
  cbn [j_id] in *.
  assert (Ha' : appointments d' !! aid =
    Some (mk_appointment (a_patient_id a) (a_reason a) (a_booking_date a) (a_appointment_date a)
            (a_booking_type a) (a_confirmed a) "Scheduled" (strftime_ymd_hms (env_now E))))
    by (subst d'; cbn; by rewrite lookup_alter_eq, Ha).
  split_and!.
  - apply (js_fetch_route (JsCheckIn aid "Scheduled")). cbn [js_call_safe]. by rewrite Hsafe.
  - unfold click. cbn [handle db_handler fetch_of onclick j_id]. by rewrite check_in_eq, Hs, Ha.
  - by apply (dashboard_row_kept _ _ _ p Ha').
  - intros r' Hr' Hid. apply elem_of_dashboard_rows in Hr' as (aid' & a' & p' & Ha'' & _ & ->).
    cbn in Hid; subst aid'. rewrite Ha' in Ha''. injection Ha'' as <-.
    rewrite check_in_button_shown. split_and!; [by cbn|reflexivity..].
Qed.

(** ** Witnesses *)

Lemma prepare_click_served_witness :
  forbidden pharmacist "pharmacist" = false /\
  mk_joined "A1" visit asha None None ∈ dashboard_rows booked /\ segment_safe "A1" = true /\
  click (fun x => x) demo_env pharmacist (JsPrepareMedicine "A1") booked
    = (JsonMessage 200 "Medicines prepared", Alerted "Medicines prepared",
       update_billing "A1" set_prepared (ensure_billing "A1" booked)).
Proof.
  assert (Hr : mk_joined "A1" visit asha None None ∈ dashboard_rows booked)
    by (apply elem_of_dashboard_rows; exists "A1", visit, asha; split_and!; reflexivity).
  split_and!; [reflexivity|exact Hr|reflexivity|].
  exact (proj1 (proj2 (prepare_click_served (fun x => x) demo_env pharmacist booked _
                         eq_refl Hr eq_refl))).
Defined.

Lemma redirects_land_witness :
  session_wf doctor /\
  (handle (fun x => x) demo_env (RReceptionistDashboard DashboardView) doctor booked).1.1.1
    = Redirect "login" /\
  landed (browse 2 (fun x => x) demo_env (RReceptionistDashboard DashboardView) doctor booked).1.1
         (browse 2 (fun x => x) demo_env (RReceptionistDashboard DashboardView) doctor booked).1.2.
Proof.
  assert (Hwf : session_wf doctor)
    by (right; exists "doctor", "doctor"; split; [reflexivity|apply (bool_decide_unpack _); vm_compute; reflexivity]).
  split_and!; [exact Hwf|reflexivity|].
  exact (redirects_land (fun x => x) demo_env (RReceptionistDashboard DashboardView) doctor booked
           "login" Hwf eq_refl).
Defined.

Lemma check_in_click_served_witness :
  forbidden receptionist "receptionist" = false /\
  mk_joined "A1" visit asha None None ∈ dashboard_rows booked /\ segment_safe "A1" = true /\
  click (fun x => x) demo_env receptionist (JsCheckIn "A1" "Scheduled") booked
    = (JsonMessage 200 "Checked in", Alerted "Checked in as Scheduled",
       update_checkin "A1" "Scheduled" "2026-11-09 10:30:00" booked).
Proof.
  assert (Hr : mk_joined "A1" visit asha None None ∈ dashboard_rows booked)
    by (apply elem_of_dashboard_rows; exists "A1", visit, asha; split_and!; reflexivity).
  split_and!; [reflexivity|exact Hr|reflexivity|].
  exact (proj1 (proj2 (check_in_click_served (fun x => x) demo_env receptionist booked _
                         eq_refl Hr eq_refl))).
Defined.

End Ui.
